(** * music_mood_clf: the training loop of [train.py] and the export routine
      of [save_model.py]

    The development embeds the class [Trainer] (train.py, lines 21-207) and
    the function [save_model] (save_model.py, lines 13-33) and proves the
    bookkeeping properties of the loop: interval actions, termination on
    [train_max_steps], the step counter, checkpoint round trips, the
    evaluation pass and the errors raised on load and export.

    PyTorch, tensorboardX, tqdm and the logger are external.  Their numeric
    content is kept abstract in the class [Torch]; their calls are recorded
    as [event]s in the order in which the Python code performs them, and
    are taken to return.  The exceptions that the Python code itself can
    meet (a modulo by zero, a missing key or attribute, a call of something
    that cannot be called, an absent file, a strict [load_state_dict] that
    does not fit) are modelled. *)

From Stdlib Require Import ZArith List String Ascii Bool Lia DecimalString DecimalZ
  DecimalPos FinFun.
From stdpp Require Import base option list strings gmap.
Import ListNotations.
Local Open Scope string_scope.
Local Open Scope list_scope.
Local Open Scope Z_scope.

(** ** Python exceptions *)

(** The built-in exceptions that the embedded code can raise.  [train.py] and
    [save_model.py] define no exception class of their own and contain no
    [raise] statement outside the import guard of [main]. *)
Inductive exn : Type :=
| ZeroDivisionError
| KeyError (key : string)
| TypeError
| AttributeError
| FileNotFoundError
| RuntimeError.

(** [type(e).__name__] *)
Definition exn_name (e : exn) : string :=
  match e with
  | ZeroDivisionError => "ZeroDivisionError"
  | KeyError _ => "KeyError"
  | TypeError => "TypeError"
  | AttributeError => "AttributeError"
  | FileNotFoundError => "FileNotFoundError"
  | RuntimeError => "RuntimeError"
  end.

Inductive outcome (A : Type) : Type :=
| Ok (a : A)
| Raise (e : exn).
Arguments Ok {A} a.
Arguments Raise {A} e.

(** The operation failed with the error that the specification calls
    [CheckpointError]. *)
Definition fails_with_CheckpointError {A : Type} (r : outcome A) : Prop :=
  exists e, r = Raise e /\ exn_name e = "CheckpointError".

(** [str(n)] for a Python int. *)
Definition py_str (n : Z) : string := NilZero.string_of_int (Z.to_int n).

(** ** The numerical framework *)

(** What the trainer consumes from PyTorch and from the model package.
    [scalar] is a Python float, [params] is what [Module.state_dict()]
    returns, [compatible m p] says that the tensors [p] have the names and
    shapes of [m] (the test of a strict [load_state_dict]). *)
Class Torch : Type := {
  scalar : Type;
  tensor : Type;
  params : Type;
  opt_state : Type;
  sched_state : Type;
  model_config : Type;
  fzero : scalar;                                (* float() *)
  fadd : scalar -> scalar -> scalar;             (* x + y *)
  fdiv : scalar -> Z -> scalar;                  (* x / n, n <> 0 *)
  forward : bool -> params -> tensor -> tensor;  (* model(mel) in train/eval mode *)
  sigmoid : tensor -> tensor;                    (* F.sigmoid *)
  (* loss.backward(); optimizer.step() *)
  backward_step : (tensor -> tensor -> scalar) -> bool -> params -> opt_state ->
                  tensor -> tensor -> params * opt_state;
  compatible : params -> params -> bool;
  MoodRecog : model_config -> params;            (* MoodRecog(config=...) *)
  MSELoss : tensor -> tensor -> scalar;          (* torch.nn.MSELoss() *)
  BCELoss : tensor -> tensor -> scalar           (* torch.nn.BCELoss() *)
}.

Section Program.
Context `{T : Torch}.

(** ** Data *)

Record batch : Type := { mel : tensor; label : tensor }.

(** An [nn.Module]: its tensors and its [training] flag. *)
Record module : Type := { weights : params; training : bool }.

(** The [model] attribute: the module itself, or apex's
    [DistributedDataParallel(model)], which keeps it under [.module]. *)
Inductive model_obj : Type :=
| Plain (m : module)
| DDP (m : module).

(** The result of [state_dict()]: the wrapper prefixes every key with
    ["module."]. *)
Record state_dict_t : Type := { sd_prefixed : bool; sd_tensors : params }.

Definition inner (m : model_obj) : module :=
  match m with Plain x => x | DDP x => x end.

Definition model_state_dict (m : model_obj) : state_dict_t :=
  match m with
  | Plain x => {| sd_prefixed := false; sd_tensors := weights x |}
  | DDP x => {| sd_prefixed := true; sd_tensors := weights x |}
  end.

Definition module_state_dict (x : module) : state_dict_t :=
  {| sd_prefixed := false; sd_tensors := weights x |}.

(** [x.load_state_dict(sd)] with the default [strict=True]. *)
Definition module_load_state_dict (x : module) (sd : state_dict_t) : outcome module :=
  if negb (sd_prefixed sd) && compatible (weights x) (sd_tensors sd)
  then Ok {| weights := sd_tensors sd; training := training x |}
  else Raise RuntimeError.

(** [self.model.load_state_dict(sd)] *)
Definition model_load_state_dict (m : model_obj) (sd : state_dict_t) : outcome model_obj :=
  match m with
  | Plain x =>
      match module_load_state_dict x sd with
      | Ok x' => Ok (Plain x')
      | Raise e => Raise e
      end
  | DDP x =>
      if sd_prefixed sd && compatible (weights x) (sd_tensors sd)
      then Ok (DDP {| weights := sd_tensors sd; training := training x |})
      else Raise RuntimeError
  end.

(** [model.train()] and [model.eval()] *)
Definition set_training (b : bool) (m : model_obj) : model_obj :=
  match m with
  | Plain x => Plain {| weights := weights x; training := b |}
  | DDP x => DDP {| weights := weights x; training := b |}
  end.

Definition set_weights (w : params) (m : model_obj) : model_obj :=
  match m with
  | Plain x => Plain {| weights := w; training := training x |}
  | DDP x => DDP {| weights := w; training := training x |}
  end.

(** The dictionary handed to [torch.save] and returned by [torch.load]; a
    key may be missing in a file that the trainer did not write. *)
Record bundle : Type := {
  b_optimizer : option opt_state;
  b_scheduler : option sched_state;
  b_steps : option Z;
  b_epochs : option Z;
  b_model : option state_dict_t
}.

(** The keys of [config['trainer']] that the trainer reads. *)
Record Config : Type := {
  loss_fn_key : string;            (* config['loss_fn'] *)
  log_interval_steps : Z;
  save_interval_steps : Z;
  eval_interval_steps : Z;
  train_max_steps : Z;
  checkpoint_path : string;
  distributed : bool
}.

(** The [criterion] argument.  The class subscripts it (line 42) and calls it
    (line 154); [crit_call] is [None] for an object that is not callable. *)
Record criterion_obj : Type := {
  crit_getitem : string -> option (tensor -> tensor -> scalar);
  crit_call : option (tensor -> tensor -> scalar)
}.

(** The registry built by [main] (lines 304-307): a dict with two keys. *)
Definition main_criterion : criterion_obj :=
  {| crit_getitem := fun k =>
       if String.eqb k "MSE" then Some MSELoss
       else if String.eqb k "BCE" then Some BCELoss
       else None;
     crit_call := None |}.

(** [data_loader]: a pass over a loader yields its batches as a finite list
    (reshuffling permutes it between passes; the bookkeeping proved below
    does not look at the contents of a batch). *)
Record DataLoaders : Type := { dl_train : list batch; dl_eval : list batch }.

(** [sampler['train']]: [None] unless distributed. *)
Record Samplers : Type := { sampler_train : option unit; sampler_eval : option unit }.

(** A [defaultdict(float)]; Python dicts iterate in insertion order. *)
Definition pydict : Type := list (string * scalar).

(** [d[k] += v] *)
Fixpoint dict_iadd (d : pydict) (k : string) (v : scalar) : pydict :=
  match d with
  | [] => [(k, fadd fzero v)]
  | (k', x) :: d' =>
      if String.eqb k' k then (k', fadd x v) :: d' else (k', x) :: dict_iadd d' k v
  end.

(** The attributes of a [Trainer] instance ([device], [version], [logger],
    [writer] and [tqdm] only appear through the events below).  [optimizer]
    and [scheduler] hold the state of objects that have the methods which
    the class calls on them ([zero_grad], [step], [state_dict],
    [load_state_dict]). *)
Record Trainer : Type := {
  steps : Z;
  epochs : Z;
  data_loader : DataLoaders;
  sampler : Samplers;
  model : model_obj;
  criterion : criterion_obj;
  loss_fn : tensor -> tensor -> scalar;
  optimizer : opt_state;
  scheduler : sched_state;
  config : Config;
  total_train_loss : pydict;
  total_eval_loss : pydict;
  total_eval_score : pydict;
  finish_train : bool
}.

Definition set_steps (v : Z) (t : Trainer) : Trainer :=
  {| steps := v; epochs := epochs t; data_loader := data_loader t;
     sampler := sampler t; model := model t; criterion := criterion t;
     loss_fn := loss_fn t; optimizer := optimizer t; scheduler := scheduler t;
     config := config t; total_train_loss := total_train_loss t;
     total_eval_loss := total_eval_loss t; total_eval_score := total_eval_score t;
     finish_train := finish_train t |}.

Definition set_epochs (v : Z) (t : Trainer) : Trainer :=
  {| steps := steps t; epochs := v; data_loader := data_loader t;
     sampler := sampler t; model := model t; criterion := criterion t;
     loss_fn := loss_fn t; optimizer := optimizer t; scheduler := scheduler t;
     config := config t; total_train_loss := total_train_loss t;
     total_eval_loss := total_eval_loss t; total_eval_score := total_eval_score t;
     finish_train := finish_train t |}.

Definition set_model (v : model_obj) (t : Trainer) : Trainer :=
  {| steps := steps t; epochs := epochs t; data_loader := data_loader t;
     sampler := sampler t; model := v; criterion := criterion t;
     loss_fn := loss_fn t; optimizer := optimizer t; scheduler := scheduler t;
     config := config t; total_train_loss := total_train_loss t;
     total_eval_loss := total_eval_loss t; total_eval_score := total_eval_score t;
     finish_train := finish_train t |}.

Definition set_optimizer (v : opt_state) (t : Trainer) : Trainer :=
  {| steps := steps t; epochs := epochs t; data_loader := data_loader t;
     sampler := sampler t; model := model t; criterion := criterion t;
     loss_fn := loss_fn t; optimizer := v; scheduler := scheduler t;
     config := config t; total_train_loss := total_train_loss t;
     total_eval_loss := total_eval_loss t; total_eval_score := total_eval_score t;
     finish_train := finish_train t |}.

Definition set_scheduler (v : sched_state) (t : Trainer) : Trainer :=
  {| steps := steps t; epochs := epochs t; data_loader := data_loader t;
     sampler := sampler t; model := model t; criterion := criterion t;
     loss_fn := loss_fn t; optimizer := optimizer t; scheduler := v;
     config := config t; total_train_loss := total_train_loss t;
     total_eval_loss := total_eval_loss t; total_eval_score := total_eval_score t;
     finish_train := finish_train t |}.

Definition set_total_train_loss (v : pydict) (t : Trainer) : Trainer :=
  {| steps := steps t; epochs := epochs t; data_loader := data_loader t;
     sampler := sampler t; model := model t; criterion := criterion t;
     loss_fn := loss_fn t; optimizer := optimizer t; scheduler := scheduler t;
     config := config t; total_train_loss := v;
     total_eval_loss := total_eval_loss t; total_eval_score := total_eval_score t;
     finish_train := finish_train t |}.

Definition set_total_eval_loss (v : pydict) (t : Trainer) : Trainer :=
  {| steps := steps t; epochs := epochs t; data_loader := data_loader t;
     sampler := sampler t; model := model t; criterion := criterion t;
     loss_fn := loss_fn t; optimizer := optimizer t; scheduler := scheduler t;
     config := config t; total_train_loss := total_train_loss t;
     total_eval_loss := v; total_eval_score := total_eval_score t;
     finish_train := finish_train t |}.

Definition set_total_eval_score (v : pydict) (t : Trainer) : Trainer :=
  {| steps := steps t; epochs := epochs t; data_loader := data_loader t;
     sampler := sampler t; model := model t; criterion := criterion t;
     loss_fn := loss_fn t; optimizer := optimizer t; scheduler := scheduler t;
     config := config t; total_train_loss := total_train_loss t;
     total_eval_loss := total_eval_loss t; total_eval_score := v;
     finish_train := finish_train t |}.

Definition set_finish_train (v : bool) (t : Trainer) : Trainer :=
  {| steps := steps t; epochs := epochs t; data_loader := data_loader t;
     sampler := sampler t; model := model t; criterion := criterion t;
     loss_fn := loss_fn t; optimizer := optimizer t; scheduler := scheduler t;
     config := config t; total_train_loss := total_train_loss t;
     total_eval_loss := total_eval_loss t; total_eval_score := total_eval_score t;
     finish_train := v |}.

(** ** Effects *)

(** The lines written through [self.logger.info]. *)
Inductive log_msg : Type :=
| MsgFinishTraining                                   (* line 69 *)
| MsgEpoch (e s : Z)                                  (* line 85 *)
| MsgStartEval (s : Z)                                (* line 109 *)
| MsgFinishedEval (s : Z)                             (* line 116 *)
| MsgEvalLoss (s : Z) (key : string) (v : scalar)     (* line 121 *)
| MsgEvalScore (key : string) (v : scalar)            (* line 126 *)
| MsgTrainLoss (s : Z) (key : string) (v : scalar)    (* line 160 *)
| MsgSaved (s : Z).                                   (* line 169 *)

(** Calls into the outside world, in program order.  [StepCounter s] is an
    observation point, not a call: it records the value of [self.steps]
    right after the increment of line 104. *)
Inductive event : Type :=
| TqdmOpen (initial total : Z)
| TqdmUpdate
| TqdmClose
| ZeroGrad
| OptimizerStep
| StepCounter (s : Z)
| LoggerInfo (m : log_msg)
| AddScalar (key : string) (value : scalar) (step : Z)
| Mkdir (path : string)
| TorchSave (path : string) (b : bundle)
| ModelEval
| ModelTrain
| SetEpoch (e : Z)
| PackageExport (path : string) (w : params).

(** A method of [Trainer]: it reads and mutates [self], performs calls and
    returns or raises.  What was mutated and performed before a [raise]
    stays. *)
Definition M (A : Type) : Type := Trainer -> list event * Trainer * outcome A.

#[global] Instance M_ret : MRet M := fun A a t => ([], t, Ok a).

#[global] Instance M_bind : MBind M := fun A B k m t =>
  match m t with
  | (ev, t1, Ok a) =>
      match k a t1 with
      | (ev2, t2, r) => (ev ++ ev2, t2, r)
      end
  | (ev, t1, Raise e) => (ev, t1, Raise e)
  end.

Definition get : M Trainer := fun t => ([], t, Ok t).
Definition modify (f : Trainer -> Trainer) : M unit := fun t => ([], f t, Ok tt).
Definition emit (e : event) : M unit := fun t => ([e], t, Ok tt).
Definition emits (es : list event) : M unit := fun t => (es, t, Ok tt).
Definition raise {A : Type} (e : exn) : M A := fun t => ([], t, Raise e).
Definition lift {A : Type} (r : outcome A) : M A := fun t => ([], t, r).

(** [a % b] *)
Definition py_mod (a b : Z) : M Z :=
  if b =? 0 then raise ZeroDivisionError else mret (a mod b).

(** [x / n] for a float [x] and an int [n] *)
Definition py_truediv (x : scalar) (n : Z) : outcome scalar :=
  if n =? 0 then Raise ZeroDivisionError else Ok (fdiv x n).

(** ** The class [Trainer] *)

(** [Trainer.__init__] (lines 22-57): line 42 looks the configured loss up in
    [criterion]. *)
Definition __init__ (steps0 epochs0 : Z) (dl : DataLoaders) (sm : Samplers)
    (m : model_obj) (crit : criterion_obj) (opt : opt_state) (sch : sched_state)
    (cfg : Config) : outcome Trainer :=
  match crit_getitem crit (loss_fn_key cfg) with
  | None => Raise (KeyError (loss_fn_key cfg))
  | Some f =>
      Ok {| steps := steps0; epochs := epochs0; data_loader := dl; sampler := sm;
            model := m; criterion := crit; loss_fn := f; optimizer := opt;
            scheduler := sch; config := cfg; total_train_loss := [];
            total_eval_loss := []; total_eval_score := []; finish_train := false |}
  end.

(** [self.model(mel)] *)
Definition model_call (m : model_obj) (x : tensor) : tensor :=
  forward (training (inner m)) (weights (inner m)) x.

(** [d[k]] on a [defaultdict(float)]: a missing key is inserted with [0.0]. *)
Fixpoint dict_missing (d : pydict) (k : string) : pydict :=
  match d with
  | [] => [(k, fzero)]
  | (k', x) :: d' => if String.eqb k' k then d else (k', x) :: dict_missing d' k
  end.

(** [_check_train_finish] (lines 175-177) *)
Definition _check_train_finish : M unit :=
  t ← get;
  if train_max_steps (config t) <=? steps t
  then modify (set_finish_train true)
  else mret tt.

(** [_train_step] (lines 90-106) *)
Definition _train_step (b : batch) : M unit :=
  emit ZeroGrad;;
  t ← get;
  let y_ := model_call (model t) (mel b) in
  let loss := loss_fn t y_ (label b) in
  let wo := backward_step (loss_fn t) (training (inner (model t)))
              (weights (inner (model t))) (optimizer t) (mel b) (label b) in
  modify (fun t => set_optimizer (snd wo) (set_model (set_weights (fst wo) (model t)) t));;
  emit OptimizerStep;;
  modify (fun t => set_total_train_loss
                     (dict_iadd (total_train_loss t) "train/onset_loss" loss) t);;
  modify (fun t => set_steps (steps t + 1) t);;
  (t ← get; emit (StepCounter (steps t)));;
  emit TqdmUpdate;;
  _check_train_finish.

(** [_write_to_tensorboard] (lines 179-181) *)
Definition _write_to_tensorboard (item : pydict) : M unit :=
  t ← get;
  emits (map (fun kv => AddScalar (fst kv) (snd kv) (steps t)) item).

(** [for key in d.keys(): d[key] /= n; self.logger.info(...)]: the entries are
    visited in order, each value is replaced by its quotient and logged. *)
Fixpoint average_loop (msg : string -> scalar -> log_msg) (n : Z) (d : pydict)
    : list event * pydict * outcome unit :=
  match d with
  | [] => ([], [], Ok tt)
  | (k, v) :: d' =>
      match py_truediv v n with
      | Raise e => ([], d, Raise e)
      | Ok q =>
          match average_loop msg n d' with
          | (ev, d'', r) => (LoggerInfo (msg k q) :: ev, (k, q) :: d'', r)
          end
      end
  end.

(** [_check_log_interval] (lines 156-164) *)
Definition _check_log_interval : M unit :=
  t ← get;
  r ← py_mod (steps t) (log_interval_steps (config t));
  if r =? 0 then
    (fun t => match average_loop (MsgTrainLoss (steps t))
                      (log_interval_steps (config t)) (total_train_loss t) with
              | (ev, d, r) => (ev, set_total_train_loss d t, r)
              end);;
    (t ← get; _write_to_tensorboard (total_train_loss t));;
    modify (set_total_train_loss [])
  else mret tt.

(** [save_checkpoint] (lines 183-195) *)
Definition save_checkpoint (path f_name : string) : M unit :=
  t ← get;
  sd ← (if distributed (config t)
        then match model t with
             | DDP x => mret (module_state_dict x)
             | Plain _ => raise AttributeError
             end
        else mret (model_state_dict (model t)));
  emit (Mkdir path);;
  emit (TorchSave (path +:+ "/" +:+ f_name)
          {| b_optimizer := Some (optimizer t); b_scheduler := Some (scheduler t);
             b_steps := Some (steps t); b_epochs := Some (epochs t);
             b_model := Some sd |}).

(** [_check_save_interval] (lines 166-169) *)
Definition _check_save_interval : M unit :=
  t ← get;
  r ← py_mod (steps t) (save_interval_steps (config t));
  if r =? 0 then
    save_checkpoint (checkpoint_path (config t))
                    ("checkpoint-" +:+ py_str (steps t) +:+ "steps.pkl");;
    emit (LoggerInfo (MsgSaved (steps t)))
  else mret tt.

(** [_eval_step] (lines 139-154).  In line 154 the target
    [self.total_eval_loss["eval/score"]] is read, which inserts the key,
    before [self.criterion(y, y_)] is called. *)
Definition _eval_step (b : batch) : M unit :=
  t ← get;
  let y_ := model_call (model t) (mel b) in
  let loss := loss_fn t y_ (label b) in
  modify (fun t => set_total_eval_loss
                     (dict_iadd (total_eval_loss t) "eval/onset_loss" loss) t);;
  let y_ := if String.eqb (loss_fn_key (config t)) "BCEWithLogits"
            then sigmoid y_ else y_ in
  modify (fun t => set_total_eval_loss
                     (dict_missing (total_eval_loss t) "eval/score") t);;
  match crit_call (criterion t) with
  | None => raise TypeError
  | Some score =>
      modify (fun t => set_total_eval_loss
                         (dict_iadd (total_eval_loss t) "eval/score"
                                    (score (label b) y_)) t)
  end.

(** The loop of lines 112-114: [i] is the next index of [enumerate(..., 1)],
    [batch_idx] the current value of the variable. *)
Fixpoint eval_loop (bs : list batch) (i batch_idx : Z) : M Z :=
  match bs with
  | [] => mret batch_idx
  | b :: bs' => _eval_step b;; eval_loop bs' (i + 1) i
  end.

(** [_eval_epoch] (lines 108-137) *)
Definition _eval_epoch : M unit :=
  (t ← get; emit (LoggerInfo (MsgStartEval (steps t))));;
  modify (fun t => set_model (set_training false (model t)) t);;
  emit ModelEval;;
  t ← get;
  batch_idx ← eval_loop (dl_eval (data_loader t)) 1 1;
  (t ← get; emit (LoggerInfo (MsgFinishedEval (steps t))));;
  (fun t => match average_loop (MsgEvalLoss (steps t)) batch_idx (total_eval_loss t) with
            | (ev, d, r) => (ev, set_total_eval_loss d t, r)
            end);;
  (fun t => match average_loop MsgEvalScore batch_idx (total_eval_score t) with
            | (ev, d, r) => (ev, set_total_eval_score d t, r)
            end);;
  (t ← get; _write_to_tensorboard (total_eval_loss t));;
  (t ← get; _write_to_tensorboard (total_eval_score t));;
  modify (set_total_eval_loss []);;
  modify (set_total_eval_score []);;
  modify (fun t => set_model (set_training true (model t)) t);;
  emit ModelTrain.

(** [_check_eval_interval] (lines 171-173) *)
Definition _check_eval_interval : M unit :=
  t ← get;
  r ← py_mod (steps t) (eval_interval_steps (config t));
  if r =? 0 then _eval_epoch else mret tt.

(** The body of the loop of [_train_epoch] (lines 73-79). *)
Definition train_iteration (b : batch) : M unit :=
  _train_step b;;
  _check_log_interval;;
  _check_save_interval;;
  _check_eval_interval.

(** The loop of lines 72-82; the result tells whether it was left by the
    [return] of line 82. *)
Fixpoint train_loop (bs : list batch) : M bool :=
  match bs with
  | [] => mret false
  | b :: bs' =>
      train_iteration b;;
      t ← get;
      if finish_train t then mret true else train_loop bs'
  end.

(** The epoch-boundary action (lines 84-88). *)
Definition epoch_boundary : M unit :=
  modify (fun t => set_epochs (epochs t + 1) t);;
  (t ← get; emit (LoggerInfo (MsgEpoch (epochs t) (steps t))));;
  t ← get;
  if distributed (config t) then
    match sampler_train (sampler t) with
    | Some _ => emit (SetEpoch (epochs t))
    | None => raise AttributeError
    end
  else mret tt.

(** [_train_epoch] (lines 71-88) *)
Definition _train_epoch : M unit :=
  t ← get;
  returned ← train_loop (dl_train (data_loader t));
  if (returned : bool) then mret tt else epoch_boundary.

(** The [while True] of [run] (lines 63-67), for at most [fuel] epochs;
    [None] when the fuel runs out first. *)
Fixpoint run_loop (fuel : nat) (t : Trainer)
    : list event * Trainer * option (outcome unit) :=
  match fuel with
  | O => ([], t, None)
  | S fuel' =>
      match _train_epoch t with
      | (ev, t1, Raise e) => (ev, t1, Some (Raise e))
      | (ev, t1, Ok _) =>
          if finish_train t1 then (ev, t1, Some (Ok tt))
          else match run_loop fuel' t1 with
               | (ev2, t2, r) => (ev ++ ev2, t2, r)
               end
      end
  end.

(** [run] (lines 59-69) *)
Definition run (fuel : nat) (t : Trainer)
    : list event * Trainer * option (outcome unit) :=
  match run_loop fuel t with
  | (ev, t', Some (Ok _)) =>
      (TqdmOpen (steps t) (train_max_steps (config t)) :: ev
         ++ [TqdmClose; LoggerInfo MsgFinishTraining], t', Some (Ok tt))
  | (ev, t', r) => (TqdmOpen (steps t) (train_max_steps (config t)) :: ev, t', r)
  end.

(** [load_checkpoint] (lines 197-207) on the checkpoint files [files]. *)
Definition load_checkpoint (files : gmap string bundle) (checkpoint_path : string)
    (load_only_params : bool) : M unit :=
  state_dict ← match files !! checkpoint_path with
               | None => raise FileNotFoundError
               | Some b => mret b
               end;
  t ← get;
  (if distributed (config t) then
     match model t with
     | Plain _ => raise AttributeError
     | DDP x =>
         sd ← match b_model state_dict with
              | None => raise (KeyError "model")
              | Some sd => mret sd
              end;
         x' ← lift (module_load_state_dict x sd);
         modify (set_model (DDP x'))
     end
   else
     sd ← match b_model state_dict with
          | None => raise (KeyError "model")
          | Some sd => mret sd
          end;
     m' ← lift (model_load_state_dict (model t) sd);
     modify (set_model m'));;
  if load_only_params then mret tt else
    s ← match b_steps state_dict with
        | None => raise (KeyError "steps")
        | Some s => mret s
        end;
    modify (set_steps s);;
    e ← match b_epochs state_dict with
        | None => raise (KeyError "epochs")
        | Some e => mret e
        end;
    modify (set_epochs e);;
    o ← match b_optimizer state_dict with
        | None => raise (KeyError "optimizer")
        | Some o => mret o
        end;
    modify (set_optimizer o);;
    sc ← match b_scheduler state_dict with
         | None => raise (KeyError "scheduler")
         | Some sc => mret sc
         end;
    modify (set_scheduler sc).

End Program.

(** ** [save_model.py] *)

(** [os.path] on POSIX paths and string slicing. *)
Definition slash : ascii := "/"%char.

(** Splits after the last ["/"]: [(p[:i], p[i:])] with [i = p.rfind('/') + 1]. *)
Fixpoint rsplit_slash (l : list ascii) : list ascii * list ascii :=
  match l with
  | [] => ([], [])
  | c :: l' =>
      match rsplit_slash l' with
      | ([], tl) => if Ascii.eqb c slash then ([c], tl) else ([], c :: tl)
      | (h, tl) => (c :: h, tl)
      end
  end.

(** [s.rstrip('/')] *)
Fixpoint rstrip_slash (l : list ascii) : list ascii :=
  match l with
  | [] => []
  | c :: l' =>
      match rstrip_slash l' with
      | [] => if Ascii.eqb c slash then [] else [c]
      | r => c :: r
      end
  end.

(** [os.path.dirname] *)
Definition dirname (p : string) : string :=
  let head := fst (rsplit_slash (list_ascii_of_string p)) in
  string_of_list_ascii
    (if forallb (fun c => Ascii.eqb c slash) head then head else rstrip_slash head).

(** [os.path.basename] *)
Definition basename (p : string) : string :=
  string_of_list_ascii (snd (rsplit_slash (list_ascii_of_string p))).

(** [s[a:-b]] for non-negative [a] and positive [b] *)
Definition slice_from_to_end (a b : nat) (s : string) : string :=
  String.substring a (String.length s - b - a) s.

(** A path that is not empty and does not end with ["/"]. *)
Definition no_trailing_slash (p : string) : Prop :=
  exists l c, list_ascii_of_string p = l ++ [c] /\ Ascii.eqb c slash = false.

(** A name without ["/"]. *)
Definition slash_free (l : list ascii) : Prop :=
  forallb (fun c => negb (Ascii.eqb c slash)) l = true.

Section SaveModel.
Context `{T : Torch}.

(** The keys of the YAML configuration that [save_model] reads. *)
Record yaml_config : Type := {
  version : string;
  trainer_checkpoint_path : string;
  yaml_model : model_config
}.

(** [save_model] (lines 13-33) on the configuration files [configs] and the
    checkpoint files [files]; the only write is that of the exporter. *)
Definition save_model (configs : gmap string yaml_config) (files : gmap string bundle)
    (config_path checkpoint_path : string) : list event * outcome unit :=
  match configs !! config_path with
  | None => ([], Raise FileNotFoundError)
  | Some config =>
      let config :=
        if String.eqb (trainer_checkpoint_path config) "checkpoints"
        then {| version := version config;
                trainer_checkpoint_path :=
                  trainer_checkpoint_path config +:+ "/checkpoint_" +:+ version config;
                yaml_model := yaml_model config |}
        else config in
      let model := {| weights := MoodRecog (yaml_model config); training := true |} in
      match files !! checkpoint_path with
      | None => ([], Raise FileNotFoundError)
      | Some state_dict =>
          match b_model state_dict with
          | None => ([], Raise (KeyError "model"))
          | Some sd =>
              match module_load_state_dict model sd with
              | Raise e => ([], Raise e)
              | Ok model =>
                  ([PackageExport
                      (dirname checkpoint_path +:+ "/model-"
                         +:+ slice_from_to_end 11 4 (basename checkpoint_path) +:+ ".pt")
                      (weights model)],
                   Ok tt)
              end
          end
      end
  end.

End SaveModel.

(** ** What a trace shows *)

Section Observations.
Context `{T : Torch}.

(** The values of [self.steps] after each processed batch. *)
Definition step_counters (ev : list event) : list Z :=
  flat_map (fun e => match e with StepCounter s => [s] | _ => [] end) ev.

(** The number of batches that went through [optimizer.step()]. *)
Definition processed (ev : list event) : nat :=
  length (flat_map (fun e => match e with OptimizerStep => [tt] | _ => [] end) ev).

(** The interval actions: the log action shows as the scalar written for
    ["train/onset_loss"], the save action as the [torch.save], the eval
    action as the line logged on entry of [_eval_epoch]; each with the step
    it is tagged with. *)
Inductive action : Type :=
| ALog (s : Z)
| ASave (path : string) (s : Z)
| AEval (s : Z).

Definition action_of (e : event) : list action :=
  match e with
  | AddScalar k _ s => if String.eqb k "train/onset_loss" then [ALog s] else []
  | TorchSave p b => match b_steps b with Some s => [ASave p s] | None => [] end
  | LoggerInfo (MsgStartEval s) => [AEval s]
  | _ => []
  end.

Definition actions (ev : list event) : list action := flat_map action_of ev.

(** The file that [_check_save_interval] writes at step [s]. *)
Definition checkpoint_file (cfg : Config) (s : Z) : string :=
  checkpoint_path cfg +:+ "/" +:+ "checkpoint-" +:+ py_str s +:+ "steps.pkl".

(** The actions due at step [s], in the order log, save, eval. *)
Definition interval_actions (cfg : Config) (s : Z) : list action :=
  (if s mod log_interval_steps cfg =? 0 then [ALog s] else [])
  ++ (if s mod save_interval_steps cfg =? 0 then [ASave (checkpoint_file cfg s) s] else [])
  ++ (if s mod eval_interval_steps cfg =? 0 then [AEval s] else []).

(** The checkpoints written: file and step, in order. *)
Definition saves (ev : list event) : list (string * Z) :=
  flat_map (fun a => match a with ASave p s => [(p, s)] | _ => [] end) (actions ev).

(** No training step ended with the counter above [train_max_steps]. *)
Definition never_beyond_max (fuel : nat) (t : Trainer) : Prop :=
  match run fuel t with
  | (ev, _, _) => Forall (fun s => s <= train_max_steps (config t)) (step_counters ev)
  end.

(** The scalars sent to the metrics sink. *)
Definition scalars (ev : list event) : list (string * scalar * Z) :=
  flat_map (fun e => match e with AddScalar k v s => [(k, v, s)] | _ => [] end) ev.

Definition is_ddp (m : model_obj) : bool :=
  match m with DDP _ => true | Plain _ => false end.

(** The accumulators as [__init__] and every completed flush leave them. *)
Definition fresh_accumulators (t : Trainer) : Prop :=
  total_train_loss t = [] /\ total_eval_loss t = [] /\ total_eval_score t = [].

(** No interval is zero, so that no modulo test raises. *)
Definition intervals_nonzero (cfg : Config) : Prop :=
  log_interval_steps cfg <> 0 /\ save_interval_steps cfg <> 0
  /\ eval_interval_steps cfg <> 0.

(** In a distributed configuration the model is the wrapper, as [main]
    arranges (lines 340-345), so that [self.model.module] exists. *)
Definition wrapped_ok (t : Trainer) : Prop :=
  distributed (config t) = true -> is_ddp (model t) = true.

(** Nothing in the loop can raise: besides the above, the distributed
    sampler exists, and the evaluation step can call [criterion] or has no
    batch to call it on. *)
Definition wired (t : Trainer) : Prop :=
  wrapped_ok t
  /\ (distributed (config t) = true -> sampler_train (sampler t) <> None)
  /\ (crit_call (criterion t) <> None \/ dl_eval (data_loader t) = []).

(** [0.0 + x1 + ... + xn], as a [defaultdict(float)] entry accumulates it. *)
Definition fsum (xs : list scalar) : scalar := fold_left fadd xs fzero.

(** The loss of an evaluation batch (lines 143-145), computed in inference
    mode, and the tensors handed to [criterion] for its score (lines 150-154). *)
Definition eval_loss (t : Trainer) (b : batch) : scalar :=
  loss_fn t (forward false (weights (inner (model t))) (mel b)) (label b).

Definition eval_score (t : Trainer) (score : tensor -> tensor -> scalar)
    (b : batch) : scalar :=
  let y_ := forward false (weights (inner (model t))) (mel b) in
  score (label b)
        (if String.eqb (loss_fn_key (config t)) "BCEWithLogits" then sigmoid y_ else y_).

(** The checkpoint files after the [torch.save] calls of a trace. *)
Definition write_files (files : gmap string bundle) (ev : list event)
    : gmap string bundle :=
  fold_left (fun fs e => match e with TorchSave p b => <[p := b]> fs | _ => fs end)
            ev files.

(** The model is wrapped exactly in a distributed configuration, as [main]
    arranges (lines 340-345). *)
Definition wrapper_matches_config (t : Trainer) : Prop :=
  is_ddp (model t) = distributed (config t).

(** The averages that a pass over the evaluation batches [bs] reports. *)
Definition eval_metrics (t : Trainer) (score : tensor -> tensor -> scalar)
    (bs : list batch) : pydict :=
  match bs with
  | [] => []
  | _ =>
      [("eval/onset_loss", fdiv (fsum (map (eval_loss t) bs)) (Z.of_nat (length bs)));
       ("eval/score", fdiv (fsum (map (eval_score t score) bs)) (Z.of_nat (length bs)))]
  end.

(** The calls of a completed evaluation pass that reports [metrics] from the
    loss accumulator and [scores] from the score accumulator at step [s]. *)
Definition eval_events (s : Z) (metrics scores : pydict) : list event :=
  [LoggerInfo (MsgStartEval s); ModelEval; LoggerInfo (MsgFinishedEval s)]
  ++ map (fun kv => LoggerInfo (MsgEvalLoss s (fst kv) (snd kv))) metrics
  ++ map (fun kv => LoggerInfo (MsgEvalScore (fst kv) (snd kv))) scores
  ++ map (fun kv => AddScalar (fst kv) (snd kv) s) metrics
  ++ map (fun kv => AddScalar (fst kv) (snd kv) s) scores
  ++ [ModelTrain].

(** What an evaluation pass leaves of the trainer it started from. *)
Definition after_eval (t t' : Trainer) : Prop :=
  total_eval_loss t' = [] /\ total_eval_score t' = []
  /\ training (inner (model t')) = true
  /\ weights (inner (model t')) = weights (inner (model t))
  /\ is_ddp (model t') = is_ddp (model t)
  /\ steps t' = steps t /\ epochs t' = epochs t
  /\ optimizer t' = optimizer t /\ scheduler t' = scheduler t
  /\ total_train_loss t' = total_train_loss t
  /\ finish_train t' = finish_train t
  /\ config t' = config t /\ data_loader t' = data_loader t
  /\ sampler t' = sampler t /\ criterion t' = criterion t
  /\ loss_fn t' = loss_fn t.

(** [counts m]: whatever [m] does and however it ends, the counter grows by
    the number of batches it processed and shows consecutive values. *)
Definition counts {A : Type} (m : M A) : Prop :=
  forall t, match m t with
            | (ev, t', _) =>
                steps t' = steps t + Z.of_nat (processed ev)
                /\ step_counters ev = seqZ (steps t + 1) (Z.of_nat (processed ev))
            end.

(** [quiet m]: [m] processes no batch and leaves the counter, the finish
    flag and the configuration alone. *)
Definition quiet {A : Type} (m : M A) : Prop :=
  forall t, match m t with
            | (ev, t', _) =>
                (steps t' = steps t /\ finish_train t' = finish_train t
                 /\ config t' = config t)
                /\ processed ev = 0%nat /\ step_counters ev = []
            end.

(** The part of a trainer that no method changes. *)
Definition same_setup (t t' : Trainer) : Prop :=
  config t' = config t /\ data_loader t' = data_loader t /\ sampler t' = sampler t
  /\ criterion t' = criterion t /\ loss_fn t' = loss_fn t
  /\ is_ddp (model t') = is_ddp (model t).

(** The training accumulator holds its one key or nothing. *)
Definition train_acc_ok (d : pydict) : Prop :=
  d = [] \/ exists v, d = [("train/onset_loss", v)].

(** The accumulators between two iterations of the training loop. *)
Definition Inv (t : Trainer) : Prop :=
  train_acc_ok (total_train_loss t)
  /\ total_eval_loss t = [] /\ total_eval_score t = [].

(** [keeps f m]: whatever [m] does and however it ends, it leaves the part
    [f] of the trainer as it found it. *)
Definition keeps {A X : Type} (f : Trainer -> X) (m : M A) : Prop :=
  forall t, f (snd (fst (m t))) = f t.

(** In a distributed configuration the training sampler exists, so that the
    epoch-boundary action can notify it. *)
Definition sampler_ok (t : Trainer) : Prop :=
  distributed (config t) = true -> sampler_train (sampler t) <> None.

(** The scalars written for the training loss: value and step. *)
Definition train_scalars (ev : list event) : list (scalar * Z) :=
  flat_map (fun e => match e with
                     | AddScalar k v s =>
                         if String.eqb k "train/onset_loss" then [(v, s)] else []
                     | _ => []
                     end) ev.

(** The loss of a training batch (lines 96-98) on the trainer as it is. *)
Definition train_loss (t : Trainer) (b : batch) : scalar :=
  loss_fn t (model_call (model t) (mel b)) (label b).

(** The losses of the successive iterations of the training loop over [bs]. *)
Fixpoint train_losses (bs : list batch) (t : Trainer) : list scalar :=
  match bs with
  | [] => []
  | b :: bs' => train_loss t b :: train_losses bs' (snd (fst (train_iteration b t)))
  end.

(** What the training accumulator holds for its key. *)
Definition acc_value (d : pydict) : scalar :=
  match d with
  | [] => fzero
  | (_, v) :: _ => v
  end.

(** The failure of an evaluation step, as a run started from [t0] meets it
    in the state [t']. *)
Definition eval_failure (t0 t' : Trainer) (e : exn) : Prop :=
  e = TypeError
  /\ crit_call (criterion t0) = None
  /\ dl_eval (data_loader t0) <> []
  /\ steps t' mod eval_interval_steps (config t0) = 0
  /\ training (inner (model t')) = false.

End Observations.

(** ** A small instance of the framework, to run the model on *)

#[local] Instance toy : Torch := {|
  scalar := Z;
  tensor := Z;
  params := list Z;
  opt_state := Z;
  sched_state := Z;
  model_config := nat;
  fzero := 0;
  fadd := Z.add;
  fdiv := Z.div;
  forward := fun _ w x => x + fold_right Z.add 0 w;
  sigmoid := fun x => x;
  backward_step := fun _ _ w o _ _ => (map Z.succ w, o + 1);
  compatible := fun w p => Nat.eqb (length w) (length p);
  MoodRecog := fun n => repeat 0 n;
  MSELoss := fun a b => (a - b) * (a - b);
  BCELoss := fun a b => Z.abs (a - b)
|}.

Definition toy_config : Config :=
  {| loss_fn_key := "MSE"; log_interval_steps := 10; save_interval_steps := 100;
     eval_interval_steps := 50; train_max_steps := 250;
     checkpoint_path := "checkpoints/checkpoint_0_1"; distributed := false |}.

Definition toy_batch (x y : Z) : batch := {| mel := x; label := y |}.

(** A trainer as [main] wires its criterion: the registry dict. *)
Definition toy_trainer (s : Z) (cfg : Config) (tr ev : list batch) : Trainer :=
  {| steps := s; epochs := 0;
     data_loader := {| dl_train := tr; dl_eval := ev |};
     sampler := {| sampler_train := None; sampler_eval := None |};
     model := Plain {| weights := [1; 2]; training := true |};
     criterion := main_criterion; loss_fn := MSELoss; optimizer := 0; scheduler := 0;
     config := cfg; total_train_loss := []; total_eval_loss := [];
     total_eval_score := []; finish_train := false |}.

Definition small_config : Config :=
  {| loss_fn_key := "MSE"; log_interval_steps := 2; save_interval_steps := 3;
     eval_interval_steps := 4; train_max_steps := 5;
     checkpoint_path := "ckpt"; distributed := false |}.

Definition small_trainer : Trainer :=
  toy_trainer 0 small_config [toy_batch 1 2; toy_batch 2 3] [].

(** A criterion that can be subscripted and called. *)
Definition scoring_criterion : criterion_obj :=
  {| crit_getitem := crit_getitem main_criterion; crit_call := Some BCELoss |}.

Definition eval_trainer : Trainer :=
  {| steps := 4; epochs := 2;
     data_loader := {| dl_train := [toy_batch 1 2]; dl_eval := [toy_batch 1 1; toy_batch 2 5] |};
     sampler := {| sampler_train := None; sampler_eval := None |};
     model := Plain {| weights := [1; 2]; training := true |};
     criterion := scoring_criterion; loss_fn := MSELoss; optimizer := 4; scheduler := 0;
     config := small_config; total_train_loss := []; total_eval_loss := [];
     total_eval_score := []; finish_train := false |}.

Definition scenario_trainer : Trainer := toy_trainer 0 toy_config [toy_batch 1 2] [].

(** Resuming the checkpoint that a finished run of 250 steps wrote. *)
Definition resume_config : Config :=
  {| loss_fn_key := "MSE"; log_interval_steps := 10; save_interval_steps := 50;
     eval_interval_steps := 50; train_max_steps := 250;
     checkpoint_path := "checkpoints/checkpoint_0_1"; distributed := false |}.

Definition finished_checkpoint : bundle :=
  {| b_optimizer := Some 250; b_scheduler := Some 0; b_steps := Some 250;
     b_epochs := Some 249;
     b_model := Some {| sd_prefixed := false; sd_tensors := [251; 252] |} |}.

Definition resume_path : string := checkpoint_file resume_config 250.

Definition resume_files : gmap string bundle := {[ resume_path := finished_checkpoint ]}.

Definition resumed_trainer : Trainer :=
  snd (fst (load_checkpoint resume_files resume_path false
              (toy_trainer 0 resume_config [toy_batch 1 2] []))).

(** An export whose configuration asks for three parameters while the
    checkpoint holds two. *)
Definition export_configs : gmap string yaml_config :=
  {[ "config.yaml" := {| version := "0_1"; trainer_checkpoint_path := "checkpoints";
                         yaml_model := 3%nat |} ]}.

(** A configuration whose log interval is zero. *)
Definition zero_log_config : Config :=
  {| loss_fn_key := "MSE"; log_interval_steps := 0; save_interval_steps := 3;
     eval_interval_steps := 4; train_max_steps := 5;
     checkpoint_path := "ckpt"; distributed := false |}.

Definition zero_log_trainer : Trainer :=
  toy_trainer 0 zero_log_config [toy_batch 1 2; toy_batch 2 3] [].

(** A trainer whose training loader yields nothing. *)
Definition stalled_trainer : Trainer := toy_trainer 0 small_config [] [].

(** A trainer whose counter is past the maximum of its configuration. *)
Definition late_trainer : Trainer :=
  toy_trainer 7 small_config [toy_batch 1 2; toy_batch 2 3] [].

(** Resuming a checkpoint written in the middle of a run. *)
Definition midway_checkpoint : bundle :=
  {| b_optimizer := Some 100; b_scheduler := Some 0; b_steps := Some 100;
     b_epochs := Some 99;
     b_model := Some {| sd_prefixed := false; sd_tensors := [101; 102] |} |}.

Definition midway_path : string := checkpoint_file resume_config 100.

Definition midway_files : gmap string bundle := {[ midway_path := midway_checkpoint ]}.

Definition fresh_resume_trainer : Trainer :=
  toy_trainer 0 resume_config [toy_batch 1 2] [].

(** A bundle without its ["optimizer"] entry. *)
Definition partial_checkpoint : bundle :=
  {| b_optimizer := None; b_scheduler := Some 0; b_steps := Some 100;
     b_epochs := Some 99;
     b_model := Some {| sd_prefixed := false; sd_tensors := [101; 102] |} |}.

Definition partial_files : gmap string bundle := {[ midway_path := partial_checkpoint ]}.

(** A distributed configuration on a trainer built without wrapper and
    without sampler. *)
Definition distributed_config : Config :=
  {| loss_fn_key := "MSE"; log_interval_steps := 2; save_interval_steps := 3;
     eval_interval_steps := 4; train_max_steps := 5;
     checkpoint_path := "ckpt"; distributed := true |}.

Definition unwrapped_trainer : Trainer :=
  toy_trainer 0 distributed_config [toy_batch 1 2] [].

(** A wrapped model under a configuration that is not distributed. *)
Definition wrapped_trainer : Trainer :=
  {| steps := 3; epochs := 1;
     data_loader := {| dl_train := [toy_batch 1 2]; dl_eval := [] |};
     sampler := {| sampler_train := None; sampler_eval := None |};
     model := DDP {| weights := [4; 5]; training := true |};
     criterion := main_criterion; loss_fn := MSELoss; optimizer := 3; scheduler := 0;
     config := small_config; total_train_loss := []; total_eval_loss := [];
     total_eval_score := []; finish_train := false |}.

(** A trainer wired as [main] does, with a batch to evaluate. *)
Definition failing_eval_trainer : Trainer :=
  toy_trainer 0 small_config [toy_batch 1 2; toy_batch 2 3] [toy_batch 1 1].

(** A stretch of three steps that ends on a log step of interval ten. *)
Definition window_trainer : Trainer := toy_trainer 7 toy_config [] [].

Definition window_batches : list batch := [toy_batch 1 2; toy_batch 2 3; toy_batch 3 1].

(** An export configuration that fits a model of two parameters. *)
Definition fitting_configs : gmap string yaml_config :=
  {[ "config.yaml" := {| version := "0_1"; trainer_checkpoint_path := "ckpt";
                         yaml_model := 2%nat |} ]}.

(** ** Properties *)

Section Properties.
Context `{T : Torch}.

Lemma bind_run {A B : Type} (m : M A) (k : A -> M B) (t : Trainer) :
  (m ≫= k) t =
  match m t with
  | (ev, t1, Ok a) => match k a t1 with (ev2, t2, r) => (ev ++ ev2, t2, r) end
  | (ev, t1, Raise e) => (ev, t1, Raise e)
  end.
Proof. reflexivity. Qed.

Lemma step_counters_app (e1 e2 : list event) :
  step_counters (e1 ++ e2) = step_counters e1 ++ step_counters e2.
Proof. apply flat_map_app. Qed.

Lemma processed_app (e1 e2 : list event) :
  processed (e1 ++ e2) = (processed e1 + processed e2)%nat.
Proof. unfold processed. rewrite flat_map_app. apply length_app. Qed.

Lemma actions_app (e1 e2 : list event) :
  actions (e1 ++ e2) = actions e1 ++ actions e2.
Proof. apply flat_map_app. Qed.

(** *** The step counter *)

Lemma quiet_counts {A : Type} (m : M A) : quiet m -> counts m.
Proof.
  intros H t. specialize (H t). destruct (m t) as [[ev t'] r].
  destruct H as ((-> & _) & -> & ->). split; [simpl; lia | reflexivity].
Qed.

Lemma counts_bind {A B : Type} (m : M A) (k : A -> M B) :
  counts m -> (forall a, counts (k a)) -> counts (m ≫= k).
Proof.
  intros Hm Hk t. rewrite bind_run. specialize (Hm t).
  destruct (m t) as [[ev t1] [a|e]]; [|exact Hm].
  specialize (Hk a t1). destruct (k a t1) as [[ev2 t2] r].
  destruct Hm as [Hs1 Hc1], Hk as [Hs2 Hc2].
  rewrite processed_app, step_counters_app, Hc1, Hc2, Nat2Z.inj_add.
  split; [lia|].
  rewrite seqZ_app by lia. do 2 f_equal. lia.
Qed.

Lemma quiet_bind {A B : Type} (m : M A) (k : A -> M B) :
  quiet m -> (forall a, quiet (k a)) -> quiet (m ≫= k).
Proof.
  intros Hm Hk t. rewrite bind_run. specialize (Hm t).
  destruct (m t) as [[ev t1] [a|e]]; [|exact Hm].
  specialize (Hk a t1). destruct (k a t1) as [[ev2 t2] r].
  destruct Hm as ((Hs1 & Hf1 & Hg1) & Hp1 & Hc1), Hk as ((Hs2 & Hf2 & Hg2) & Hp2 & Hc2).
  rewrite processed_app, step_counters_app, Hp1, Hp2, Hc1, Hc2.
  repeat split; congruence.
Qed.

Lemma quiet_ret {A : Type} (a : A) : quiet (mret a).
Proof. intros t. repeat split. Qed.

Lemma quiet_get : quiet get.
Proof. intros t. repeat split. Qed.

Lemma quiet_raise {A : Type} (e : exn) : quiet (@raise _ A e).
Proof. intros t. repeat split. Qed.

Lemma quiet_lift {A : Type} (r : outcome A) : quiet (lift r).
Proof. intros t. repeat split. Qed.

Lemma quiet_modify (f : Trainer -> Trainer) :
  (forall t, steps (f t) = steps t /\ finish_train (f t) = finish_train t
             /\ config (f t) = config t) ->
  quiet (modify f).
Proof. intros H t. split; [apply H | split; reflexivity]. Qed.

Lemma quiet_emits (es : list event) :
  processed es = 0%nat -> step_counters es = [] -> quiet (emits es).
Proof. intros H1 H2 t. repeat split; assumption. Qed.

Lemma quiet_py_mod (a b : Z) : quiet (py_mod a b).
Proof. unfold py_mod. destruct (b =? 0); [apply quiet_raise | apply quiet_ret]. Qed.

Lemma average_loop_events (msg : string -> scalar -> log_msg) (n : Z) (d : pydict) :
  match average_loop msg n d with
  | (ev, _, _) => processed ev = 0%nat /\ step_counters ev = [] /\ scalars ev = []
  end.
Proof.
  induction d as [|[k v] d IH]; simpl; [repeat split|].
  destruct (py_truediv v n); [|repeat split].
  destruct (average_loop msg n d) as [[ev d''] r]. exact IH.
Qed.

Lemma average_loop_actions (msg : string -> scalar -> log_msg) (n : Z) (d : pydict) :
  (forall k v, action_of (LoggerInfo (msg k v)) = []) ->
  actions (fst (fst (average_loop msg n d))) = [].
Proof.
  intros Hmsg. induction d as [|[k v] d IH]; simpl; [reflexivity|].
  destruct (py_truediv v n); [|reflexivity].
  destruct (average_loop msg n d) as [[ev d''] r]. simpl in *.
  unfold actions in *. simpl. rewrite IH. rewrite app_nil_r.
  apply (Hmsg k a).
Qed.

Lemma scalar_events_quiet (item : pydict) (s : Z) :
  processed (map (fun kv => AddScalar (fst kv) (snd kv) s) item) = 0%nat
  /\ step_counters (map (fun kv => AddScalar (fst kv) (snd kv) s) item) = [].
Proof. induction item as [|kv item IH]; [split; reflexivity | exact IH]. Qed.

Ltac quiet_tac :=
  repeat first
    [ apply quiet_ret | apply quiet_get | apply quiet_raise | apply quiet_lift
    | apply quiet_py_mod
    | apply quiet_modify; intros; repeat split
    | apply quiet_emits; [reflexivity | reflexivity]
    | apply quiet_emits; apply scalar_events_quiet
    | apply quiet_bind; [| intros ?]
    | match goal with
      | |- quiet (if ?b then _ else _) => destruct b
      | |- quiet (match ?x with _ => _ end) => destruct x
      end ].

Lemma quiet_write_to_tensorboard (item : pydict) : quiet (_write_to_tensorboard item).
Proof. unfold _write_to_tensorboard. quiet_tac. Qed.

Lemma quiet_average (msg : Trainer -> string -> scalar -> log_msg)
    (n : Trainer -> Z) (d : Trainer -> pydict) (set : pydict -> Trainer -> Trainer) :
  (forall v t, steps (set v t) = steps t /\ finish_train (set v t) = finish_train t
               /\ config (set v t) = config t) ->
  quiet (fun t => match average_loop (msg t) (n t) (d t) with
                  | (ev, d', r) => (ev, set d' t, r)
                  end).
Proof.
  intros Hset t. pose proof (average_loop_events (msg t) (n t) (d t)) as H.
  destruct (average_loop (msg t) (n t) (d t)) as [[ev d'] r].
  destruct H as (? & ? & _). split; [apply Hset | split; assumption].
Qed.

Lemma quiet_check_log_interval : quiet _check_log_interval.
Proof.
  unfold _check_log_interval.
  apply quiet_bind; [apply quiet_get | intros t0].
  apply quiet_bind; [apply quiet_py_mod | intros r].
  destruct (r =? 0); [|apply quiet_ret].
  apply quiet_bind; [|intros _].
  - apply (quiet_average (fun t => MsgTrainLoss (steps t))
             (fun t => log_interval_steps (config t)) total_train_loss
             set_total_train_loss). repeat split.
  - apply quiet_bind; [|intros _; quiet_tac].
    apply quiet_bind; [apply quiet_get | intros; apply quiet_write_to_tensorboard].
Qed.

Lemma quiet_save_checkpoint (path f_name : string) : quiet (save_checkpoint path f_name).
Proof. unfold save_checkpoint. quiet_tac. Qed.

Lemma quiet_check_save_interval : quiet _check_save_interval.
Proof.
  unfold _check_save_interval.
  apply quiet_bind; [apply quiet_get | intros t0].
  apply quiet_bind; [apply quiet_py_mod | intros r].
  destruct (r =? 0); [|apply quiet_ret].
  apply quiet_bind; [apply quiet_save_checkpoint | intros _; quiet_tac].
Qed.

Lemma quiet_eval_step (b : batch) : quiet (_eval_step b).
Proof. unfold _eval_step. quiet_tac. Qed.

Lemma quiet_eval_loop (bs : list batch) (i n : Z) : quiet (eval_loop bs i n).
Proof.
  revert i n. induction bs as [|b bs IH]; intros i n; simpl; [apply quiet_ret|].
  apply quiet_bind; [apply quiet_eval_step | intros _; apply IH].
Qed.

Lemma quiet_eval_epoch : quiet _eval_epoch.
Proof.
  unfold _eval_epoch.
  repeat first
    [ apply quiet_eval_loop
    | apply quiet_write_to_tensorboard
    | apply (quiet_average (fun t => MsgEvalLoss (steps t)) (fun _ => _)
               total_eval_loss set_total_eval_loss); repeat split
    | apply (quiet_average (fun _ => MsgEvalScore) (fun _ => _)
               total_eval_score set_total_eval_score); repeat split
    | apply quiet_get | apply quiet_modify; intros; repeat split
    | apply quiet_emits; [reflexivity | reflexivity]
    | apply quiet_bind; [| intros ?] ].
Qed.

Lemma quiet_check_eval_interval : quiet _check_eval_interval.
Proof.
  unfold _check_eval_interval.
  apply quiet_bind; [apply quiet_get | intros t0].
  apply quiet_bind; [apply quiet_py_mod | intros r].
  destruct (r =? 0); [apply quiet_eval_epoch | apply quiet_ret].
Qed.

Lemma quiet_epoch_boundary : quiet epoch_boundary.
Proof. unfold epoch_boundary. quiet_tac. Qed.

(** What [_train_step] does to the bookkeeping. *)
Lemma train_step_run (b : batch) (t : Trainer) :
  exists t',
    _train_step b t
    = ([ZeroGrad; OptimizerStep; StepCounter (steps t + 1); TqdmUpdate], t', Ok tt)
    /\ steps t' = steps t + 1
    /\ config t' = config t
    /\ finish_train t'
       = (finish_train t || (train_max_steps (config t) <=? steps t + 1))
    /\ total_train_loss t'
       = dict_iadd (total_train_loss t) "train/onset_loss"
           (loss_fn t (model_call (model t) (mel b)) (label b))
    /\ total_eval_loss t' = total_eval_loss t
    /\ total_eval_score t' = total_eval_score t
    /\ epochs t' = epochs t
    /\ data_loader t' = data_loader t /\ sampler t' = sampler t
    /\ criterion t' = criterion t /\ is_ddp (model t') = is_ddp (model t).
Proof.
  unfold _train_step, _check_train_finish, mbind, M_bind, mret, M_ret, get, modify, emit.
  simpl.
  destruct (train_max_steps (config t) <=? steps t + 1) eqn:E;
    (eexists; split; [reflexivity|]); simpl;
    rewrite ?orb_true_r, ?orb_false_r; repeat split;
    destruct (model t); reflexivity.
Qed.

Lemma counts_train_step (b : batch) : counts (_train_step b).
Proof.
  intros t. destruct (train_step_run b t) as (t' & -> & Hs & _).
  split; [rewrite Hs; reflexivity | reflexivity].
Qed.

Lemma counts_train_iteration (b : batch) : counts (train_iteration b).
Proof.
  unfold train_iteration.
  apply counts_bind; [apply counts_train_step | intros _].
  apply quiet_counts.
  apply quiet_bind; [apply quiet_check_log_interval | intros _].
  apply quiet_bind; [apply quiet_check_save_interval | intros _].
  apply quiet_check_eval_interval.
Qed.

Lemma counts_train_loop (bs : list batch) : counts (train_loop bs).
Proof.
  induction bs as [|b bs IH]; simpl; [apply quiet_counts, quiet_ret|].
  apply counts_bind; [apply counts_train_iteration | intros _].
  apply counts_bind; [apply quiet_counts, quiet_get | intros t].
  destruct (finish_train t); [apply quiet_counts, quiet_ret | apply IH].
Qed.

Lemma counts_train_epoch : counts _train_epoch.
Proof.
  unfold _train_epoch.
  apply counts_bind; [apply quiet_counts, quiet_get | intros t].
  apply counts_bind; [apply counts_train_loop | intros r].
  destruct r; apply quiet_counts; [apply quiet_ret | apply quiet_epoch_boundary].
Qed.

Lemma counts_run_loop (fuel : nat) (t : Trainer) :
  match run_loop fuel t with
  | (ev, t', _) =>
      steps t' = steps t + Z.of_nat (processed ev)
      /\ step_counters ev = seqZ (steps t + 1) (Z.of_nat (processed ev))
  end.
Proof.
  revert t. induction fuel as [|fuel IH]; intros t; simpl.
  - split; [unfold processed; simpl; lia | reflexivity].
  - pose proof (counts_train_epoch t) as H.
    destruct (_train_epoch t) as [[ev t1] [[]|e]]; [|exact H].
    destruct (finish_train t1); [exact H|].
    specialize (IH t1). destruct (run_loop fuel t1) as [[ev2 t2] r].
    destruct H as [Hs1 Hc1], IH as [Hs2 Hc2].
    rewrite processed_app, step_counters_app, Hc1, Hc2, Nat2Z.inj_add.
    split; [lia|]. rewrite seqZ_app by lia. do 2 f_equal. lia.
Qed.

(** [run] adds the progress bar and the closing log line around the loop. *)
Lemma run_unfold (fuel : nat) (t : Trainer) :
  exists ev t' r tail,
    run_loop fuel t = (ev, t', r)
    /\ run fuel t = (TqdmOpen (steps t) (train_max_steps (config t)) :: ev ++ tail, t', r)
    /\ (tail = [] \/ tail = [TqdmClose; LoggerInfo MsgFinishTraining]).
Proof.
  unfold run. destruct (run_loop fuel t) as [[ev t'] [[[]|e]|]].
  - exists ev, t', (Some (Ok tt)), [TqdmClose; LoggerInfo MsgFinishTraining]. auto.
  - exists ev, t', (Some (Raise e)), []. rewrite app_nil_r. auto.
  - exists ev, t', None, []. rewrite app_nil_r. auto.
Qed.

Lemma run_observed (fuel : nat) (t : Trainer) :
  exists ev t' r,
    run_loop fuel t = (ev, t', r)
    /\ exists ev', run fuel t = (ev', t', r)
       /\ processed ev' = processed ev
       /\ step_counters ev' = step_counters ev
       /\ actions ev' = actions ev.
Proof.
  destruct (run_unfold fuel t) as (ev & t' & r & tail & H1 & H2 & Htail).
  exists ev, t', r. split; [exact H1|]. eexists. split; [exact H2|].
  change (?x :: ?l ++ ?m) with ([x] ++ l ++ m).
  rewrite !processed_app, !step_counters_app, !actions_app.
  destruct Htail as [-> | ->]; unfold processed; simpl; rewrite ?app_nil_r;
    repeat split; lia.
Qed.

(** *** Termination on [train_max_steps] *)

(** The bookkeeping of one iteration of the loop, whatever its outcome. *)
Lemma train_iteration_bookkeeping (b : batch) (t : Trainer) :
  match train_iteration b t with
  | (_, t', _) =>
      steps t' = steps t + 1 /\ config t' = config t
      /\ finish_train t'
         = (finish_train t || (train_max_steps (config t) <=? steps t + 1))
  end.
Proof.
  unfold train_iteration. rewrite bind_run.
  destruct (train_step_run b t) as (t1 & -> & Hs & Hc & Hf & _).
  assert (Hq : quiet (_check_log_interval;; _check_save_interval;; _check_eval_interval)).
  { apply quiet_bind; [apply quiet_check_log_interval | intros _].
    apply quiet_bind; [apply quiet_check_save_interval | intros _].
    apply quiet_check_eval_interval. }
  specialize (Hq t1).
  destruct ((_check_log_interval;; _check_save_interval;; _check_eval_interval) t1)
    as [[ev2 t2] r].
  destruct Hq as ((Hs2 & Hf2 & Hc2) & _). repeat split; congruence.
Qed.

(** Below the maximum and not finished: the loop stays at or below it, and
    leaves by [return] exactly when it has reached it. *)
Lemma train_loop_bound (bs : list batch) (t : Trainer) :
  finish_train t = false -> steps t < train_max_steps (config t) ->
  match train_loop bs t with
  | (_, t', r) =>
      config t' = config t
      /\ steps t' <= train_max_steps (config t)
      /\ (r = Ok true -> finish_train t' = true /\ steps t' = train_max_steps (config t))
      /\ (r = Ok false -> finish_train t' = false /\ steps t' < train_max_steps (config t))
  end.
Proof.
  revert t. induction bs as [|b bs IH]; intros t Hf Hlt; simpl.
  - repeat split; try lia; try assumption; discriminate.
  - rewrite bind_run. pose proof (train_iteration_bookkeeping b t) as H.
    destruct (train_iteration b t) as [[ev t1] [[]|e]];
      destruct H as (Hs & Hc & Hfin); rewrite Hf in Hfin; simpl in Hfin.
    + rewrite bind_run. simpl. destruct (finish_train t1) eqn:Hf1.
      * simpl. symmetry in Hfin. apply Z.leb_le in Hfin.
        repeat split; try assumption; try lia; discriminate.
      * symmetry in Hfin. apply Z.leb_gt in Hfin.
        specialize (IH t1 Hf1). rewrite Hc in IH. specialize (IH ltac:(lia)).
        destruct (train_loop bs t1) as [[ev2 t2] r]. simpl.
        destruct IH as (Hc2 & ? & ? & ?). repeat split; try congruence; tauto.
    + repeat split; try assumption; try lia; discriminate.
Qed.

Lemma train_epoch_bound (t : Trainer) :
  finish_train t = false -> steps t < train_max_steps (config t) ->
  match _train_epoch t with
  | (_, t', r) =>
      config t' = config t
      /\ steps t' <= train_max_steps (config t)
      /\ (r = Ok tt ->
          (finish_train t' = true /\ steps t' = train_max_steps (config t))
          \/ (finish_train t' = false /\ steps t' < train_max_steps (config t)))
  end.
Proof.
  intros Hf Hlt. unfold _train_epoch. rewrite bind_run. simpl.
  rewrite bind_run. pose proof (train_loop_bound (dl_train (data_loader t)) t Hf Hlt) as H.
  destruct (train_loop (dl_train (data_loader t)) t) as [[ev t1] [r|e]].
  - destruct H as (Hc & Hle & Ht & Hfalse). destruct r; simpl.
    + repeat split; try assumption. intros _. left. auto.
    + pose proof (quiet_epoch_boundary t1) as Hq.
      destruct (epoch_boundary t1) as [[ev2 t2] r2]. simpl.
      destruct Hq as ((Hs2 & Hf2 & Hc2) & _). destruct (Hfalse eq_refl).
      repeat split; try congruence; try lia. intros _. right. split; congruence.
  - destruct H as (Hc & Hle & _). repeat split; try assumption. discriminate.
Qed.

Lemma run_loop_bound (fuel : nat) (t : Trainer) :
  finish_train t = false -> steps t < train_max_steps (config t) ->
  match run_loop fuel t with
  | (_, t', r) =>
      config t' = config t
      /\ steps t' <= train_max_steps (config t)
      /\ (r = Some (Ok tt) ->
          finish_train t' = true /\ steps t' = train_max_steps (config t))
  end.
Proof.
  revert t. induction fuel as [|fuel IH]; intros t Hf Hlt; simpl.
  - repeat split; try lia; discriminate.
  - pose proof (train_epoch_bound t Hf Hlt) as H.
    destruct (_train_epoch t) as [[ev t1] [[]|e]]; destruct H as (Hc & Hle & Hr).
    + destruct (Hr eq_refl) as [[Hf1 Hs1] | [Hf1 Hs1]]; rewrite Hf1.
      * repeat split; assumption.
      * specialize (IH t1 Hf1). rewrite Hc in IH. specialize (IH Hs1).
        destruct (run_loop fuel t1) as [[ev2 t2] r].
        destruct IH as (? & ? & ?). repeat split; try congruence; tauto.
    + repeat split; try assumption; discriminate.
Qed.

(** *** The interval actions *)

Ltac splits := repeat match goal with |- _ /\ _ => split end.

Ltac unfold_m :=
  unfold mbind, M_bind, mret, M_ret, get, modify, emit, emits, raise, lift in *.

Lemma py_truediv_ok (x : scalar) (n : Z) : n <> 0 -> py_truediv x n = Ok (fdiv x n).
Proof. intros H. unfold py_truediv. apply Z.eqb_neq in H. rewrite H. reflexivity. Qed.

Lemma check_log_spec (t : Trainer) (v : scalar) :
  log_interval_steps (config t) <> 0 ->
  total_train_loss t = [("train/onset_loss", v)] ->
  exists ev t',
    _check_log_interval t = (ev, t', Ok tt)
    /\ actions ev
       = (if steps t mod log_interval_steps (config t) =? 0 then [ALog (steps t)] else [])
    /\ t' = (if steps t mod log_interval_steps (config t) =? 0
             then set_total_train_loss [] t else t).
Proof.
  intros Hnz Hd. unfold _check_log_interval, py_mod, _write_to_tensorboard. unfold_m.
  simpl. apply Z.eqb_neq in Hnz as Hnz'. rewrite Hnz'. simpl.
  destruct (steps t mod log_interval_steps (config t) =? 0).
  - rewrite Hd. simpl. rewrite (py_truediv_ok _ _ Hnz). simpl.
    eexists _, _. split; [reflexivity|]. split; reflexivity.
  - eexists _, _. split; [reflexivity|]. split; reflexivity.
Qed.

Lemma check_save_spec (t : Trainer) :
  save_interval_steps (config t) <> 0 -> wrapped_ok t ->
  exists ev,
    _check_save_interval t = (ev, t, Ok tt)
    /\ actions ev
       = (if steps t mod save_interval_steps (config t) =? 0
          then [ASave (checkpoint_file (config t) (steps t)) (steps t)] else []).
Proof.
  intros Hnz Hw. unfold _check_save_interval, py_mod, save_checkpoint. unfold_m.
  simpl. apply Z.eqb_neq in Hnz as Hnz'. rewrite Hnz'. simpl.
  destruct (steps t mod save_interval_steps (config t) =? 0).
  - unfold wrapped_ok in Hw. destruct (distributed (config t)).
    + specialize (Hw eq_refl). destruct (model t); [discriminate|]. simpl.
      eexists. split; reflexivity.
    + simpl. eexists. split; reflexivity.
  - eexists. split; reflexivity.
Qed.

(** One evaluation step with a callable [criterion], on an empty accumulator
    and on one that holds both keys. *)
Lemma eval_step_first (score : tensor -> tensor -> scalar) (b : batch) (t : Trainer) :
  crit_call (criterion t) = Some score ->
  training (inner (model t)) = false ->
  total_eval_loss t = [] ->
  _eval_step b t
  = ([], set_total_eval_loss
           [("eval/onset_loss", fadd fzero (eval_loss t b));
            ("eval/score", fadd fzero (eval_score t score b))] t, Ok tt).
Proof.
  intros Hc Hm Hd. unfold _eval_step. unfold_m. simpl. rewrite Hc, Hd. simpl.
  unfold eval_loss, eval_score, model_call. rewrite Hm. reflexivity.
Qed.

Lemma eval_step_next (score : tensor -> tensor -> scalar) (b : batch) (t : Trainer)
    (x y : scalar) :
  crit_call (criterion t) = Some score ->
  training (inner (model t)) = false ->
  total_eval_loss t = [("eval/onset_loss", x); ("eval/score", y)] ->
  _eval_step b t
  = ([], set_total_eval_loss
           [("eval/onset_loss", fadd x (eval_loss t b));
            ("eval/score", fadd y (eval_score t score b))] t, Ok tt).
Proof.
  intros Hc Hm Hd. unfold _eval_step. unfold_m. simpl. rewrite Hc, Hd. simpl.
  unfold eval_loss, eval_score, model_call. rewrite Hm. reflexivity.
Qed.

(** Without a callable [criterion] the first evaluation step raises, after
    the loss was accumulated and the score key inserted. *)
Lemma eval_step_not_callable (b : batch) (t : Trainer) :
  crit_call (criterion t) = None ->
  _eval_step b t
  = ([], set_total_eval_loss
           (dict_missing
              (dict_iadd (total_eval_loss t) "eval/onset_loss"
                 (loss_fn t (model_call (model t) (mel b)) (label b)))
              "eval/score") t, Raise TypeError).
Proof. intros Hc. unfold _eval_step. unfold_m. simpl. rewrite Hc. reflexivity. Qed.

Lemma eval_loop_next (score : tensor -> tensor -> scalar) (bs : list batch) :
  forall (i n : Z) (t : Trainer) (x y : scalar),
    crit_call (criterion t) = Some score ->
    training (inner (model t)) = false ->
    total_eval_loss t = [("eval/onset_loss", x); ("eval/score", y)] ->
    eval_loop bs i n t
    = ([], set_total_eval_loss
             [("eval/onset_loss", fold_left fadd (map (eval_loss t) bs) x);
              ("eval/score", fold_left fadd (map (eval_score t score) bs) y)] t,
       Ok (match bs with [] => n | _ => i + Z.of_nat (length bs) - 1 end)).
Proof.
  induction bs as [|b bs IH]; intros i n t x y Hc Hm Hd.
  - simpl. unfold_m. rewrite <- Hd. destruct t; reflexivity.
  - cbn [eval_loop]. rewrite bind_run, (eval_step_next score b t x y Hc Hm Hd).
    rewrite (IH (i + 1) i _ (fadd x (eval_loss t b)) (fadd y (eval_score t score b)));
      [|exact Hc|exact Hm|reflexivity].
    simpl. do 2 f_equal. destruct bs; [simpl; lia|].
    cbn [length]. lia.
Qed.

Lemma eval_loop_callable (score : tensor -> tensor -> scalar) (b : batch)
    (bs : list batch) (t : Trainer) :
  crit_call (criterion t) = Some score ->
  training (inner (model t)) = false ->
  total_eval_loss t = [] ->
  eval_loop (b :: bs) 1 1 t
  = ([], set_total_eval_loss
           [("eval/onset_loss", fsum (map (eval_loss t) (b :: bs)));
            ("eval/score", fsum (map (eval_score t score) (b :: bs)))] t,
     Ok (Z.of_nat (length (b :: bs)))).
Proof.
  intros Hc Hm Hd. cbn [eval_loop]. rewrite bind_run, (eval_step_first score b t Hc Hm Hd).
  rewrite (eval_loop_next score bs (1 + 1) 1 _ (fadd fzero (eval_loss t b))
             (fadd fzero (eval_score t score b))); [|exact Hc|exact Hm|reflexivity].
  simpl app. unfold fsum. cbn [map fold_left]. do 2 f_equal.
  destruct bs; [reflexivity|]. cbn [length]. lia.
Qed.

Lemma average_loop_ok (msg : string -> scalar -> log_msg) (n : Z) (d : pydict) :
  n <> 0 ->
  average_loop msg n d
  = (map (fun kv => LoggerInfo (msg (fst kv) (fdiv (snd kv) n))) d,
     map (fun kv => (fst kv, fdiv (snd kv) n)) d, Ok tt).
Proof.
  intros Hn. induction d as [|[k v] d IH]; simpl; [reflexivity|].
  rewrite (py_truediv_ok _ _ Hn), IH. reflexivity.
Qed.

(** A pass over no batch: the divisor is the initial [batch_idx = 1]. *)
Lemma eval_epoch_empty (t : Trainer) :
  dl_eval (data_loader t) = [] ->
  exists t',
    _eval_epoch t
    = (eval_events (steps t)
         (map (fun kv => (fst kv, fdiv (snd kv) 1)) (total_eval_loss t))
         (map (fun kv => (fst kv, fdiv (snd kv) 1)) (total_eval_score t)), t', Ok tt)
    /\ after_eval t t'.
Proof.
  intros Hbs. unfold _eval_epoch, _write_to_tensorboard. unfold_m. simpl.
  rewrite Hbs. simpl.
  rewrite !average_loop_ok by discriminate. simpl.
  eexists. split.
  - unfold eval_events. rewrite !map_map. simpl. rewrite <- ?app_assoc. reflexivity.
  - unfold after_eval. simpl. destruct (model t); repeat split.
Qed.

(** A pass over at least one batch with a callable [criterion]. *)
Lemma eval_epoch_callable (score : tensor -> tensor -> scalar) (b : batch)
    (bs : list batch) (t : Trainer) :
  crit_call (criterion t) = Some score ->
  total_eval_loss t = [] -> total_eval_score t = [] ->
  dl_eval (data_loader t) = b :: bs ->
  exists t',
    _eval_epoch t
    = (eval_events (steps t) (eval_metrics t score (b :: bs)) [], t', Ok tt)
    /\ after_eval t t'.
Proof.
  intros Hc Hl Hs Hbs. unfold _eval_epoch.
  rewrite bind_run. unfold_m. simpl. rewrite Hbs.
  set (t0 := set_model (set_training false (model t)) t).
  rewrite (eval_loop_callable score b bs t0 Hc); [| destruct (model t); reflexivity | exact Hl].
  unfold _write_to_tensorboard. unfold_m.
  cbn -[Z.of_nat length map fsum eval_loss eval_score].
  rewrite !py_truediv_ok by (cbn [length]; lia).
  cbn -[Z.of_nat length map fsum eval_loss eval_score]. rewrite Hs.
  cbn -[Z.of_nat length map fsum eval_loss eval_score].
  eexists. split.
  - unfold eval_events, eval_metrics.
    cbn -[Z.of_nat length map fsum eval_loss eval_score].
    assert (He : forall x, eval_loss t0 x = eval_loss t x)
      by (intros x; unfold eval_loss, t0; destruct (model t); reflexivity).
    assert (Hsc : forall x, eval_score t0 score x = eval_score t score x)
      by (intros x; unfold eval_score, t0; destruct (model t); reflexivity).
    rewrite ?He, ?Hsc, ?(map_ext _ _ He), ?(map_ext _ _ Hsc). reflexivity.
  - unfold after_eval. simpl. destruct (model t); repeat split.
Qed.

(** A pass over at least one batch with a [criterion] that cannot be
    called: the first step raises, the pass stops after its first two calls
    and the model stays in inference mode. *)
Lemma eval_epoch_not_callable (b : batch) (bs : list batch) (t : Trainer) :
  crit_call (criterion t) = None ->
  dl_eval (data_loader t) = b :: bs ->
  exists t',
    _eval_epoch t = ([LoggerInfo (MsgStartEval (steps t)); ModelEval], t', Raise TypeError)
    /\ training (inner (model t')) = false
    /\ total_eval_loss t'
       = dict_missing
           (dict_iadd (total_eval_loss t) "eval/onset_loss" (eval_loss t b)) "eval/score"
    /\ same_setup t t' /\ steps t' = steps t
    /\ total_train_loss t' = total_train_loss t.
Proof.
  intros Hc Hbs. unfold _eval_epoch.
  rewrite bind_run. unfold_m. simpl. rewrite Hbs. cbn [eval_loop].
  rewrite bind_run, eval_step_not_callable by exact Hc.
  eexists. split; [reflexivity|]. simpl.
  unfold eval_loss, model_call, same_setup. simpl.
  destruct (model t); repeat split.
Qed.

Lemma check_eval_unfold (t : Trainer) :
  eval_interval_steps (config t) <> 0 ->
  _check_eval_interval t
  = if steps t mod eval_interval_steps (config t) =? 0 then _eval_epoch t
    else ([], t, Ok tt).
Proof.
  intros Hnz. unfold _check_eval_interval, py_mod. apply Z.eqb_neq in Hnz.
  rewrite bind_run. unfold get. rewrite Hnz, bind_run. unfold_m.
  destruct (steps t mod eval_interval_steps (config t) =? 0); [|reflexivity].
  destruct (_eval_epoch t) as [[ev t'] r]. reflexivity.
Qed.

Lemma check_eval_spec (t : Trainer) :
  eval_interval_steps (config t) <> 0 ->
  total_eval_loss t = [] -> total_eval_score t = [] ->
  exists ev t' r,
    _check_eval_interval t = (ev, t', r)
    /\ actions ev
       = (if steps t mod eval_interval_steps (config t) =? 0 then [AEval (steps t)] else [])
    /\ same_setup t t'
    /\ total_train_loss t' = total_train_loss t
    /\ (r = Ok tt -> total_eval_loss t' = [] /\ total_eval_score t' = [])
    /\ (crit_call (criterion t) <> None \/ dl_eval (data_loader t) = [] -> r = Ok tt).
Proof.
  intros Hnz Hl Hs. rewrite (check_eval_unfold t Hnz).
  destruct (steps t mod eval_interval_steps (config t) =? 0).
  2:{ exists [], t, (Ok tt). unfold same_setup. repeat split; auto. }
  destruct (dl_eval (data_loader t)) as [|b bs] eqn:Hbs.
  - destruct (eval_epoch_empty t Hbs) as (t' & -> & Ha).
    rewrite Hl, Hs. unfold after_eval in Ha.
    exists (eval_events (steps t) [] []), t', (Ok tt).
    unfold same_setup. repeat split; try tauto.
  - destruct (crit_call (criterion t)) as [score|] eqn:Hc.
    + destruct (eval_epoch_callable score b bs t Hc Hl Hs Hbs) as (t' & -> & Ha).
      unfold after_eval in Ha.
      exists (eval_events (steps t) (eval_metrics t score (b :: bs)) []), t', (Ok tt).
      unfold same_setup. repeat split; try tauto.
    + destruct (eval_epoch_not_callable b bs t Hc Hbs)
        as (t' & -> & Hm & Hd & Hsame & Hst & Htr).
      exists [LoggerInfo (MsgStartEval (steps t)); ModelEval], t', (Raise TypeError).
      split; [reflexivity|]. split; [reflexivity|]. split; [exact Hsame|].
      split; [exact Htr|]. split; [discriminate|].
      intros [H | H]; [congruence | discriminate].
Qed.

Lemma same_setup_refl (t : Trainer) : same_setup t t.
Proof. unfold same_setup. repeat split. Qed.

Lemma same_setup_trans (t1 t2 t3 : Trainer) :
  same_setup t1 t2 -> same_setup t2 t3 -> same_setup t1 t3.
Proof. unfold same_setup. intuition congruence. Qed.

Lemma wrapped_ok_same (t t' : Trainer) : same_setup t t' -> wrapped_ok t -> wrapped_ok t'.
Proof.
  unfold same_setup, wrapped_ok. intros (Hc & _ & _ & _ & _ & Hm) H.
  rewrite Hc, Hm. exact H.
Qed.

Lemma wired_same (t t' : Trainer) : same_setup t t' -> wired t -> wired t'.
Proof.
  intros Hs (H1 & H2 & H3). split; [exact (wrapped_ok_same t t' Hs H1)|].
  destruct Hs as (Hc & Hd & Hsm & Hcr & _ & _). rewrite Hc, Hd, Hsm, Hcr. auto.
Qed.

Lemma train_acc_after_step (d : pydict) (x : scalar) :
  train_acc_ok d -> exists v, dict_iadd d "train/onset_loss" x = [("train/onset_loss", v)].
Proof. intros [-> | [v ->]]; simpl; eauto. Qed.

(** One iteration of the training loop: the actions due at the new step, in
    order, and nothing that can raise in a wired trainer. *)
Lemma iteration_spec (b : batch) (t : Trainer) :
  Inv t -> intervals_nonzero (config t) -> wrapped_ok t ->
  exists ev t' r,
    train_iteration b t = (ev, t', r)
    /\ actions ev = interval_actions (config t) (steps t + 1)
    /\ step_counters ev = [steps t + 1]
    /\ same_setup t t'
    /\ (r = Ok tt -> Inv t')
    /\ (wired t -> r = Ok tt).
Proof.
  intros (Htr & Hel & Hes) (Hlog & Hsave & Heval) Hw.
  destruct (train_step_run b t)
    as (t1 & E1 & Hs1 & Hc1 & _ & Hd1 & Hel1 & Hes1 & _ & Hdl1 & Hsm1 & Hcr1 & Hm1).
  assert (Hlf1 : loss_fn t1 = loss_fn t).
  { revert E1. unfold _train_step, _check_train_finish. unfold_m. simpl.
    destruct (train_max_steps (config t) <=? steps t + 1);
      intros E; inversion E; reflexivity. }
  assert (Hsame1 : same_setup t t1) by (unfold same_setup; auto 10).
  destruct (train_acc_after_step _ (loss_fn t (model_call (model t) (mel b)) (label b)) Htr)
    as [v Hv]. rewrite <- Hd1 in Hv.
  destruct (check_log_spec t1 v) as (ev2 & t2 & E2 & Ha2 & Ht2);
    [rewrite Hc1; exact Hlog | exact Hv |].
  assert (Hsame2 : same_setup t1 t2 /\ steps t2 = steps t1
                   /\ train_acc_ok (total_train_loss t2)
                   /\ total_eval_loss t2 = [] /\ total_eval_score t2 = []).
  { rewrite Ht2. destruct (steps t1 mod log_interval_steps (config t1) =? 0); simpl.
    - split; [unfold same_setup; simpl; repeat split|].
      repeat split; try assumption; try congruence. left; reflexivity.
    - split; [apply same_setup_refl|]. repeat split; try congruence.
      right; eauto. }
  destruct Hsame2 as (Hsame2 & Hs2 & Htr2 & Hel2 & Hes2).
  assert (Hsame02 : same_setup t t2) by (eapply same_setup_trans; eassumption).
  assert (Hc2 : config t2 = config t) by apply Hsame02.
  destruct (check_save_spec t2) as (ev3 & E3 & Ha3);
    [rewrite Hc2; exact Hsave | exact (wrapped_ok_same _ _ Hsame02 Hw) |].
  destruct (check_eval_spec t2) as (ev4 & t4 & r4 & E4 & Ha4 & Hsame4 & Htr4 & Hok4 & Hr4);
    [rewrite Hc2; exact Heval | exact Hel2 | exact Hes2 |].
  assert (E : train_iteration b t
              = ([ZeroGrad; OptimizerStep; StepCounter (steps t + 1); TqdmUpdate]
                   ++ ev2 ++ ev3 ++ ev4, t4, r4)).
  { unfold train_iteration. rewrite bind_run, E1, bind_run, E2, bind_run, E3, E4.
    reflexivity. }
  pose proof (counts_train_iteration b t) as Hcnt.
  pose proof (train_iteration_bookkeeping b t) as Hbk.
  rewrite E in Hcnt, Hbk. destruct Hcnt as [Hcs Hcc]. destruct Hbk as (Hbs & _).
  eexists _, t4, r4. split; [exact E|].
  split.
  { rewrite !actions_app, Ha2, Ha3, Ha4. unfold interval_actions.
    rewrite Hs2, Hs1, Hc2, Hc1. reflexivity. }
  split.
  { rewrite Hcc. assert (Hp : Z.of_nat (processed
      ([ZeroGrad; OptimizerStep; StepCounter (steps t + 1); TqdmUpdate]
         ++ ev2 ++ ev3 ++ ev4)) = 1) by lia.
    rewrite Hp. reflexivity. }
  split; [eapply same_setup_trans; eassumption|].
  split.
  - intros Hr. destruct (Hok4 Hr). unfold Inv. rewrite Htr4. auto.
  - intros Hwired. apply Hr4. pose proof (wired_same t t2 Hsame02 Hwired) as (_ & _ & H).
    exact H.
Qed.

Lemma train_loop_actions (bs : list batch) (t : Trainer) :
  Inv t -> intervals_nonzero (config t) -> wrapped_ok t ->
  exists ev t' r,
    train_loop bs t = (ev, t', r)
    /\ actions ev = flat_map (interval_actions (config t)) (step_counters ev)
    /\ same_setup t t'
    /\ (forall x, r = Ok x -> Inv t')
    /\ (wired t -> exists x, r = Ok x).
Proof.
  revert t. induction bs as [|b bs IH]; intros t HInv Hnz Hw; simpl.
  - exists [], t, (Ok false). splits; eauto using same_setup_refl.
  - rewrite bind_run.
    destruct (iteration_spec b t HInv Hnz Hw)
      as (ev1 & t1 & r1 & -> & Ha1 & Hsc1 & Hsame1 & HInv1 & Hr1).
    assert (Hone : flat_map (interval_actions (config t)) (step_counters ev1) = actions ev1).
    { rewrite Hsc1, Ha1. simpl. apply app_nil_r. }
    destruct r1 as [[]|e].
    2:{ exists ev1, t1, (Raise e). splits; auto; try discriminate.
        intros H. specialize (Hr1 H). discriminate. }
    rewrite bind_run. unfold get.
    destruct (finish_train t1).
    + unfold_m. exists (ev1 ++ [] ++ []), t1, (Ok true).
      rewrite !app_nil_r. splits; eauto.
    + assert (Hc1 : config t1 = config t) by apply Hsame1.
      destruct (IH t1) as (ev2 & t2 & r2 & -> & Ha2 & Hsame2 & HInv2 & Hr2);
        [auto | rewrite Hc1; exact Hnz | exact (wrapped_ok_same _ _ Hsame1 Hw) |].
      exists (ev1 ++ [] ++ ev2), t2, r2. split; [reflexivity|]. simpl.
      rewrite actions_app, step_counters_app, flat_map_app, Hone, Ha2, Hc1.
      splits; eauto using same_setup_trans, wired_same.
Qed.

Lemma epoch_boundary_spec (t : Trainer) :
  exists ev t' r,
    epoch_boundary t = (ev, t', r)
    /\ actions ev = [] /\ step_counters ev = [] /\ same_setup t t'
    /\ total_train_loss t' = total_train_loss t
    /\ total_eval_loss t' = total_eval_loss t
    /\ total_eval_score t' = total_eval_score t
    /\ epochs t' = epochs t + 1
    /\ (wired t -> r = Ok tt).
Proof.
  unfold epoch_boundary. unfold_m. simpl.
  destruct (distributed (config t)) eqn:Hd; [destruct (sampler_train (sampler t)) eqn:Hsm|];
    eexists _, _, _; (split; [reflexivity|]); simpl;
    unfold same_setup; repeat split.
  intros (_ & H & _). specialize (H Hd). congruence.
Qed.

Lemma train_epoch_actions (t : Trainer) :
  Inv t -> intervals_nonzero (config t) -> wrapped_ok t ->
  exists ev t' r,
    _train_epoch t = (ev, t', r)
    /\ actions ev = flat_map (interval_actions (config t)) (step_counters ev)
    /\ same_setup t t'
    /\ (r = Ok tt -> Inv t')
    /\ (wired t -> r = Ok tt).
Proof.
  intros HInv Hnz Hw. unfold _train_epoch. rewrite bind_run. unfold get.
  rewrite bind_run.
  destruct (train_loop_actions (dl_train (data_loader t)) t HInv Hnz Hw)
    as (ev1 & t1 & r1 & -> & Ha1 & Hsame1 & HInv1 & Hr1).
  destruct r1 as [[|]|e].
  - unfold_m. exists ([] ++ ev1 ++ []), t1, (Ok tt). simpl. rewrite app_nil_r.
    splits; eauto.
  - destruct (epoch_boundary_spec t1)
      as (ev2 & t2 & r2 & -> & Ha2 & Hsc2 & Hsame2 & Htr & Hel & Hes & _ & Hr2).
    exists ([] ++ ev1 ++ ev2), t2, r2. split; [reflexivity|]. simpl.
    rewrite actions_app, step_counters_app, Ha2, Hsc2, !app_nil_r.
    splits; eauto using same_setup_trans.
    + intros _. destruct (HInv1 false eq_refl) as (? & ? & ?).
      unfold Inv. rewrite Htr, Hel, Hes. auto.
    + intros H. apply Hr2. eapply wired_same; eassumption.
  - exists ([] ++ ev1), t1, (Raise e). simpl. splits; auto; try discriminate.
    intros H. destruct (Hr1 H). discriminate.
Qed.

Lemma run_loop_actions (fuel : nat) (t : Trainer) :
  Inv t -> intervals_nonzero (config t) -> wrapped_ok t ->
  match run_loop fuel t with
  | (ev, _, _) => actions ev = flat_map (interval_actions (config t)) (step_counters ev)
  end.
Proof.
  revert t. induction fuel as [|fuel IH]; intros t HInv Hnz Hw; simpl; [reflexivity|].
  destruct (train_epoch_actions t HInv Hnz Hw)
    as (ev1 & t1 & r1 & -> & Ha1 & Hsame1 & HInv1 & _).
  destruct r1 as [[]|e]; [|exact Ha1].
  destruct (finish_train t1); [exact Ha1|].
  assert (Hc1 : config t1 = config t) by apply Hsame1.
  specialize (IH t1 (HInv1 eq_refl)). rewrite Hc1 in IH.
  specialize (IH Hnz (wrapped_ok_same _ _ Hsame1 Hw)).
  destruct (run_loop fuel t1) as [[ev2 t2] r2].
  rewrite actions_app, step_counters_app, flat_map_app, Ha1, IH. reflexivity.
Qed.

Lemma fresh_Inv (t : Trainer) : fresh_accumulators t -> Inv t.
Proof. intros (H1 & H2 & H3). unfold Inv, train_acc_ok. auto. Qed.

(** *** Progress *)

Lemma train_loop_progress (b : batch) (bs : list batch) (t : Trainer) :
  match train_loop (b :: bs) t with
  | (_, t', _) => steps t < steps t'
  end.
Proof.
  cbn [train_loop]. rewrite bind_run.
  pose proof (train_iteration_bookkeeping b t) as H.
  destruct (train_iteration b t) as [[ev t1] [[]|e]]; destruct H as (Hs & _); [|lia].
  rewrite bind_run. unfold get. destruct (finish_train t1).
  - unfold_m. lia.
  - pose proof (counts_train_loop bs t1) as Hc.
    destruct (train_loop bs t1) as [[ev2 t2] r]. destruct Hc as [Hc _]. lia.
Qed.

Lemma train_epoch_progress (t : Trainer) :
  dl_train (data_loader t) <> [] ->
  match _train_epoch t with
  | (_, t', _) => steps t < steps t'
  end.
Proof.
  intros Hne. unfold _train_epoch. rewrite bind_run. unfold get. rewrite bind_run.
  destruct (dl_train (data_loader t)) as [|b bs]; [congruence|].
  pose proof (train_loop_progress b bs t) as H.
  destruct (train_loop (b :: bs) t) as [[ev t1] [[|]|e]]; [exact H| |exact H].
  pose proof (quiet_epoch_boundary t1) as Hq.
  destruct (epoch_boundary t1) as [[ev2 t2] r2]. destruct Hq as ((Hq & _) & _). lia.
Qed.

(** With a non-empty training loader and nothing that can raise, the loop
    ends within [train_max_steps - steps] epochs. *)
Lemma run_loop_terminates (fuel : nat) (t : Trainer) :
  Inv t -> intervals_nonzero (config t) -> wired t ->
  dl_train (data_loader t) <> [] ->
  finish_train t = false -> steps t < train_max_steps (config t) ->
  (Z.to_nat (train_max_steps (config t) - steps t) <= fuel)%nat ->
  exists ev t', run_loop fuel t = (ev, t', Some (Ok tt)).
Proof.
  revert t. induction fuel as [|fuel IH]; intros t HInv Hnz Hwd Hne Hf Hlt Hfuel; [lia|].
  cbn [run_loop].
  pose proof (train_epoch_bound t Hf Hlt) as Hb.
  pose proof (train_epoch_progress t Hne) as Hp.
  destruct (train_epoch_actions t HInv Hnz (proj1 Hwd))
    as (ev1 & t1 & r1 & E & _ & Hsame & HInv1 & Hr1).
  rewrite E in *. rewrite (Hr1 Hwd) in *.
  destruct Hb as (Hc & Hle & Hcase).
  destruct (Hcase eq_refl) as [[Hf1 Hs1] | [Hf1 Hs1]]; rewrite Hf1; [eauto|].
  destruct (IH t1) as (ev2 & t2 & E2); try rewrite Hc; auto.
  - eapply wired_same; eassumption.
  - destruct Hsame as (_ & Hd & _). rewrite Hd. exact Hne.
  - lia.
  - rewrite E2. eauto.
Qed.

Lemma run_terminates (fuel : nat) (t : Trainer) :
  fresh_accumulators t -> intervals_nonzero (config t) -> wired t ->
  dl_train (data_loader t) <> [] ->
  finish_train t = false -> steps t < train_max_steps (config t) ->
  (Z.to_nat (train_max_steps (config t) - steps t) <= fuel)%nat ->
  exists ev t', run fuel t = (ev, t', Some (Ok tt)).
Proof.
  intros Hfr Hnz Hwd Hne Hf Hlt Hfuel.
  destruct (run_loop_terminates fuel t (fresh_Inv t Hfr) Hnz Hwd Hne Hf Hlt Hfuel)
    as (ev & t' & E).
  unfold run. rewrite E. eauto.
Qed.

Lemma run_summary (fuel : nat) (t : Trainer) :
  match run fuel t with
  | (ev, t', _) =>
      steps t' = steps t + Z.of_nat (processed ev)
      /\ step_counters ev = seqZ (steps t + 1) (Z.of_nat (processed ev))
      /\ (fresh_accumulators t -> intervals_nonzero (config t) -> wrapped_ok t ->
          actions ev = flat_map (interval_actions (config t)) (step_counters ev))
  end.
Proof.
  destruct (run_observed fuel t) as (ev & t' & r & E & ev' & -> & Hp & Hsc & Ha).
  pose proof (counts_run_loop fuel t) as H. rewrite E in H. destruct H as [H1 H2].
  rewrite Hp, Hsc, Ha. splits; auto.
  intros Hfr Hnz Hw.
  pose proof (run_loop_actions fuel t (fresh_Inv t Hfr) Hnz Hw) as H.
  rewrite E in H. exact H.
Qed.

Lemma run_bounds (fuel : nat) (t : Trainer) :
  finish_train t = false -> steps t < train_max_steps (config t) ->
  match run fuel t with
  | (_, t', r) =>
      steps t' <= train_max_steps (config t)
      /\ (r = Some (Ok tt) ->
          finish_train t' = true /\ steps t' = train_max_steps (config t))
  end.
Proof.
  intros Hf Hlt.
  destruct (run_observed fuel t) as (ev & t' & r & E & ev' & -> & _).
  pose proof (run_loop_bound fuel t Hf Hlt) as H. rewrite E in H. tauto.
Qed.

(** *** The theorems on the training loop *)

(** C1.  In every run, the interval actions found in the trace are, for each
    step count reached and in the order reached, the log action iff the
    count is a multiple of [log_interval_steps], then the save action iff it
    is a multiple of [save_interval_steps], then the eval action iff it is a
    multiple of [eval_interval_steps]: three independent tests, fired in the
    order log, save, eval.  (The intervals are non-zero, so that the modulo
    is defined; the accumulators are fresh and a distributed model is
    wrapped, as [__init__] and [main] leave them.) *)
Theorem C1_interval_actions (fuel : nat) (t : Trainer) :
  fresh_accumulators t -> intervals_nonzero (config t) -> wrapped_ok t ->
  match run fuel t with
  | (ev, _, _) =>
      actions ev = flat_map (interval_actions (config t)) (step_counters ev)
  end.
Proof.
  intros Hfr Hnz Hw. pose proof (run_summary fuel t) as H.
  destruct (run fuel t) as [[ev t'] r]. apply H; assumption.
Qed.

(** C3.  In every run and whatever its outcome, the step counter grows by
    exactly one per processed batch and shows consecutive values from the
    initial one; [_train_step] adds one, and the interval checks, the
    evaluation pass and the epoch-boundary action leave it unchanged. *)
Theorem C3_step_counter :
  (forall (fuel : nat) (t : Trainer),
      match run fuel t with
      | (ev, t', _) =>
          steps t' = steps t + Z.of_nat (processed ev)
          /\ step_counters ev = seqZ (steps t + 1) (Z.of_nat (processed ev))
      end)
  /\ (forall (b : batch) (t : Trainer),
         match _train_step b t with
         | (ev, t', r) => r = Ok tt /\ processed ev = 1%nat /\ steps t' = steps t + 1
         end)
  /\ (forall t : Trainer, steps (snd (fst (epoch_boundary t))) = steps t)
  /\ (forall t : Trainer, steps (snd (fst (_check_log_interval t))) = steps t)
  /\ (forall t : Trainer, steps (snd (fst (_check_save_interval t))) = steps t)
  /\ (forall t : Trainer, steps (snd (fst (_check_eval_interval t))) = steps t).
Proof.
  split.
  { intros fuel t. pose proof (run_summary fuel t) as H.
    destruct (run fuel t) as [[ev t'] r]. tauto. }
  split.
  { intros b t. destruct (train_step_run b t) as (t' & -> & Hs & _). auto. }
  assert (Hq : forall (m : M unit), quiet m ->
                 forall t, steps (snd (fst (m t))) = steps t).
  { intros m Hm t. specialize (Hm t). destruct (m t) as [[ev t'] r]. apply Hm. }
  splits; apply Hq;
    [ apply quiet_epoch_boundary | apply quiet_check_log_interval
    | apply quiet_check_save_interval | apply quiet_check_eval_interval ].
Qed.

(** C2, as amended.  Given [train_max_steps = N] and a run that starts
    unfinished with its counter below [N]: no training step ever ends with
    the counter above [N], whatever the outcome of the run; a run that
    returns has set [finish_train] with the counter at exactly [N], after
    the steps [steps + 1 .. N] and no other; [_train_step] sets the flag as
    soon as the counter has reached [N], in the middle of an epoch or not;
    and with a non-empty training loader and nothing that can raise, the
    run does return within [N - steps] epochs. *)
Theorem C2_termination (fuel : nat) (t : Trainer) :
  finish_train t = false -> steps t < train_max_steps (config t) ->
  never_beyond_max fuel t
  /\ match run fuel t with
     | (ev, t', r) =>
         r = Some (Ok tt) ->
         finish_train t' = true /\ steps t' = train_max_steps (config t)
         /\ step_counters ev
            = seqZ (steps t + 1) (train_max_steps (config t) - steps t)
     end
  /\ (forall (b : batch) (t0 : Trainer),
         finish_train (snd (fst (_train_step b t0)))
         = (finish_train t0 || (train_max_steps (config t0) <=? steps t0 + 1)))
  /\ (fresh_accumulators t -> intervals_nonzero (config t) -> wired t ->
      dl_train (data_loader t) <> [] ->
      (Z.to_nat (train_max_steps (config t) - steps t) <= fuel)%nat ->
      exists ev t', run fuel t = (ev, t', Some (Ok tt))).
Proof.
  intros Hf Hlt. unfold never_beyond_max.
  pose proof (run_summary fuel t) as Hcnt.
  pose proof (run_bounds fuel t Hf Hlt) as Hb.
  destruct (run fuel t) as [[ev t'] r] eqn:E.
  destruct Hcnt as (Hs & Hc & _). destruct Hb as (Hle & Hok).
  splits.
  - rewrite Hc. apply Forall_forall. intros x Hx.
    apply elem_of_seqZ in Hx. lia.
  - intros Hr. destruct (Hok Hr) as [Hfin Hmax]. splits; auto.
    rewrite Hc. f_equal. lia.
  - intros b t0. destruct (train_step_run b t0) as (t1 & -> & _ & _ & H & _). exact H.
  - intros Hfr Hnz Hwd Hne Hfuel. rewrite <- E.
    exact (run_terminates fuel t Hfr Hnz Hwd Hne Hf Hlt Hfuel).
Qed.

(** *** The save scenario *)

Lemma saves_of_intervals (cfg : Config) (l : list Z) :
  flat_map (fun a => match a with ASave p s => [(p, s)] | _ => [] end)
    (flat_map (interval_actions cfg) l)
  = map (fun s => (checkpoint_file cfg s, s))
      (List.filter (fun s => s mod save_interval_steps cfg =? 0) l).
Proof.
  induction l as [|s l IH]; [reflexivity|].
  cbn [flat_map List.filter]. rewrite flat_map_app, IH. unfold interval_actions.
  destruct (s mod log_interval_steps cfg =? 0), (s mod save_interval_steps cfg =? 0),
    (s mod eval_interval_steps cfg =? 0); reflexivity.
Qed.

Lemma multiples_of_100_to_250 :
  List.filter (fun s => s mod 100 =? 0) (seqZ 1 250) = [100; 200].
Proof. vm_compute. reflexivity. Qed.

(** C7.  With [save_interval_steps = 100] and [train_max_steps = 250], from
    step 0: in every run the checkpoints written are an initial part of
    those of steps 100 and 200; a run that returns wrote exactly these two,
    named after their steps, and none at step 250; and with a non-empty
    training loader and nothing that can raise, the run returns within 250
    epochs. *)
Theorem C7_save_scenario (fuel : nat) (t : Trainer) :
  save_interval_steps (config t) = 100 -> train_max_steps (config t) = 250 ->
  steps t = 0 -> finish_train t = false -> fresh_accumulators t ->
  log_interval_steps (config t) <> 0 -> eval_interval_steps (config t) <> 0 ->
  wrapped_ok t ->
  match run fuel t with
  | (ev, _, r) =>
      (exists rest,
          saves ev ++ rest
          = [(checkpoint_file (config t) 100, 100); (checkpoint_file (config t) 200, 200)])
      /\ (r = Some (Ok tt) ->
          saves ev
          = [(checkpoint_file (config t) 100, 100); (checkpoint_file (config t) 200, 200)])
  end
  /\ (wired t -> dl_train (data_loader t) <> [] -> (250 <= fuel)%nat ->
      exists ev t', run fuel t = (ev, t', Some (Ok tt))).
Proof.
  intros Hsave Hmax Hs0 Hf Hfr Hlog Heval Hw.
  assert (Hnz : intervals_nonzero (config t))
    by (unfold intervals_nonzero; rewrite Hsave; splits; auto; discriminate).
  assert (Hlt : steps t < train_max_steps (config t)) by lia.
  pose proof (run_summary fuel t) as Ha.
  pose proof (run_bounds fuel t Hf Hlt) as Hb.
  destruct (run fuel t) as [[ev t'] r] eqn:E.
  destruct Ha as (Hst & Hsc & Ha). specialize (Ha Hfr Hnz Hw).
  destruct Hb as (Hle & Hret).
  assert (Hall : map (fun s => (checkpoint_file (config t) s, s))
                   (List.filter (fun s => s mod 100 =? 0) (seqZ 1 250))
                 = [(checkpoint_file (config t) 100, 100);
                    (checkpoint_file (config t) 200, 200)])
    by (rewrite multiples_of_100_to_250; reflexivity).
  assert (Hsaves : forall k, 0 <= k ->
            step_counters ev = seqZ 1 k ->
            saves ev = map (fun s => (checkpoint_file (config t) s, s))
                         (List.filter (fun s => s mod 100 =? 0) (seqZ 1 k))).
  { intros k Hk Hk'. unfold saves. rewrite Ha, Hk', saves_of_intervals, Hsave.
    reflexivity. }
  split; [split|].
  - rewrite Hs0, Hmax in *. simpl in Hsc.
    set (k := Z.of_nat (processed ev)) in *.
    assert (Hk : 0 <= k <= 250) by lia.
    exists (map (fun s => (checkpoint_file (config t) s, s))
              (List.filter (fun s => s mod 100 =? 0) (seqZ (1 + k) (250 - k)))).
    rewrite (Hsaves k) by (lia || exact Hsc).
    rewrite <- List.map_app, <- List.filter_app, <- seqZ_app by lia.
    replace (k + (250 - k)) with 250 by lia. exact Hall.
  - intros Hr. destruct (Hret Hr) as (_ & Hst').
    rewrite Hs0, Hmax in *. simpl in Hsc.
    assert (Hk : Z.of_nat (processed ev) = 250) by lia. rewrite Hk in Hsc.
    rewrite (Hsaves 250) by (lia || exact Hsc). exact Hall.
  - intros Hwd Hne Hfuel. rewrite <- E.
    apply (run_terminates fuel t Hfr Hnz Hwd Hne Hf Hlt).
    rewrite Hmax, Hs0. simpl. lia.
Qed.

(** *** Checkpoints *)

Lemma save_checkpoint_run (path f_name : string) (t : Trainer) :
  wrapper_matches_config t ->
  save_checkpoint path f_name t
  = ([Mkdir path;
      TorchSave (path +:+ "/" +:+ f_name)
        {| b_optimizer := Some (optimizer t); b_scheduler := Some (scheduler t);
           b_steps := Some (steps t); b_epochs := Some (epochs t);
           b_model := Some {| sd_prefixed := false;
                              sd_tensors := weights (inner (model t)) |} |}],
     t, Ok tt).
Proof.
  unfold wrapper_matches_config, save_checkpoint. unfold_m. simpl. intros H.
  destruct (model t), (distributed (config t)); try discriminate; reflexivity.
Qed.

(** The first part of [load_checkpoint]: the parameters reach the module. *)
Lemma load_params_only (files : gmap string bundle) (path : string) (b : bundle)
    (w : params) (t : Trainer) :
  files !! path = Some b ->
  b_model b = Some {| sd_prefixed := false; sd_tensors := w |} ->
  wrapper_matches_config t ->
  compatible (weights (inner (model t))) w = true ->
  load_checkpoint files path true t
  = ([], set_model (set_weights w (model t)) t, Ok tt).
Proof.
  unfold wrapper_matches_config, load_checkpoint. intros Hf Hm Hw Hc.
  unfold_m. rewrite Hf. simpl. rewrite Hm.
  destruct (model t) as [x|x], (distributed (config t)); try discriminate; simpl in *;
    unfold module_load_state_dict; simpl; rewrite Hc; reflexivity.
Qed.

Lemma load_all (files : gmap string bundle) (path : string) (w : params)
    (o : opt_state) (sc : sched_state) (s e : Z) (t : Trainer) :
  files !! path
  = Some {| b_optimizer := Some o; b_scheduler := Some sc; b_steps := Some s;
            b_epochs := Some e;
            b_model := Some {| sd_prefixed := false; sd_tensors := w |} |} ->
  wrapper_matches_config t ->
  compatible (weights (inner (model t))) w = true ->
  load_checkpoint files path false t
  = ([], set_scheduler sc (set_optimizer o (set_epochs e (set_steps s
           (set_model (set_weights w (model t)) t)))), Ok tt).
Proof.
  unfold wrapper_matches_config, load_checkpoint. intros Hf Hw Hc.
  unfold_m. rewrite Hf. simpl.
  destruct (model t) as [x|x], (distributed (config t)); try discriminate; simpl in *;
    unfold module_load_state_dict; simpl; rewrite Hc; reflexivity.
Qed.

(** C4.  A checkpoint written by [save_checkpoint] and read back by
    [load_checkpoint] into a trainer of the same architecture: with
    [load_only_params = False] the loader gets the saver's steps, epochs,
    optimizer state, scheduler state and parameters; with
    [load_only_params = True] it gets the parameters only and keeps its own
    steps, epochs, optimizer state and scheduler state. *)
Theorem C4_checkpoint_roundtrip (saver loader : Trainer) (files : gmap string bundle)
    (path f_name : string) :
  wrapper_matches_config saver -> wrapper_matches_config loader ->
  compatible (weights (inner (model loader))) (weights (inner (model saver))) = true ->
  exists ev,
    save_checkpoint path f_name saver = (ev, saver, Ok tt)
    /\ (exists t',
           load_checkpoint (write_files files ev) (path +:+ "/" +:+ f_name) false loader
           = ([], t', Ok tt)
           /\ steps t' = steps saver /\ epochs t' = epochs saver
           /\ optimizer t' = optimizer saver /\ scheduler t' = scheduler saver
           /\ weights (inner (model t')) = weights (inner (model saver)))
    /\ (exists t',
           load_checkpoint (write_files files ev) (path +:+ "/" +:+ f_name) true loader
           = ([], t', Ok tt)
           /\ weights (inner (model t')) = weights (inner (model saver))
           /\ steps t' = steps loader /\ epochs t' = epochs loader
           /\ optimizer t' = optimizer loader /\ scheduler t' = scheduler loader).
Proof.
  intros Hs Hl Hc. eexists. split; [apply (save_checkpoint_run _ _ _ Hs)|].
  cbn [write_files fold_left]. split.
  - eexists. split.
    + apply load_all; [apply lookup_insert_eq | exact Hl | exact Hc].
    + simpl. destruct (model loader); repeat split.
  - eexists. split.
    + eapply load_params_only; [apply lookup_insert_eq | reflexivity | exact Hl | exact Hc].
    + simpl. destruct (model loader); repeat split.
Qed.

(** What [load_checkpoint] can raise. *)
Lemma load_checkpoint_errors (files : gmap string bundle) (path : string)
    (flag : bool) (t : Trainer) (e : exn) :
  snd (load_checkpoint files path flag t) = Raise e ->
  e = FileNotFoundError \/ e = AttributeError \/ e = RuntimeError
  \/ exists k, e = KeyError k.
Proof.
  unfold load_checkpoint, module_load_state_dict, model_load_state_dict,
    module_load_state_dict.
  unfold_m. destruct (files !! path) as [b|]; simpl.
  2:{ intros [= <-]. auto. }
  destruct (distributed (config t)), (model t) as [x|x], (b_model b) as [sd|]; simpl;
    try (intros [= <-]; eauto 6);
    repeat match goal with
      | |- context [if ?c then _ else _] => destruct c; simpl
      | |- context [match ?o with Some _ => _ | None => _ end] => destruct o; simpl
      end;
    try (intros [= <-]; eauto 6); try discriminate.
Qed.

(** C8, as amended.  [load_checkpoint] fails with [FileNotFoundError] when
    the target file is absent, and with [KeyError] when the bundle lacks a
    key that it reads: ["model"] always, then ["steps"], ["epochs"],
    ["optimizer"] and ["scheduler"], in this order, when [load_only_params]
    is false; with [load_only_params] true these four are not read and
    their absence is no error.  It never fails with a [CheckpointError]. *)
Theorem C8_load_errors (files : gmap string bundle) (path : string) (flag : bool)
    (t : Trainer) :
  (files !! path = None ->
   load_checkpoint files path flag t = ([], t, Raise FileNotFoundError))
  /\ (forall b, files !! path = Some b -> b_model b = None -> wrapped_ok t ->
      load_checkpoint files path flag t = ([], t, Raise (KeyError "model")))
  /\ (forall b w, files !! path = Some b ->
      b_model b = Some {| sd_prefixed := false; sd_tensors := w |} ->
      wrapper_matches_config t -> compatible (weights (inner (model t))) w = true ->
      snd (load_checkpoint files path true t) = Ok tt
      /\ snd (load_checkpoint files path false t)
         = match b_steps b, b_epochs b, b_optimizer b, b_scheduler b with
           | None, _, _, _ => Raise (KeyError "steps")
           | Some _, None, _, _ => Raise (KeyError "epochs")
           | Some _, Some _, None, _ => Raise (KeyError "optimizer")
           | Some _, Some _, Some _, None => Raise (KeyError "scheduler")
           | Some _, Some _, Some _, Some _ => Ok tt
           end)
  /\ ~ fails_with_CheckpointError (snd (load_checkpoint files path flag t)).
Proof.
  splits.
  - intros H. unfold load_checkpoint. unfold_m. rewrite H. reflexivity.
  - intros b Hb Hm Hw. unfold load_checkpoint, wrapped_ok in *. unfold_m.
    rewrite Hb. simpl. rewrite Hm.
    destruct (distributed (config t)); [|reflexivity].
    specialize (Hw eq_refl). destruct (model t); [discriminate | reflexivity].
  - intros b w Hb Hm Hw Hc. split.
    + rewrite (load_params_only files path b w t Hb Hm Hw Hc). reflexivity.
    + unfold wrapper_matches_config, load_checkpoint in *. unfold_m.
      rewrite Hb. simpl. rewrite Hm.
      destruct (model t) as [x|x], (distributed (config t)); try discriminate;
        simpl in *; unfold module_load_state_dict; simpl; rewrite Hc; simpl;
        destruct (b_steps b), (b_epochs b), (b_optimizer b), (b_scheduler b);
        reflexivity.
  - intros (e & He & Hn). apply load_checkpoint_errors in He.
    destruct He as [-> | [-> | [-> | [k ->]]]]; discriminate.
Qed.

(** C9, as amended.  When the parameters of the checkpoint do not fit the
    model built from the configuration, [save_model] fails with the
    [RuntimeError] of [load_state_dict], not with a [CheckpointError], and
    does so before anything is written. *)
Theorem C9_export_mismatch (configs : gmap string yaml_config)
    (files : gmap string bundle) (config_path checkpoint_path : string)
    (cfg : yaml_config) (b : bundle) (sd : state_dict_t) :
  configs !! config_path = Some cfg ->
  files !! checkpoint_path = Some b ->
  b_model b = Some sd ->
  compatible (MoodRecog (yaml_model cfg)) (sd_tensors sd) = false ->
  save_model configs files config_path checkpoint_path = ([], Raise RuntimeError)
  /\ ~ fails_with_CheckpointError (snd (save_model configs files config_path checkpoint_path)).
Proof.
  intros Hc Hf Hm Hcompat.
  assert (E : save_model configs files config_path checkpoint_path
              = ([], Raise RuntimeError)).
  { unfold save_model, module_load_state_dict. rewrite Hc, Hf, Hm.
    destruct (String.eqb (trainer_checkpoint_path cfg) "checkpoints");
      cbn [yaml_model weights]; rewrite Hcompat, andb_false_r; reflexivity. }
  split; [exact E|]. rewrite E. intros (e & [= <-] & Hn). discriminate.
Qed.

(** *** The evaluation pass *)

(** What the pass does for a trainer whose [criterion] can be called, which
    is not one that [__init__] builds on the registry of [main]: over
    [n >= 1] batches, from empty accumulators, it returns; the sums of the
    losses and of the scores, both kept in [total_eval_loss], are each
    divided by [n], logged and sent to the metrics sink, the loss first and
    the score second; the accumulators are empty afterwards and the model
    is back in training mode. *)
Lemma eval_flush_with_callable_criterion (score : tensor -> tensor -> scalar) (b : batch)
    (bs : list batch) (t : Trainer) :
  crit_call (criterion t) = Some score ->
  total_eval_loss t = [] -> total_eval_score t = [] ->
  dl_eval (data_loader t) = b :: bs ->
  let n := Z.of_nat (length (b :: bs)) in
  let loss := fdiv (fsum (map (eval_loss t) (b :: bs))) n in
  let sc := fdiv (fsum (map (eval_score t score) (b :: bs))) n in
  exists t',
    _eval_epoch t
    = ([LoggerInfo (MsgStartEval (steps t)); ModelEval;
        LoggerInfo (MsgFinishedEval (steps t));
        LoggerInfo (MsgEvalLoss (steps t) "eval/onset_loss" loss);
        LoggerInfo (MsgEvalLoss (steps t) "eval/score" sc);
        AddScalar "eval/onset_loss" loss (steps t);
        AddScalar "eval/score" sc (steps t);
        ModelTrain], t', Ok tt)
    /\ total_eval_loss t' = [] /\ total_eval_score t' = []
    /\ training (inner (model t')) = true.
Proof.
  intros Hc Hl Hs Hbs n loss sc.
  destruct (eval_epoch_callable score b bs t Hc Hl Hs Hbs) as (t' & E & Ha).
  exists t'. split; [exact E|]. unfold after_eval in Ha. tauto.
Qed.

Lemma eval_step_keeps_score (b : batch) (t : Trainer) :
  total_eval_score (snd (fst (_eval_step b t))) = total_eval_score t.
Proof.
  unfold _eval_step. unfold_m. simpl.
  destruct (crit_call (criterion t)); reflexivity.
Qed.

(** C5, on the trainer as [__init__] builds it on the registry of [main].
    An evaluation pass over one batch or more never reaches its end: the
    first step raises [TypeError] at the call of [criterion], after the
    start message and [model.eval()].  Nothing is divided, logged, sent to
    the metrics sink or reset: the loss accumulator is left holding the
    undivided loss of the first batch and a score of [0.0], and the model
    stays in inference mode.  Besides, no evaluation step, however it ends,
    writes the score accumulator: line 154 keeps the score in
    [total_eval_loss]. *)
Theorem C5_eval_pass_on_registry (steps0 epochs0 : Z) (tr : list batch) (b : batch)
    (bs : list batch) (sm : Samplers) (m : model_obj) (opt : opt_state)
    (sch : sched_state) (cfg : Config) :
  match __init__ steps0 epochs0 {| dl_train := tr; dl_eval := b :: bs |} sm m
          main_criterion opt sch cfg with
  | Ok t =>
      exists t',
        _eval_epoch t
        = ([LoggerInfo (MsgStartEval steps0); ModelEval], t', Raise TypeError)
        /\ total_eval_loss t'
           = [("eval/onset_loss", fadd fzero (eval_loss t b)); ("eval/score", fzero)]
        /\ total_eval_score t' = []
        /\ training (inner (model t')) = false
  | Raise e =>
      e = KeyError (loss_fn_key cfg)
      /\ loss_fn_key cfg <> "MSE" /\ loss_fn_key cfg <> "BCE"
  end
  /\ (forall (t : Trainer) (b0 : batch),
         total_eval_score (snd (fst (_eval_step b0 t))) = total_eval_score t).
Proof.
  split; [|intros t b0; apply eval_step_keeps_score].
  unfold __init__. cbn [main_criterion crit_getitem].
  assert (Hpass : forall f,
    exists t',
      _eval_epoch
        {| steps := steps0; epochs := epochs0;
           data_loader := {| dl_train := tr; dl_eval := b :: bs |}; sampler := sm;
           model := m; criterion := main_criterion; loss_fn := f; optimizer := opt;
           scheduler := sch; config := cfg; total_train_loss := [];
           total_eval_loss := []; total_eval_score := []; finish_train := false |}
      = ([LoggerInfo (MsgStartEval steps0); ModelEval], t', Raise TypeError)
      /\ total_eval_loss t'
         = [("eval/onset_loss",
             fadd fzero (f (forward false (weights (inner m)) (mel b)) (label b)));
            ("eval/score", fzero)]
      /\ total_eval_score t' = []
      /\ training (inner (model t')) = false).
  { intros f. unfold _eval_epoch, _eval_step. unfold_m. simpl.
    eexists. split; [reflexivity|]. unfold model_call. simpl.
    destruct m; repeat split. }
  destruct (String.eqb (loss_fn_key cfg) "MSE") eqn:E1;
    [|destruct (String.eqb (loss_fn_key cfg) "BCE") eqn:E2].
  - exact (Hpass MSELoss).
  - exact (Hpass BCELoss).
  - apply String.eqb_neq in E1, E2. auto.
Qed.

(** C6, on the trainer as [main] builds it.  With the registry of [main]
    as [criterion], the constructor raises [KeyError] for every configured
    loss other than ["MSE"] and ["BCE"], so for ["BCEWithLogits"]; and in a
    trainer that it did construct, every evaluation step raises [TypeError]
    at the call of [criterion]: no score is computed. *)
Theorem C6_eval_step_with_main_registry (steps0 epochs0 : Z) (dl : DataLoaders)
    (sm : Samplers) (m : model_obj) (opt : opt_state) (sch : sched_state)
    (cfg : Config) (b : batch) :
  match __init__ steps0 epochs0 dl sm m main_criterion opt sch cfg with
  | Ok t =>
      (loss_fn_key cfg = "MSE" \/ loss_fn_key cfg = "BCE")
      /\ snd (_eval_step b t) = Raise TypeError
      /\ fst (fst (_eval_step b t)) = []
      /\ total_eval_score (snd (fst (_eval_step b t))) = []
  | Raise e =>
      e = KeyError (loss_fn_key cfg)
      /\ loss_fn_key cfg <> "MSE" /\ loss_fn_key cfg <> "BCE"
  end
  /\ (String.eqb (loss_fn_key cfg) "BCEWithLogits" = true ->
      __init__ steps0 epochs0 dl sm m main_criterion opt sch cfg
      = Raise (KeyError "BCEWithLogits")).
Proof.
  unfold __init__. cbn [main_criterion crit_getitem]. split.
  - destruct (String.eqb (loss_fn_key cfg) "MSE") eqn:E1;
      [|destruct (String.eqb (loss_fn_key cfg) "BCE") eqn:E2].
    + apply String.eqb_eq in E1. splits; auto;
        rewrite eval_step_not_callable by reflexivity; reflexivity.
    + apply String.eqb_eq in E2. splits; auto;
        rewrite eval_step_not_callable by reflexivity; reflexivity.
    + apply String.eqb_neq in E1, E2. auto.
  - intros H. apply String.eqb_eq in H. rewrite H. reflexivity.
Qed.

(** C10.  An evaluation pass over no batch returns, without a division by
    zero: the divisor is 1, so each entry that the accumulators hold is
    logged and sent unchanged (none, for the empty accumulators that
    [__init__] and every completed pass leave); the accumulators are empty
    afterwards and the model is back in training mode. *)
Theorem C10_eval_no_batches (t : Trainer) :
  dl_eval (data_loader t) = [] ->
  (forall x : scalar, fdiv x 1 = x) ->
  exists t',
    _eval_epoch t
    = (eval_events (steps t) (total_eval_loss t) (total_eval_score t), t', Ok tt)
    /\ total_eval_loss t' = [] /\ total_eval_score t' = []
    /\ training (inner (model t')) = true
    /\ (total_eval_loss t = [] -> total_eval_score t = [] ->
        _eval_epoch t
        = ([LoggerInfo (MsgStartEval (steps t)); ModelEval;
            LoggerInfo (MsgFinishedEval (steps t)); ModelTrain], t', Ok tt)).
Proof.
  intros Hbs Hdiv. destruct (eval_epoch_empty t Hbs) as (t' & E & Ha).
  assert (Hid : forall d : pydict, map (fun kv => (fst kv, fdiv (snd kv) 1)) d = d).
  { induction d as [|[k v] d IH]; simpl; [reflexivity|]. rewrite Hdiv, IH. reflexivity. }
  rewrite !Hid in E. exists t'. unfold after_eval in Ha.
  splits; try tauto. intros Hl Hs. rewrite E, Hl, Hs. reflexivity.
Qed.

(** *** Frames *)

Lemma keeps_bind {A B X : Type} (f : Trainer -> X) (m : M A) (k : A -> M B) :
  keeps f m -> (forall a, keeps f (k a)) -> keeps f (m ≫= k).
Proof.
  intros Hm Hk t. rewrite bind_run. specialize (Hm t).
  destruct (m t) as [[ev t1] [a|e]]; [|exact Hm].
  specialize (Hk a t1). destruct (k a t1) as [[ev2 t2] r]. simpl in *. congruence.
Qed.

Lemma keeps_ret {A X : Type} (f : Trainer -> X) (a : A) : keeps f (mret a).
Proof. intros t. reflexivity. Qed.

Lemma keeps_get {X : Type} (f : Trainer -> X) : keeps f get.
Proof. intros t. reflexivity. Qed.

Lemma keeps_raise {A X : Type} (f : Trainer -> X) (e : exn) : keeps f (@raise _ A e).
Proof. intros t. reflexivity. Qed.

Lemma keeps_lift {A X : Type} (f : Trainer -> X) (r : outcome A) : keeps f (lift r).
Proof. intros t. reflexivity. Qed.

Lemma keeps_emits {X : Type} (f : Trainer -> X) (es : list event) : keeps f (emits es).
Proof. intros t. reflexivity. Qed.

Lemma keeps_modify {X : Type} (f : Trainer -> X) (g : Trainer -> Trainer) :
  (forall t, f (g t) = f t) -> keeps f (modify g).
Proof. intros H t. apply H. Qed.

Lemma keeps_py_mod {X : Type} (f : Trainer -> X) (a b : Z) : keeps f (py_mod a b).
Proof. unfold py_mod. destruct (b =? 0); [apply keeps_raise | apply keeps_ret]. Qed.

Lemma keeps_average {X : Type} (f : Trainer -> X)
    (msg : Trainer -> string -> scalar -> log_msg)
    (n : Trainer -> Z) (d : Trainer -> pydict) (set : pydict -> Trainer -> Trainer) :
  (forall v t, f (set v t) = f t) ->
  keeps f (fun t => match average_loop (msg t) (n t) (d t) with
                    | (ev, d', r) => (ev, set d' t, r)
                    end).
Proof.
  intros Hset t. destruct (average_loop (msg t) (n t) (d t)) as [[ev d'] r]. apply Hset.
Qed.

Ltac keeps_tac :=
  repeat first
    [ apply keeps_ret | apply keeps_get | apply keeps_raise | apply keeps_lift
    | apply keeps_py_mod | apply keeps_emits
    | apply keeps_modify; intros; reflexivity
    | apply keeps_average; intros; reflexivity
    | apply keeps_bind; [| intros ?]
    | match goal with
      | |- keeps _ (if ?b then _ else _) => destruct b
      | |- keeps _ (match ?x with _ => _ end) => destruct x
      end ].

Lemma keeps_eval_loop {X : Type} (f : Trainer -> X) (bs : list batch) (i n : Z) :
  (forall v t, f (set_total_eval_loss v t) = f t) -> keeps f (eval_loop bs i n).
Proof.
  intros Hf. revert i n. induction bs as [|b bs IH]; intros i n; simpl; [apply keeps_ret|].
  apply keeps_bind; [|intros _; apply IH].
  unfold _eval_step.
  repeat first
    [ apply keeps_get | apply keeps_raise
    | apply keeps_modify; intros; apply Hf
    | apply keeps_bind; [| intros ?]
    | match goal with |- keeps _ (match ?x with _ => _ end) => destruct x end ].
Qed.

(** The epoch counter only moves at the epoch boundary. *)
Lemma keeps_epochs_iteration (b : batch) : keeps epochs (train_iteration b).
Proof.
  unfold train_iteration, _train_step, _check_train_finish, _check_log_interval,
    _check_save_interval, save_checkpoint, _check_eval_interval, _eval_epoch,
    _write_to_tensorboard.
  repeat first
    [ apply keeps_eval_loop; intros; reflexivity
    | apply keeps_ret | apply keeps_get | apply keeps_raise | apply keeps_lift
    | apply keeps_py_mod | apply keeps_emits
    | apply keeps_modify; intros; reflexivity
    | apply keeps_average; intros; reflexivity
    | apply keeps_bind; [| intros ?]
    | match goal with
      | |- keeps _ (if ?b then _ else _) => destruct b
      | |- keeps _ (match ?x with _ => _ end) => destruct x
      end ].
Qed.

(** *** Edges of the training loop *)

Lemma check_log_zero (t : Trainer) :
  log_interval_steps (config t) = 0 ->
  _check_log_interval t = ([], t, Raise ZeroDivisionError).
Proof.
  intros H. unfold _check_log_interval, py_mod. unfold_m. simpl. rewrite H. reflexivity.
Qed.

(** A zero [log_interval_steps]: the first iteration processes its batch,
    increments the counter, and the log check then raises
    [ZeroDivisionError]; no log, save or eval action runs, the run ends. *)
Theorem zero_log_interval_raises (fuel : nat) (b : batch) (bs : list batch) (t : Trainer) :
  log_interval_steps (config t) = 0 ->
  dl_train (data_loader t) = b :: bs ->
  exists t',
    run (S fuel) t
    = ([TqdmOpen (steps t) (train_max_steps (config t)); ZeroGrad; OptimizerStep;
        StepCounter (steps t + 1); TqdmUpdate], t', Some (Raise ZeroDivisionError))
    /\ steps t' = steps t + 1 /\ epochs t' = epochs t
    /\ total_train_loss t'
       = dict_iadd (total_train_loss t) "train/onset_loss"
           (loss_fn t (model_call (model t) (mel b)) (label b)).
Proof.
  intros Hz Hbs.
  destruct (train_step_run b t) as (t1 & E1 & Hs & Hc & _ & Hd & _ & _ & He & _).
  assert (E : _train_epoch t
              = ([ZeroGrad; OptimizerStep; StepCounter (steps t + 1); TqdmUpdate], t1,
                 Raise ZeroDivisionError)).
  { unfold _train_epoch. rewrite bind_run. unfold get. rewrite Hbs, bind_run.
    cbn [train_loop]. rewrite bind_run. unfold train_iteration.
    rewrite bind_run, E1, bind_run, check_log_zero by (rewrite Hc; exact Hz).
    reflexivity. }
  exists t1. unfold run. cbn [run_loop]. rewrite E. auto.
Qed.

Lemma epoch_boundary_ok (t : Trainer) :
  sampler_ok t ->
  exists ev t',
    epoch_boundary t = (ev, t', Ok tt)
    /\ epochs t' = epochs t + 1 /\ steps t' = steps t
    /\ finish_train t' = finish_train t /\ same_setup t t'
    /\ processed ev = 0%nat.
Proof.
  unfold sampler_ok, epoch_boundary. unfold_m. simpl. intros H.
  destruct (distributed (config t)); [destruct (sampler_train (sampler t))|].
  - eexists _, _. split; [reflexivity|]. unfold same_setup. simpl. repeat split.
  - exfalso. apply H; reflexivity.
  - eexists _, _. split; [reflexivity|]. unfold same_setup. simpl. repeat split.
Qed.

Lemma sampler_ok_same (t t' : Trainer) : same_setup t t' -> sampler_ok t -> sampler_ok t'.
Proof.
  unfold same_setup, sampler_ok. intros (Hc & _ & Hs & _) H. rewrite Hc, Hs. exact H.
Qed.

Lemma run_loop_empty_loader (fuel : nat) (t : Trainer) :
  dl_train (data_loader t) = [] -> finish_train t = false -> sampler_ok t ->
  exists ev t',
    run_loop fuel t = (ev, t', None)
    /\ steps t' = steps t /\ epochs t' = epochs t + Z.of_nat fuel
    /\ processed ev = 0%nat.
Proof.
  revert t. induction fuel as [|fuel IH]; intros t Hbs Hf Hsm.
  - exists [], t. simpl. splits; auto. lia.
  - cbn [run_loop].
    destruct (epoch_boundary_ok t Hsm) as (ev1 & t1 & E1 & He1 & Hs1 & Hf1 & Hsame & Hp1).
    assert (E : _train_epoch t = (ev1, t1, Ok tt)).
    { unfold _train_epoch. rewrite bind_run. unfold get. rewrite Hbs, bind_run.
      cbn [train_loop]. unfold_m. rewrite E1. reflexivity. }
    rewrite E, Hf1, Hf.
    destruct (IH t1) as (ev2 & t2 & E2 & Hs2 & He2 & Hp2).
    + destruct Hsame as (_ & Hd & _). rewrite Hd. exact Hbs.
    + congruence.
    + exact (sampler_ok_same _ _ Hsame Hsm).
    + rewrite E2. exists (ev1 ++ ev2), t2. rewrite processed_app.
      splits; auto; lia.
Qed.

(** An empty training loader: the loop never finishes.  Every pass only
    moves the epoch counter, so after any number [fuel] of passes the run is
    still going, with the step counter where it was. *)
Theorem empty_train_loader_never_finishes (fuel : nat) (t : Trainer) :
  dl_train (data_loader t) = [] -> finish_train t = false -> sampler_ok t ->
  exists ev t',
    run fuel t = (ev, t', None)
    /\ steps t' = steps t /\ epochs t' = epochs t + Z.of_nat fuel
    /\ processed ev = 0%nat /\ finish_train t' = false.
Proof.
  intros Hbs Hf Hsm.
  destruct (run_loop_empty_loader fuel t Hbs Hf Hsm) as (ev & t' & E & Hs & He & Hp).
  pose proof (run_observed fuel t) as (ev0 & t0 & r0 & E0 & ev' & E' & Hp' & _).
  rewrite E in E0. inversion E0; subst ev0 t0 r0.
  exists ev', t'. splits; auto; try congruence.
  assert (Hq : forall n u, dl_train (data_loader u) = [] -> finish_train u = false ->
               sampler_ok u -> finish_train (snd (fst (run_loop n u))) = false).
  { induction n as [|n IHn]; intros u Hb Hfu Hsu; [exact Hfu|].
    cbn [run_loop].
    destruct (epoch_boundary_ok u Hsu) as (e1 & u1 & E1 & _ & _ & Hf1 & Hsame & _).
    assert (Eu : _train_epoch u = (e1, u1, Ok tt)).
    { unfold _train_epoch. rewrite bind_run. unfold get. rewrite Hb, bind_run.
      cbn [train_loop]. unfold_m. rewrite E1. reflexivity. }
    rewrite Eu, Hf1, Hfu.
    specialize (IHn u1). destruct (run_loop n u1) as [[e2 u2] r2]. simpl in *.
    apply IHn; [| congruence | exact (sampler_ok_same _ _ Hsame Hsu)].
    destruct Hsame as (_ & Hd & _). rewrite Hd. exact Hb. }
  specialize (Hq fuel t Hbs Hf Hsm). rewrite E in Hq. exact Hq.
Qed.

(** A run entered with the counter already at or above [train_max_steps]
    (and not yet finished) still processes exactly one batch; the finish
    flag is then set and the loop is left in the middle of the epoch. *)
Theorem run_at_max_processes_one_batch (fuel : nat) (b : batch) (bs : list batch)
    (t : Trainer) :
  finish_train t = false -> train_max_steps (config t) <= steps t ->
  dl_train (data_loader t) = b :: bs ->
  match run (S fuel) t with
  | (ev, t', r) =>
      steps t' = steps t + 1 /\ processed ev = 1%nat
      /\ finish_train t' = true /\ epochs t' = epochs t
      /\ r <> None
      /\ (fresh_accumulators t -> intervals_nonzero (config t) -> wired t ->
          r = Some (Ok tt))
  end.
Proof.
  intros Hf Hmax Hbs.
  pose proof (train_iteration_bookkeeping b t) as Hbk.
  pose proof (keeps_epochs_iteration b t) as Hep.
  assert (Hit : fresh_accumulators t -> intervals_nonzero (config t) -> wired t ->
                snd (train_iteration b t) = Ok tt).
  { intros Hfr Hnz Hwd.
    destruct (iteration_spec b t (fresh_Inv t Hfr) Hnz (proj1 Hwd))
      as (ev1 & t1 & r1 & E1 & _ & _ & _ & _ & Hr).
    rewrite E1. exact (Hr Hwd). }
  destruct (train_iteration b t) as [[ev1 t1] r1] eqn:E1. simpl in Hep, Hit.
  destruct Hbk as (Hs1 & _ & Hf1). rewrite Hf in Hf1. simpl in Hf1.
  assert (Hfin : finish_train t1 = true) by (rewrite Hf1; apply Z.leb_le; lia).
  assert (E : exists ev r,
             _train_epoch t = (ev, t1, r)
             /\ (r = Ok tt \/ exists e, r = Raise e) /\ (r1 = Ok tt -> r = Ok tt)).
  { unfold _train_epoch. rewrite bind_run. unfold get. rewrite Hbs, bind_run.
    cbn [train_loop]. rewrite bind_run, E1. destruct r1 as [[]|e].
    - rewrite bind_run. unfold get. rewrite Hfin. unfold_m. eauto 8.
    - eexists _, _. split; [reflexivity|]. eauto. }
  destruct E as (ev & r & E & Hr & Hok).
  pose proof (run_summary (S fuel) t) as Hsum.
  unfold run in *. cbn [run_loop] in *. rewrite E in *.
  destruct Hr as [-> | [e ->]].
  - rewrite Hfin in *. destruct Hsum as (Hst & _).
    splits; auto; try lia; try discriminate.
  - destruct Hsum as (Hst & _). splits; auto; try lia; try discriminate.
    intros Hfr Hnz Hwd. specialize (Hit Hfr Hnz Hwd). specialize (Hok Hit). discriminate.
Qed.

(** *** The epoch counter *)

Lemma train_loop_pass (bs : list batch) (t : Trainer) :
  Inv t -> intervals_nonzero (config t) -> wired t ->
  finish_train t = false -> steps t < train_max_steps (config t) ->
  exists ev t' r,
    train_loop bs t = (ev, t', r)
    /\ epochs t' = epochs t /\ same_setup t t'
    /\ (steps t + Z.of_nat (length bs) < train_max_steps (config t) ->
        r = Ok false /\ steps t' = steps t + Z.of_nat (length bs)
        /\ finish_train t' = false /\ Inv t')
    /\ (train_max_steps (config t) <= steps t + Z.of_nat (length bs) ->
        r = Ok true /\ steps t' = train_max_steps (config t)
        /\ finish_train t' = true).
Proof.
  revert t. induction bs as [|b bs IH]; intros t HInv Hnz Hwd Hf Hlt.
  - exists [], t, (Ok false). cbn [train_loop length]. splits; auto using same_setup_refl.
    + intros _. splits; auto. lia.
    + intros H. simpl in H. lia.
  - cbn [train_loop]. rewrite bind_run.
    pose proof (train_iteration_bookkeeping b t) as Hbk.
    pose proof (keeps_epochs_iteration b t) as Hep.
    destruct (iteration_spec b t HInv Hnz (proj1 Hwd))
      as (ev1 & t1 & r1 & E1 & _ & _ & Hsame1 & HInv1 & Hr1).
    rewrite E1 in *. simpl in Hep. rewrite (Hr1 Hwd) in *.
    destruct Hbk as (Hs1 & Hc1 & Hf1). rewrite Hf in Hf1. simpl in Hf1.
    rewrite bind_run. unfold get.
    destruct (finish_train t1) eqn:Hfin.
    + symmetry in Hf1. apply Z.leb_le in Hf1.
      exists (ev1 ++ [] ++ []), t1, (Ok true). unfold_m.
      splits; auto.
      * intros H. cbn [length] in H. lia.
      * intros _. splits; auto. lia.
    + symmetry in Hf1. apply Z.leb_gt in Hf1.
      destruct (IH t1) as (ev2 & t2 & r2 & E2 & Hep2 & Hsame2 & Hfull & Hlast);
        [ auto | rewrite Hc1; exact Hnz | exact (wired_same _ _ Hsame1 Hwd)
        | exact Hfin | rewrite Hc1; lia | ].
      rewrite E2. exists (ev1 ++ [] ++ ev2), t2, r2.
      rewrite Hc1 in Hfull, Hlast. cbn [length]. rewrite Nat2Z.inj_succ.
      splits; auto.
      * congruence.
      * eapply same_setup_trans; eassumption.
      * intros H. destruct Hfull as (? & ? & ? & ?); [lia|]. splits; auto. lia.
      * intros H. apply Hlast. lia.
Qed.

Lemma train_epoch_pass (t : Trainer) :
  Inv t -> intervals_nonzero (config t) -> wired t ->
  finish_train t = false -> steps t < train_max_steps (config t) ->
  exists ev t',
    _train_epoch t = (ev, t', Ok tt)
    /\ same_setup t t' /\ Inv t'
    /\ (steps t + Z.of_nat (length (dl_train (data_loader t))) < train_max_steps (config t) ->
        steps t' = steps t + Z.of_nat (length (dl_train (data_loader t)))
        /\ epochs t' = epochs t + 1 /\ finish_train t' = false)
    /\ (train_max_steps (config t) <= steps t + Z.of_nat (length (dl_train (data_loader t))) ->
        steps t' = train_max_steps (config t) /\ epochs t' = epochs t
        /\ finish_train t' = true).
Proof.
  intros HInv Hnz Hwd Hf Hlt.
  destruct (train_epoch_actions t HInv Hnz (proj1 Hwd))
    as (ev0 & t0 & r0 & E0 & _ & Hsame0 & HInv0 & Hr0).
  rewrite (Hr0 Hwd) in *. exists ev0, t0. split; [exact E0|].
  split; [exact Hsame0|]. split; [auto|].
  revert E0. unfold _train_epoch. rewrite bind_run. unfold get. rewrite bind_run.
  destruct (train_loop_pass (dl_train (data_loader t)) t HInv Hnz Hwd Hf Hlt)
    as (ev1 & t1 & r1 & E1 & Hep1 & Hsame1 & Hfull & Hlast).
  rewrite E1.
  destruct (Z.lt_ge_cases (steps t + Z.of_nat (length (dl_train (data_loader t))))
              (train_max_steps (config t))) as [Hcase | Hcase].
  - destruct (Hfull Hcase) as (-> & Hs & Hfin & _).
    pose proof (quiet_epoch_boundary t1) as Hq.
    destruct (epoch_boundary_spec t1) as (ev2 & t2 & r2 & E2 & _ & _ & _ & _ & _ & _ & He2 & _).
    rewrite E2 in *. destruct Hq as ((Hs2 & Hf2 & _) & _).
    intros E0. inversion E0; subst. split; [|intros; lia].
    intros _. splits; congruence.
  - destruct (Hlast Hcase) as (-> & Hs & Hfin). unfold_m.
    intros E0. inversion E0; subst. split; [intros; lia|].
    intros _. splits; congruence.
Qed.

Lemma run_loop_epochs (fuel : nat) (t : Trainer) :
  Inv t -> intervals_nonzero (config t) -> wired t ->
  finish_train t = false -> steps t < train_max_steps (config t) ->
  dl_train (data_loader t) <> [] ->
  match run_loop fuel t with
  | (_, t', r) =>
      r = Some (Ok tt) ->
      epochs t'
      = epochs t + (train_max_steps (config t) - steps t - 1)
                   / Z.of_nat (length (dl_train (data_loader t)))
  end.
Proof.
  revert t. induction fuel as [|fuel IH]; intros t HInv Hnz Hwd Hf Hlt Hne;
    [simpl; discriminate|].
  cbn [run_loop].
  destruct (train_epoch_pass t HInv Hnz Hwd Hf Hlt)
    as (ev1 & t1 & E1 & Hsame1 & HInv1 & Hfull & Hlast).
  rewrite E1.
  assert (HL : 0 < Z.of_nat (length (dl_train (data_loader t)))).
  { destruct (dl_train (data_loader t)); [congruence | cbn [length]; lia]. }
  set (L := Z.of_nat (length (dl_train (data_loader t)))) in *.
  destruct (Z.lt_ge_cases (steps t + L) (train_max_steps (config t))) as [Hcase | Hcase].
  - destruct (Hfull Hcase) as (Hs & He & Hfin). rewrite Hfin.
    assert (Hc1 : config t1 = config t) by apply Hsame1.
    assert (Hd1 : data_loader t1 = data_loader t) by apply Hsame1.
    specialize (IH t1 HInv1). rewrite Hc1, Hd1 in IH.
    specialize (IH Hnz (wired_same _ _ Hsame1 Hwd) Hfin ltac:(lia) Hne).
    destruct (run_loop fuel t1) as [[ev2 t2] r2]. intros Hr. rewrite (IH Hr), He, Hs.
    fold L.
    replace (train_max_steps (config t) - steps t - 1)
      with ((train_max_steps (config t) - (steps t + L) - 1) + 1 * L) by lia.
    rewrite Z.div_add by lia. lia.
  - destruct (Hlast Hcase) as (Hs & He & Hfin). rewrite Hfin. intros _.
    rewrite Z.div_small by lia. lia.
Qed.

Lemma run_epoch_counter (fuel : nat) (t : Trainer) :
  fresh_accumulators t -> intervals_nonzero (config t) -> wired t ->
  finish_train t = false -> steps t < train_max_steps (config t) ->
  dl_train (data_loader t) <> [] ->
  (Z.to_nat (train_max_steps (config t) - steps t) <= fuel)%nat ->
  exists ev t',
    run fuel t = (ev, t', Some (Ok tt))
    /\ steps t' = train_max_steps (config t)
    /\ epochs t'
       = epochs t + (train_max_steps (config t) - steps t - 1)
                    / Z.of_nat (length (dl_train (data_loader t))).
Proof.
  intros Hfr Hnz Hwd Hf Hlt Hne Hfuel.
  destruct (run_terminates fuel t Hfr Hnz Hwd Hne Hf Hlt Hfuel) as (ev & t' & E).
  exists ev, t'. split; [exact E|].
  pose proof (run_bounds fuel t Hf Hlt) as Hb. rewrite E in Hb.
  destruct Hb as (_ & Hb). destruct (Hb eq_refl) as (_ & Hs). split; [exact Hs|].
  pose proof (run_loop_epochs fuel t (fresh_Inv t Hfr) Hnz Hwd Hf Hlt Hne) as H.
  destruct (run_observed fuel t) as (ev0 & t0 & r0 & E0 & ev' & E' & _).
  rewrite E in E'. inversion E'; subst ev' t0 r0. rewrite E0 in H. auto.
Qed.

(** The epoch counter of a run that returns: with [L >= 1] batches per pass,
    a run from step [s] to [train_max_steps = N] ends with
    [epochs + (N - s - 1) / L].  The pass in which the maximum is reached is
    left by [return] before it is counted, also when it was complete. *)
Theorem completed_run_epoch_counter (fuel : nat) (t : Trainer) :
  fresh_accumulators t -> intervals_nonzero (config t) -> wired t ->
  finish_train t = false -> steps t < train_max_steps (config t) ->
  dl_train (data_loader t) <> [] ->
  (Z.to_nat (train_max_steps (config t) - steps t) <= fuel)%nat ->
  exists ev t',
    run fuel t = (ev, t', Some (Ok tt))
    /\ steps t' = train_max_steps (config t)
    /\ epochs t'
       = epochs t + (train_max_steps (config t) - steps t - 1)
                    / Z.of_nat (length (dl_train (data_loader t))).
Proof. exact (run_epoch_counter fuel t). Qed.

(** *** More on checkpoints *)

Lemma load_frame (files : gmap string bundle) (path : string)
    (flag : bool) (t : Trainer) :
  match load_checkpoint files path flag t with
  | (ev, t', _) =>
      ev = []
      /\ total_train_loss t' = total_train_loss t
      /\ total_eval_loss t' = total_eval_loss t
      /\ total_eval_score t' = total_eval_score t
      /\ finish_train t' = finish_train t
      /\ training (inner (model t')) = training (inner (model t))
      /\ same_setup t t'
      /\ (flag = true ->
          steps t' = steps t /\ epochs t' = epochs t
          /\ optimizer t' = optimizer t /\ scheduler t' = scheduler t)
  end.
Proof.
  unfold load_checkpoint, model_load_state_dict, module_load_state_dict, same_setup.
  unfold_m. destruct (files !! path) as [b|]; simpl; [|repeat split].
  destruct (distributed (config t)), (model t) as [x|x] eqn:Hm, (b_model b) as [sd|];
    simpl; rewrite ?Hm; try (repeat split; fail);
    repeat match goal with
      | |- context [if ?c then _ else _] => destruct c; simpl
      | |- context [match ?o with Some _ => _ | None => _ end] => destruct o; simpl
      end;
    rewrite ?Hm; repeat split; try discriminate.
Qed.

(** Resuming: after [load_checkpoint] of a complete bundle saved at step
    [s < train_max_steps] into a freshly built trainer, [run] processes the
    steps [s + 1 .. train_max_steps] and no other, with the interval actions
    due at these steps, whatever the counters of the trainer were before the
    load. *)
Theorem resume_continues_schedule (files : gmap string bundle) (path : string)
    (w : params) (o : opt_state) (sc : sched_state) (s e : Z) (fuel : nat)
    (t : Trainer) :
  files !! path
  = Some {| b_optimizer := Some o; b_scheduler := Some sc; b_steps := Some s;
            b_epochs := Some e;
            b_model := Some {| sd_prefixed := false; sd_tensors := w |} |} ->
  wrapper_matches_config t ->
  compatible (weights (inner (model t))) w = true ->
  fresh_accumulators t -> finish_train t = false ->
  intervals_nonzero (config t) -> wired t ->
  dl_train (data_loader t) <> [] ->
  s < train_max_steps (config t) ->
  (Z.to_nat (train_max_steps (config t) - s) <= fuel)%nat ->
  exists t1 ev t',
    load_checkpoint files path false t = ([], t1, Ok tt)
    /\ run fuel t1 = (ev, t', Some (Ok tt))
    /\ step_counters ev = seqZ (s + 1) (train_max_steps (config t) - s)
    /\ actions ev
       = flat_map (interval_actions (config t)) (seqZ (s + 1) (train_max_steps (config t) - s))
    /\ steps t' = train_max_steps (config t)
    /\ epochs t'
       = e + (train_max_steps (config t) - s - 1)
             / Z.of_nat (length (dl_train (data_loader t))).
Proof.
  intros Hfile Hw Hc Hfr Hf Hnz Hwd Hne Hlt Hfuel.
  pose proof (load_frame files path false t) as Hframe.
  rewrite (load_all files path w o sc s e t Hfile Hw Hc) in *.
  set (t1 := set_scheduler sc (set_optimizer o (set_epochs e (set_steps s
               (set_model (set_weights w (model t)) t))))) in *.
  destruct Hframe as (_ & H1 & H2 & H3 & H4 & _ & Hsame & _).
  assert (Hc1 : config t1 = config t) by reflexivity.
  assert (Hd1 : data_loader t1 = data_loader t) by reflexivity.
  assert (Hs1 : steps t1 = s) by reflexivity.
  assert (He1 : epochs t1 = e) by reflexivity.
  assert (Hfr1 : fresh_accumulators t1).
  { destruct Hfr as (? & ? & ?). unfold fresh_accumulators. splits; congruence. }
  assert (Hwd1 : wired t1) by exact (wired_same _ _ Hsame Hwd).
  destruct (run_epoch_counter fuel t1) as (ev & t' & E & Hst & Hep);
    rewrite ?Hc1, ?Hd1, ?Hs1; auto; try congruence.
  exists t1, ev, t'. split; [reflexivity|]. split; [exact E|].
  pose proof (run_summary fuel t1) as Hsum. rewrite E in Hsum.
  destruct Hsum as (Hsteps & Hsc & Ha).
  rewrite Hc1 in *. rewrite Hs1, He1, Hd1 in *.
  assert (Hk : Z.of_nat (processed ev) = train_max_steps (config t) - s) by lia.
  rewrite Hk in Hsc. splits; auto.
  rewrite <- Hsc. apply Ha; auto. exact (proj1 Hwd1).
Qed.

(** [load_checkpoint] is not atomic: when the bundle has its parameters,
    ["steps"] and ["epochs"] but no ["optimizer"], the load raises
    [KeyError] after it has replaced the parameters and both counters; the
    optimizer and scheduler state are the old ones. *)
Theorem load_checkpoint_not_atomic (files : gmap string bundle) (path : string)
    (b : bundle) (w : params) (s e : Z) (t : Trainer) :
  files !! path = Some b ->
  b_model b = Some {| sd_prefixed := false; sd_tensors := w |} ->
  b_steps b = Some s -> b_epochs b = Some e -> b_optimizer b = None ->
  wrapper_matches_config t ->
  compatible (weights (inner (model t))) w = true ->
  exists t',
    load_checkpoint files path false t = ([], t', Raise (KeyError "optimizer"))
    /\ weights (inner (model t')) = w /\ steps t' = s /\ epochs t' = e
    /\ optimizer t' = optimizer t /\ scheduler t' = scheduler t.
Proof.
  unfold wrapper_matches_config, load_checkpoint. intros Hf Hm Hs He Ho Hw Hc.
  unfold_m. rewrite Hf. simpl. rewrite Hm.
  destruct (model t) as [x|x], (distributed (config t)); try discriminate; simpl in *;
    unfold module_load_state_dict; simpl; rewrite Hc; simpl; rewrite Hs, He, Ho; simpl;
    (eexists; split; [reflexivity|]); repeat split.
Qed.

(** A distributed configuration on a model that is not wrapped:
    [save_checkpoint] raises [AttributeError] before it creates the
    directory or writes anything, and [load_checkpoint] of an existing file
    raises it before it changes the trainer. *)
Theorem distributed_config_needs_wrapper (t : Trainer) :
  distributed (config t) = true -> is_ddp (model t) = false ->
  (forall path f_name,
      save_checkpoint path f_name t = ([], t, Raise AttributeError))
  /\ (forall (files : gmap string bundle) path flag b,
         files !! path = Some b ->
         load_checkpoint files path flag t = ([], t, Raise AttributeError)).
Proof.
  intros Hd Hm. destruct (model t) as [x|x] eqn:E; [|discriminate]. split.
  - intros path f_name. unfold save_checkpoint. unfold_m. simpl. rewrite Hd, E. reflexivity.
  - intros files path flag b Hb. unfold load_checkpoint. unfold_m. rewrite Hb. simpl.
    rewrite Hd, E. reflexivity.
Qed.

(** A distributed configuration without a training sampler: the
    epoch-boundary action increments and logs the epoch counter and then
    raises [AttributeError]. *)
Theorem distributed_config_needs_sampler (t : Trainer) :
  distributed (config t) = true -> sampler_train (sampler t) = None ->
  epoch_boundary t
  = ([LoggerInfo (MsgEpoch (epochs t + 1) (steps t))],
     set_epochs (epochs t + 1) t, Raise AttributeError).
Proof.
  intros Hd Hs. unfold epoch_boundary. unfold_m. simpl. rewrite Hd, Hs. reflexivity.
Qed.

(** A wrapped model under a configuration that is not distributed:
    [save_checkpoint] writes the state of the wrapper, whose keys carry the
    prefix; no trainer whose wrapper matches its configuration can load this
    file, with either value of [load_only_params]: [load_state_dict] raises
    [RuntimeError] and the trainer is unchanged; the trainer that wrote it
    can. *)
Theorem wrapper_checkpoint_is_not_portable (saver loader : Trainer)
    (files : gmap string bundle) (path f_name : string) (flag : bool) :
  distributed (config saver) = false -> is_ddp (model saver) = true ->
  wrapper_matches_config loader ->
  exists ev,
    save_checkpoint path f_name saver = (ev, saver, Ok tt)
    /\ load_checkpoint (write_files files ev) (path +:+ "/" +:+ f_name) flag loader
       = ([], loader, Raise RuntimeError)
    /\ (compatible (weights (inner (model saver))) (weights (inner (model saver))) = true ->
        snd (load_checkpoint (write_files files ev) (path +:+ "/" +:+ f_name) flag saver)
        = Ok tt).
Proof.
  intros Hd Hm Hl. destruct (model saver) as [x|x] eqn:E; [discriminate|].
  assert (Es : save_checkpoint path f_name saver
               = ([Mkdir path;
                   TorchSave (path +:+ "/" +:+ f_name)
                     {| b_optimizer := Some (optimizer saver);
                        b_scheduler := Some (scheduler saver);
                        b_steps := Some (steps saver); b_epochs := Some (epochs saver);
                        b_model := Some {| sd_prefixed := true;
                                           sd_tensors := weights x |} |}],
                  saver, Ok tt)).
  { unfold save_checkpoint. unfold_m. simpl. rewrite Hd, E. reflexivity. }
  eexists. split; [exact Es|]. cbn [write_files fold_left]. split.
  - unfold wrapper_matches_config, load_checkpoint in *. unfold_m.
    rewrite lookup_insert_eq. simpl.
    destruct (model loader) as [y|y], (distributed (config loader));
      try discriminate; reflexivity.
  - intros Hc. unfold load_checkpoint. unfold_m. rewrite lookup_insert_eq. simpl.
    rewrite Hd, E. simpl in *. rewrite Hc. simpl. destruct flag; reflexivity.
Qed.

(** An evaluation step that raises: [_eval_epoch] has no handler, so the
    error leaves the pass after its first two calls; the model stays in
    inference mode, nothing is averaged, written or reset, and the loss
    accumulator keeps the loss of the batch and a score of [0.0]. *)
Theorem eval_error_leaves_inference_mode (b : batch) (bs : list batch) (t : Trainer) :
  crit_call (criterion t) = None ->
  dl_eval (data_loader t) = b :: bs ->
  exists t',
    _eval_epoch t = ([LoggerInfo (MsgStartEval (steps t)); ModelEval], t', Raise TypeError)
    /\ training (inner (model t')) = false
    /\ total_eval_loss t'
       = dict_missing
           (dict_iadd (total_eval_loss t) "eval/onset_loss" (eval_loss t b)) "eval/score"
    /\ total_train_loss t' = total_train_loss t
    /\ steps t' = steps t.
Proof.
  intros Hc Hbs.
  destruct (eval_epoch_not_callable b bs t Hc Hbs) as (t' & E & Hm & Hd & _ & Hs & Htr).
  exists t'. auto.
Qed.

(** *** The export *)

Ltac table_tac :=
  repeat match goal with
    | |- _ <-> _ => split
    | |- _ -> _ => intro
    | H : exists _, _ |- _ => destruct H
    | H : _ /\ _ |- _ => destruct H
    | H : _ \/ _ |- _ => destruct H
    end;
  simplify_eq; cbn [sd_prefixed sd_tensors] in *; try congruence; eauto 10.

(** [save_model] on inputs that are well formed where they exist: a
    configuration file that parses and holds the keys read at lines 16-20,
    a checkpoint that [torch.load] reads as a dict, an exporter that can
    write its file.  Each outcome is decided by the input, in both
    directions: it
    returns exactly when both files exist, the bundle has parameters under
    ["model"] without the wrapper's prefix and they fit the model built from
    the configuration, and it then writes one artifact, which holds the
    parameters of the checkpoint; it raises [FileNotFoundError] exactly when
    one of the two files is absent, [KeyError] exactly when both exist and
    the bundle has no ["model"], and [RuntimeError] exactly when the
    parameters carry the prefix or do not fit.  On such inputs there is no
    other outcome, and whenever it raises it has written nothing. *)
Theorem save_model_outcomes (configs : gmap string yaml_config)
    (files : gmap string bundle) (config_path checkpoint_path : string) :
  let r := save_model configs files config_path checkpoint_path in
  (snd r = Ok tt <->
   exists cfg b w,
     configs !! config_path = Some cfg /\ files !! checkpoint_path = Some b
     /\ b_model b = Some {| sd_prefixed := false; sd_tensors := w |}
     /\ compatible (MoodRecog (yaml_model cfg)) w = true)
  /\ (forall cfg b w,
         configs !! config_path = Some cfg -> files !! checkpoint_path = Some b ->
         b_model b = Some {| sd_prefixed := false; sd_tensors := w |} ->
         compatible (MoodRecog (yaml_model cfg)) w = true ->
         r = ([PackageExport
                 (dirname checkpoint_path +:+ "/model-"
                    +:+ slice_from_to_end 11 4 (basename checkpoint_path) +:+ ".pt") w],
              Ok tt))
  /\ (snd r = Raise FileNotFoundError <->
      configs !! config_path = None \/ files !! checkpoint_path = None)
  /\ (snd r = Raise (KeyError "model") <->
      exists cfg b,
        configs !! config_path = Some cfg /\ files !! checkpoint_path = Some b
        /\ b_model b = None)
  /\ (snd r = Raise RuntimeError <->
      exists cfg b sd,
        configs !! config_path = Some cfg /\ files !! checkpoint_path = Some b
        /\ b_model b = Some sd
        /\ (sd_prefixed sd = true
            \/ compatible (MoodRecog (yaml_model cfg)) (sd_tensors sd) = false))
  /\ (snd r = Ok tt \/ snd r = Raise FileNotFoundError
      \/ snd r = Raise (KeyError "model") \/ snd r = Raise RuntimeError)
  /\ (snd r <> Ok tt -> fst r = []).
Proof.
  cbv zeta. unfold save_model, module_load_state_dict.
  destruct (configs !! config_path) as [cfg|];
    [|cbn [fst snd]; splits; table_tac].
  destruct (files !! checkpoint_path) as [b|];
    [|cbn [fst snd]; splits; table_tac].
  assert (Hy : yaml_model
                 (if String.eqb (trainer_checkpoint_path cfg) "checkpoints"
                  then {| version := version cfg;
                          trainer_checkpoint_path :=
                            trainer_checkpoint_path cfg +:+ "/checkpoint_" +:+ version cfg;
                          yaml_model := yaml_model cfg |}
                  else cfg) = yaml_model cfg)
    by (destruct (String.eqb (trainer_checkpoint_path cfg) "checkpoints"); reflexivity).
  cbn [weights sd_prefixed sd_tensors training]. rewrite Hy. clear Hy.
  destruct (b_model b) as [[pre w]|] eqn:Hm;
    [|cbn [fst snd]; splits; table_tac].
  cbn [sd_prefixed sd_tensors].
  destruct pre; cbn [negb andb];
    [cbn [fst snd]; splits; table_tac|].
  destruct (compatible (MoodRecog (yaml_model cfg)) w) eqn:Hc; cbn [fst snd];
    splits; table_tac.
Qed.

(** *** The save schedule *)

(** In every run of a trainer with fresh accumulators, the checkpoints
    written are those of the step counts reached that are multiples of
    [save_interval_steps], in order, each in the file named after its step;
    a run that returns from a start below [train_max_steps] wrote exactly
    those of the multiples in [steps + 1 .. train_max_steps]. *)
Theorem save_schedule (fuel : nat) (t : Trainer) :
  fresh_accumulators t -> intervals_nonzero (config t) -> wrapped_ok t ->
  match run fuel t with
  | (ev, _, r) =>
      saves ev
      = map (fun s => (checkpoint_file (config t) s, s))
          (List.filter (fun s => s mod save_interval_steps (config t) =? 0)
             (step_counters ev))
      /\ (finish_train t = false -> steps t < train_max_steps (config t) ->
          r = Some (Ok tt) ->
          saves ev
          = map (fun s => (checkpoint_file (config t) s, s))
              (List.filter (fun s => s mod save_interval_steps (config t) =? 0)
                 (seqZ (steps t + 1) (train_max_steps (config t) - steps t))))
  end.
Proof.
  intros Hfr Hnz Hw.
  pose proof (run_summary fuel t) as Hsum.
  assert (Hb : finish_train t = false -> steps t < train_max_steps (config t) ->
               match run fuel t with
               | (_, t', r) =>
                   r = Some (Ok tt) -> steps t' = train_max_steps (config t)
               end).
  { intros Hf Hlt. pose proof (run_bounds fuel t Hf Hlt) as H.
    destruct (run fuel t) as [[ev t'] r]. intros Hr. apply H; exact Hr. }
  destruct (run fuel t) as [[ev t'] r].
  destruct Hsum as (Hs & Hsc & Ha). specialize (Ha Hfr Hnz Hw).
  assert (E : saves ev
              = map (fun s => (checkpoint_file (config t) s, s))
                  (List.filter (fun s => s mod save_interval_steps (config t) =? 0)
                     (step_counters ev))).
  { unfold saves. rewrite Ha. apply saves_of_intervals. }
  split; [exact E|]. intros Hf Hlt Hr. specialize (Hb Hf Hlt Hr).
  rewrite E, Hsc. do 3 f_equal. lia.
Qed.

(** *** File names *)

Lemma list_ascii_append (a b : string) :
  list_ascii_of_string (a +:+ b) = list_ascii_of_string a ++ list_ascii_of_string b.
Proof. induction a as [|c a IH]; simpl; [reflexivity | rewrite IH; reflexivity]. Qed.

Lemma string_of_list_inj (a b : string) :
  list_ascii_of_string a = list_ascii_of_string b -> a = b.
Proof.
  intros H. rewrite <- (string_of_list_ascii_of_string a),
    <- (string_of_list_ascii_of_string b), H. reflexivity.
Qed.

Lemma append_inv_head (p a b : string) : p +:+ a = p +:+ b -> a = b.
Proof.
  intros H. apply string_of_list_inj. apply (f_equal list_ascii_of_string) in H.
  rewrite !list_ascii_append in H. exact (app_inv_head _ _ _ H).
Qed.

Lemma append_inv_tail (a b q : string) : a +:+ q = b +:+ q -> a = b.
Proof.
  intros H. apply string_of_list_inj. apply (f_equal list_ascii_of_string) in H.
  rewrite !list_ascii_append in H. exact (app_inv_tail _ _ _ H).
Qed.

Lemma to_int_proper (z : Z) :
  Z.to_int z <> Decimal.Pos Decimal.Nil /\ Z.to_int z <> Decimal.Neg Decimal.Nil.
Proof.
  destruct z as [|q|q]; simpl; split; try discriminate;
    intros [= H]; exact (Unsigned.to_uint_nonnil q H).
Qed.

(** [str] is injective on ints. *)
Lemma py_str_inj (a b : Z) : py_str a = py_str b -> a = b.
Proof.
  unfold py_str. intros H. apply (f_equal NilZero.int_of_string) in H.
  destruct (to_int_proper a), (to_int_proper b).
  rewrite !NilZero.isi in H by assumption.
  apply to_int_inj. congruence.
Qed.

Lemma checkpoint_file_inj (cfg : Config) (s1 s2 : Z) :
  checkpoint_file cfg s1 = checkpoint_file cfg s2 -> s1 = s2.
Proof.
  unfold checkpoint_file. intros H.
  apply append_inv_head, append_inv_head, append_inv_head, append_inv_tail in H.
  exact (py_str_inj _ _ H).
Qed.

(** Checkpoints of different step counts go to different files, whatever
    the directory: the decimal rendering of the step in the file name tells
    them apart. *)
Theorem checkpoint_file_injective (cfg : Config) (s1 s2 : Z) :
  s1 <> s2 -> checkpoint_file cfg s1 <> checkpoint_file cfg s2.
Proof. intros Hne E. exact (Hne (checkpoint_file_inj cfg s1 s2 E)). Qed.

(** In every run of a trainer with fresh accumulators, no checkpoint file is
    written twice: a run never overwrites a checkpoint that it wrote. *)
Theorem run_never_overwrites_checkpoint (fuel : nat) (t : Trainer) :
  fresh_accumulators t -> intervals_nonzero (config t) -> wrapped_ok t ->
  NoDup (map fst (saves (fst (fst (run fuel t))))).
Proof.
  intros Hfr Hnz Hw. pose proof (run_summary fuel t) as Hsum.
  destruct (run fuel t) as [[ev t'] r]. cbn [fst].
  destruct Hsum as (_ & Hsc & Ha). specialize (Ha Hfr Hnz Hw).
  unfold saves. rewrite Ha, saves_of_intervals, List.map_map. cbn [fst].
  apply NoDup_ListNoDup, Injective_map_NoDup.
  - intros s1 s2. apply checkpoint_file_inj.
  - apply List.NoDup_filter, NoDup_ListNoDup. rewrite Hsc. apply NoDup_seqZ.
Qed.

Lemma slash_free_app (a b : list ascii) :
  slash_free a -> slash_free b -> slash_free (a ++ b).
Proof. unfold slash_free. rewrite forallb_app. intros -> ->. reflexivity. Qed.

Lemma slash_free_uint (d : Decimal.uint) :
  slash_free (list_ascii_of_string (NilEmpty.string_of_uint d)).
Proof. unfold slash_free. induction d; simpl; auto. Qed.

Lemma slash_free_nz_uint (d : Decimal.uint) :
  slash_free (list_ascii_of_string (NilZero.string_of_uint d)).
Proof. destruct d; [reflexivity | apply slash_free_uint ..]. Qed.

Lemma slash_free_py_str (z : Z) : slash_free (list_ascii_of_string (py_str z)).
Proof.
  unfold py_str, NilZero.string_of_int.
  destruct (Z.to_int z) as [d|d]; [apply slash_free_nz_uint|].
  unfold slash_free. cbn [list_ascii_of_string forallb].
  change (Ascii.eqb "-" slash) with false. exact (slash_free_nz_uint d).
Qed.

Lemma rsplit_slash_free (l : list ascii) : slash_free l -> rsplit_slash l = ([], l).
Proof.
  unfold slash_free. induction l as [|c l IH]; simpl; [reflexivity|].
  intros H. apply andb_prop in H as [Hc Hl]. rewrite (IH Hl).
  apply negb_true_iff in Hc. rewrite Hc. reflexivity.
Qed.

Lemma rsplit_slash_last (l1 l2 : list ascii) :
  slash_free l2 -> rsplit_slash (l1 ++ slash :: l2) = (l1 ++ [slash], l2).
Proof.
  intros H. induction l1 as [|c l1 IH].
  - simpl. rewrite (rsplit_slash_free l2 H). reflexivity.
  - cbn [app rsplit_slash]. rewrite IH. destruct l1; reflexivity.
Qed.

Lemma rstrip_slash_keep (l : list ascii) (c : ascii) :
  Ascii.eqb c slash = false -> rstrip_slash (l ++ [c]) = l ++ [c].
Proof.
  intros Hc. induction l as [|x l IH]; simpl; [rewrite Hc; reflexivity|].
  rewrite IH. destruct l; reflexivity.
Qed.

Lemma rstrip_slash_drop (l : list ascii) :
  rstrip_slash (l ++ [slash]) = rstrip_slash l.
Proof. induction l as [|x l IH]; simpl; [reflexivity | rewrite IH; reflexivity]. Qed.

Lemma not_all_slashes (l : list ascii) (c : ascii) (m : list ascii) :
  Ascii.eqb c slash = false ->
  forallb (fun x => Ascii.eqb x slash) (l ++ c :: m) = false.
Proof.
  intros Hc. rewrite forallb_app. simpl. rewrite Hc. apply andb_false_r.
Qed.

(** [os.path.dirname] and [os.path.basename] of [dir/name]. *)
Lemma dirname_join (dir name : string) :
  no_trailing_slash dir -> slash_free (list_ascii_of_string name) ->
  dirname (dir +:+ "/" +:+ name) = dir /\ basename (dir +:+ "/" +:+ name) = name.
Proof.
  intros (l & c & Hd & Hc) Hn. unfold dirname, basename.
  rewrite !list_ascii_append. change (list_ascii_of_string "/") with [slash].
  change ([slash] ++ list_ascii_of_string name) with (slash :: list_ascii_of_string name).
  rewrite (rsplit_slash_last _ _ Hn). cbn [fst snd]. split.
  - rewrite Hd, <- app_assoc. cbn [app].
    rewrite (not_all_slashes l c [slash] Hc).
    change (l ++ [c; slash]) with (l ++ [c] ++ [slash]).
    rewrite app_assoc, rstrip_slash_drop, (rstrip_slash_keep l c Hc), <- Hd.
    apply string_of_list_ascii_of_string.
  - apply string_of_list_ascii_of_string.
Qed.

Lemma string_length_append (a b : string) :
  String.length (a +:+ b) = (String.length a + String.length b)%nat.
Proof. induction a as [|c a IH]; simpl; [reflexivity | rewrite IH; reflexivity]. Qed.

Lemma substring_prefix (a b : string) (k : nat) :
  String.substring 0 (String.length a + k) (a +:+ b) = a +:+ String.substring 0 k b.
Proof. induction a as [|c a IH]; simpl; [reflexivity | rewrite IH; reflexivity]. Qed.

(** [name[11:-4]] on the name of a checkpoint file. *)
Lemma slice_checkpoint_name (x : string) :
  slice_from_to_end 11 4 ("checkpoint-" +:+ x +:+ "steps.pkl") = x +:+ "steps".
Proof.
  unfold slice_from_to_end.
  replace (String.length ("checkpoint-" +:+ x +:+ "steps.pkl") - 4 - 11)%nat
    with (String.length x + 5)%nat
    by (rewrite !string_length_append; simpl; lia).
  simpl. change ("" +:+ x +:+ "steps.pkl") with (x +:+ "steps.pkl").
  rewrite substring_prefix. reflexivity.
Qed.

(** From checkpoint to artifact.  A trainer saves at its step [s] under a
    directory without trailing slash; [save_model], given a configuration
    whose model fits, then writes one artifact beside the checkpoint, named
    [model-<s>steps.pt], with the parameters of the trainer. *)
Theorem export_of_saved_checkpoint (t : Trainer) (configs : gmap string yaml_config)
    (files : gmap string bundle) (config_path : string) (cfg : yaml_config) :
  wrapper_matches_config t ->
  no_trailing_slash (checkpoint_path (config t)) ->
  configs !! config_path = Some cfg ->
  compatible (MoodRecog (yaml_model cfg)) (weights (inner (model t))) = true ->
  exists ev,
    save_checkpoint (checkpoint_path (config t))
      ("checkpoint-" +:+ py_str (steps t) +:+ "steps.pkl") t = (ev, t, Ok tt)
    /\ save_model configs (write_files files ev) config_path
         (checkpoint_file (config t) (steps t))
       = ([PackageExport
             (checkpoint_path (config t) +:+ "/model-" +:+ py_str (steps t) +:+ "steps.pt")
             (weights (inner (model t)))], Ok tt).
Proof.
  intros Hw Hdir Hcfg Hc. eexists. split; [apply (save_checkpoint_run _ _ _ Hw)|].
  cbn [write_files fold_left].
  assert (Hname : slash_free (list_ascii_of_string
                    ("checkpoint-" +:+ py_str (steps t) +:+ "steps.pkl"))).
  { rewrite !list_ascii_append. apply slash_free_app; [reflexivity|].
    apply slash_free_app; [apply slash_free_py_str | reflexivity]. }
  destruct (dirname_join _ _ Hdir Hname) as [Hdn Hbn].
  unfold save_model, module_load_state_dict, checkpoint_file.
  rewrite Hcfg, lookup_insert_eq. cbn [b_model sd_prefixed sd_tensors negb andb].
  assert (Hy : yaml_model
                 (if String.eqb (trainer_checkpoint_path cfg) "checkpoints"
                  then {| version := version cfg;
                          trainer_checkpoint_path :=
                            trainer_checkpoint_path cfg +:+ "/checkpoint_" +:+ version cfg;
                          yaml_model := yaml_model cfg |}
                  else cfg) = yaml_model cfg)
    by (destruct (String.eqb (trainer_checkpoint_path cfg) "checkpoints"); reflexivity).
  cbn [weights training]. rewrite Hy, Hc, Hdn, Hbn, slice_checkpoint_name.
  cbn [weights].
  assert (Hs : forall x : string, (x +:+ "steps") +:+ ".pt" = x +:+ "steps.pt")
    by (induction x as [|c x IH]; [reflexivity|];
        change (String c ((x +:+ "steps") +:+ ".pt") = String c (x +:+ "steps.pt"));
        rewrite IH; reflexivity).
  rewrite Hs. reflexivity.
Qed.

(** *** The parts of an iteration *)

Lemma check_log_run (t : Trainer) (v : scalar) :
  log_interval_steps (config t) <> 0 ->
  total_train_loss t = [("train/onset_loss", v)] ->
  _check_log_interval t
  = if steps t mod log_interval_steps (config t) =? 0
    then ([LoggerInfo (MsgTrainLoss (steps t) "train/onset_loss"
                         (fdiv v (log_interval_steps (config t))));
           AddScalar "train/onset_loss" (fdiv v (log_interval_steps (config t))) (steps t)],
          set_total_train_loss [] t, Ok tt)
    else ([], t, Ok tt).
Proof.
  intros Hnz Hd. unfold _check_log_interval, py_mod, _write_to_tensorboard. unfold_m.
  simpl. apply Z.eqb_neq in Hnz as Hnz'. rewrite Hnz'. simpl.
  destruct (steps t mod log_interval_steps (config t) =? 0); [|reflexivity].
  rewrite Hd. simpl. rewrite (py_truediv_ok _ _ Hnz). reflexivity.
Qed.

Lemma check_save_train_scalars (t : Trainer) :
  train_scalars (fst (fst (_check_save_interval t))) = [].
Proof.
  unfold _check_save_interval, py_mod, save_checkpoint. unfold_m. simpl.
  destruct (save_interval_steps (config t) =? 0); [reflexivity|]. simpl.
  destruct (steps t mod save_interval_steps (config t) =? 0); [|reflexivity].
  destruct (distributed (config t)), (model t); reflexivity.
Qed.

Lemma check_eval_train_scalars (t : Trainer) :
  eval_interval_steps (config t) <> 0 ->
  total_eval_loss t = [] -> total_eval_score t = [] ->
  train_scalars (fst (fst (_check_eval_interval t))) = [].
Proof.
  intros Hnz Hl Hs. rewrite (check_eval_unfold t Hnz).
  destruct (steps t mod eval_interval_steps (config t) =? 0); [|reflexivity].
  destruct (dl_eval (data_loader t)) as [|b bs] eqn:Hbs.
  - destruct (eval_epoch_empty t Hbs) as (t' & -> & _). rewrite Hl, Hs. reflexivity.
  - destruct (crit_call (criterion t)) as [score|] eqn:Hc.
    + destruct (eval_epoch_callable score b bs t Hc Hl Hs Hbs) as (t' & -> & _).
      reflexivity.
    + destruct (eval_epoch_not_callable b bs t Hc Hbs) as (t' & -> & _). reflexivity.
Qed.

Lemma check_eval_raise (t : Trainer) (e : exn) :
  eval_interval_steps (config t) <> 0 ->
  total_eval_loss t = [] -> total_eval_score t = [] ->
  snd (_check_eval_interval t) = Raise e ->
  eval_failure t (snd (fst (_check_eval_interval t))) e.
Proof.
  intros Hnz Hl Hs. rewrite (check_eval_unfold t Hnz).
  destruct (steps t mod eval_interval_steps (config t) =? 0) eqn:Hmod; [|discriminate].
  apply Z.eqb_eq in Hmod.
  destruct (dl_eval (data_loader t)) as [|b bs] eqn:Hbs.
  - destruct (eval_epoch_empty t Hbs) as (t' & -> & _). discriminate.
  - destruct (crit_call (criterion t)) as [score|] eqn:Hc.
    + destruct (eval_epoch_callable score b bs t Hc Hl Hs Hbs) as (t' & -> & _).
      discriminate.
    + destruct (eval_epoch_not_callable b bs t Hc Hbs) as (t' & -> & Hm & _ & _ & Hst & _).
      simpl. intros [= <-]. unfold eval_failure. rewrite Hst, Hbs. splits; auto.
Qed.

Lemma acc_value_after_step (d : pydict) (x : scalar) :
  train_acc_ok d ->
  dict_iadd d "train/onset_loss" x = [("train/onset_loss", fadd (acc_value d) x)].
Proof. intros [-> | [v ->]]; reflexivity. Qed.

(** The four calls of an iteration, one after the other. *)
Lemma iteration_decompose (b : batch) (t : Trainer) :
  Inv t -> intervals_nonzero (config t) -> wrapped_ok t ->
  exists t1 t2 ev2,
    steps t2 = steps t + 1 /\ same_setup t t2
    /\ finish_train t2
       = (finish_train t || (train_max_steps (config t) <=? steps t + 1))
    /\ total_eval_loss t2 = [] /\ total_eval_score t2 = []
    /\ (if (steps t + 1) mod log_interval_steps (config t) =? 0
        then train_scalars ev2
             = [(fdiv (fadd (acc_value (total_train_loss t)) (train_loss t b))
                      (log_interval_steps (config t)), steps t + 1)]
             /\ total_train_loss t2 = []
        else train_scalars ev2 = []
             /\ total_train_loss t2
                = [("train/onset_loss",
                    fadd (acc_value (total_train_loss t)) (train_loss t b))])
    /\ _check_log_interval t1 = (ev2, t2, Ok tt)
    /\ snd (fst (_check_save_interval t2)) = t2
    /\ train_iteration b t
       = ([ZeroGrad; OptimizerStep; StepCounter (steps t + 1); TqdmUpdate]
            ++ ev2 ++ fst (fst (_check_save_interval t2))
            ++ fst (fst (_check_eval_interval t2)),
          snd (fst (_check_eval_interval t2)), snd (_check_eval_interval t2)).
Proof.
  intros (Htr & Hel & Hes) (Hlog & Hsave & Heval) Hw.
  destruct (train_step_run b t)
    as (t1 & E1 & Hs1 & Hc1 & Hf1 & Hd1 & Hel1 & Hes1 & _ & Hdl1 & Hsm1 & Hcr1 & Hm1).
  assert (Hlf1 : loss_fn t1 = loss_fn t).
  { revert E1. unfold _train_step, _check_train_finish. unfold_m. simpl.
    destruct (train_max_steps (config t) <=? steps t + 1);
      intros E; inversion E; reflexivity. }
  assert (Hsame1 : same_setup t t1) by (unfold same_setup; auto 10).
  fold (train_loss t b) in Hd1. rewrite (acc_value_after_step _ _ Htr) in Hd1.
  pose proof (check_log_run t1 _ ltac:(rewrite Hc1; exact Hlog) Hd1) as E2.
  rewrite Hs1, Hc1 in E2.
  set (t2 := if (steps t + 1) mod log_interval_steps (config t) =? 0
             then set_total_train_loss [] t1 else t1).
  set (ev2 := if (steps t + 1) mod log_interval_steps (config t) =? 0
              then [LoggerInfo (MsgTrainLoss (steps t + 1) "train/onset_loss"
                      (fdiv (fadd (acc_value (total_train_loss t)) (train_loss t b))
                            (log_interval_steps (config t))));
                    AddScalar "train/onset_loss"
                      (fdiv (fadd (acc_value (total_train_loss t)) (train_loss t b))
                            (log_interval_steps (config t))) (steps t + 1)]
              else []).
  assert (E2' : _check_log_interval t1 = (ev2, t2, Ok tt)).
  { rewrite E2. unfold ev2, t2.
    destruct ((steps t + 1) mod log_interval_steps (config t) =? 0); reflexivity. }
  assert (Hsame2 : same_setup t1 t2 /\ steps t2 = steps t1
                   /\ finish_train t2 = finish_train t1
                   /\ total_eval_loss t2 = [] /\ total_eval_score t2 = []).
  { unfold t2. destruct ((steps t + 1) mod log_interval_steps (config t) =? 0); simpl;
      (split; [unfold same_setup; simpl; repeat split|]); repeat split; congruence. }
  destruct Hsame2 as (Hsame2 & Hs2 & Hf2 & Hel2 & Hes2).
  assert (Hsame02 : same_setup t t2) by (eapply same_setup_trans; eassumption).
  assert (Hc2 : config t2 = config t) by apply Hsame02.
  destruct (check_save_spec t2) as (ev3 & E3 & _);
    [rewrite Hc2; exact Hsave | exact (wrapped_ok_same _ _ Hsame02 Hw) |].
  exists t1, t2, ev2. splits; auto; try congruence.
  - unfold ev2, t2.
    destruct ((steps t + 1) mod log_interval_steps (config t) =? 0); split; auto.
  - rewrite E3. reflexivity.
  - unfold train_iteration. rewrite bind_run, E1, bind_run, E2', bind_run, E3.
    destruct (_check_eval_interval t2) as [[ev4 t4] r4]. reflexivity.
Qed.

(** *** Where an evaluation failure leaves a run *)

Lemma eval_failure_same (t t2 t' : Trainer) (e : exn) :
  same_setup t t2 -> eval_failure t2 t' e -> eval_failure t t' e.
Proof.
  unfold same_setup, eval_failure. intros (Hc & Hd & _ & Hcr & _) H.
  rewrite Hc, Hd, Hcr in H. exact H.
Qed.

Lemma iteration_raise (b : batch) (t : Trainer) (e : exn) :
  Inv t -> intervals_nonzero (config t) -> wrapped_ok t ->
  snd (train_iteration b t) = Raise e ->
  eval_failure t (snd (fst (train_iteration b t))) e.
Proof.
  intros HInv Hnz Hw.
  destruct (iteration_decompose b t HInv Hnz Hw)
    as (t1 & t2 & ev2 & Hs2 & Hsame & _ & Hel & Hes & _ & _ & _ & E).
  rewrite E. cbn [fst snd]. intros Hr.
  apply (eval_failure_same t t2 _ e Hsame).
  apply check_eval_raise; auto.
  destruct Hsame as (Hc & _). rewrite Hc. apply Hnz.
Qed.

Lemma train_loop_raise (bs : list batch) (t : Trainer) (e : exn) :
  Inv t -> intervals_nonzero (config t) -> wrapped_ok t ->
  snd (train_loop bs t) = Raise e ->
  eval_failure t (snd (fst (train_loop bs t))) e.
Proof.
  revert t. induction bs as [|b bs IH]; intros t HInv Hnz Hw; [discriminate|].
  cbn [train_loop]. rewrite bind_run.
  pose proof (iteration_raise b t e HInv Hnz Hw) as Hit.
  destruct (iteration_spec b t HInv Hnz Hw)
    as (ev1 & t1 & r1 & E1 & _ & _ & Hsame1 & HInv1 & _).
  rewrite E1 in *. cbn [fst snd] in Hit.
  destruct r1 as [[]|e1]; [|cbn [fst snd]; intros [= <-]; apply Hit; reflexivity].
  rewrite bind_run. unfold get. destruct (finish_train t1); [discriminate|].
  assert (Hc1 : config t1 = config t) by apply Hsame1.
  specialize (IH t1 (HInv1 eq_refl)). rewrite Hc1 in IH.
  specialize (IH Hnz (wrapped_ok_same _ _ Hsame1 Hw)).
  destruct (train_loop bs t1) as [[ev2 t2] r2]. cbn [fst snd] in *.
  intros Hr. exact (eval_failure_same _ _ _ _ Hsame1 (IH Hr)).
Qed.

Lemma train_epoch_raise (t : Trainer) (e : exn) :
  Inv t -> intervals_nonzero (config t) -> wrapped_ok t -> sampler_ok t ->
  snd (_train_epoch t) = Raise e ->
  eval_failure t (snd (fst (_train_epoch t))) e.
Proof.
  intros HInv Hnz Hw Hsm. unfold _train_epoch. rewrite bind_run. unfold get.
  rewrite bind_run.
  pose proof (train_loop_raise (dl_train (data_loader t)) t e HInv Hnz Hw) as Hl.
  destruct (train_loop_actions (dl_train (data_loader t)) t HInv Hnz Hw)
    as (ev1 & t1 & r1 & E1 & _ & Hsame1 & _).
  rewrite E1 in *. cbn [fst snd] in Hl.
  destruct r1 as [[|]|e1];
    [discriminate| |cbn [fst snd]; intros [= <-]; apply Hl; reflexivity].
  destruct (epoch_boundary_ok t1 (sampler_ok_same _ _ Hsame1 Hsm)) as (ev2 & t2 & -> & _).
  discriminate.
Qed.

Lemma run_loop_raise (fuel : nat) (t : Trainer) (e : exn) :
  Inv t -> intervals_nonzero (config t) -> wrapped_ok t -> sampler_ok t ->
  snd (run_loop fuel t) = Some (Raise e) ->
  eval_failure t (snd (fst (run_loop fuel t))) e.
Proof.
  revert t. induction fuel as [|fuel IH]; intros t HInv Hnz Hw Hsm; [discriminate|].
  cbn [run_loop].
  pose proof (train_epoch_raise t e HInv Hnz Hw Hsm) as He.
  destruct (train_epoch_actions t HInv Hnz Hw)
    as (ev1 & t1 & r1 & E1 & _ & Hsame1 & HInv1 & _).
  rewrite E1 in *. cbn [fst snd] in He. destruct r1 as [[]|e1].
  - destruct (finish_train t1); [discriminate|].
    assert (Hc1 : config t1 = config t) by apply Hsame1.
    specialize (IH t1 (HInv1 eq_refl)). rewrite Hc1 in IH.
    specialize (IH Hnz (wrapped_ok_same _ _ Hsame1 Hw) (sampler_ok_same _ _ Hsame1 Hsm)).
    destruct (run_loop fuel t1) as [[ev2 t2] r2]. cbn [fst snd] in *.
    intros Hr. exact (eval_failure_same _ _ _ _ Hsame1 (IH Hr)).
  - cbn [fst snd]. intros [= <-]. apply He. reflexivity.
Qed.

(** *** What the log action writes *)

Lemma iteration_log (b : batch) (t : Trainer) :
  Inv t -> intervals_nonzero (config t) -> wired t ->
  exists ev t',
    train_iteration b t = (ev, t', Ok tt)
    /\ same_setup t t' /\ Inv t' /\ steps t' = steps t + 1
    /\ finish_train t'
       = (finish_train t || (train_max_steps (config t) <=? steps t + 1))
    /\ (if (steps t + 1) mod log_interval_steps (config t) =? 0
        then train_scalars ev
             = [(fdiv (fadd (acc_value (total_train_loss t)) (train_loss t b))
                      (log_interval_steps (config t)), steps t + 1)]
             /\ total_train_loss t' = []
        else train_scalars ev = []
             /\ total_train_loss t'
                = [("train/onset_loss",
                    fadd (acc_value (total_train_loss t)) (train_loss t b))]).
Proof.
  intros HInv Hnz Hwd.
  pose proof (train_iteration_bookkeeping b t) as Hbk.
  destruct (iteration_spec b t HInv Hnz (proj1 Hwd))
    as (ev & t' & r & E & _ & _ & Hsame & HInv' & Hr).
  rewrite (Hr Hwd) in *. rewrite E in Hbk. destruct Hbk as (Hs & _ & Hf).
  exists ev, t'. splits; auto.
  destruct (iteration_decompose b t HInv Hnz (proj1 Hwd))
    as (t1 & t2 & ev2 & Hs2 & Hsame2 & _ & Hel2 & Hes2 & Hlog & _ & _ & E').
  rewrite E in E'. inversion E' as [[Hev Ht' Hr']].
  assert (Hc2 : config t2 = config t) by apply Hsame2.
  assert (Heval : eval_interval_steps (config t2) <> 0) by (rewrite Hc2; apply Hnz).
  destruct (check_eval_spec t2 Heval Hel2 Hes2)
    as (ev4 & t4 & r4 & E4 & _ & _ & Htr4 & _).
  pose proof (check_eval_train_scalars t2 Heval Hel2 Hes2) as Hts4.
  pose proof (check_save_train_scalars t2) as Hts3.
  rewrite E4 in *. cbn [fst snd] in *.
  assert (Hts : train_scalars
                  ([ZeroGrad; OptimizerStep; StepCounter (steps t + 1); TqdmUpdate]
                     ++ ev2 ++ fst (fst (_check_save_interval t2)) ++ ev4)
                = train_scalars ev2).
  { unfold train_scalars in *. rewrite !flat_map_app, Hts3, Hts4, !app_nil_r.
    reflexivity. }
  change (ZeroGrad :: OptimizerStep :: StepCounter (steps t + 1) :: TqdmUpdate
            :: ev2 ++ fst (fst (_check_save_interval t2)) ++ ev4)
    with ([ZeroGrad; OptimizerStep; StepCounter (steps t + 1); TqdmUpdate]
            ++ ev2 ++ fst (fst (_check_save_interval t2)) ++ ev4).
  rewrite Hts, Htr4.
  destruct ((steps t + 1) mod log_interval_steps (config t) =? 0); exact Hlog.
Qed.

Lemma train_loop_window (bs : list batch) (t : Trainer) :
  Inv t -> intervals_nonzero (config t) -> wired t -> finish_train t = false ->
  bs <> [] ->
  steps t + Z.of_nat (length bs) <= train_max_steps (config t) ->
  (forall i, 0 < i < Z.of_nat (length bs) ->
             (steps t + i) mod log_interval_steps (config t) <> 0) ->
  (steps t + Z.of_nat (length bs)) mod log_interval_steps (config t) = 0 ->
  train_scalars (fst (fst (train_loop bs t)))
  = [(fdiv (fold_left fadd (train_losses bs t) (acc_value (total_train_loss t)))
           (log_interval_steps (config t)),
      steps t + Z.of_nat (length bs))].
Proof.
  revert t. induction bs as [|b bs IH]; intros t HInv Hnz Hwd Hf Hne Hmax Hno Hlast;
    [congruence|].
  cbn [train_loop train_losses fold_left]. rewrite bind_run.
  destruct (iteration_log b t HInv Hnz Hwd)
    as (ev1 & t1 & E1 & Hsame1 & HInv1 & Hs1 & Hf1 & Hlog).
  rewrite E1. cbn [fst snd]. rewrite bind_run. unfold get.
  assert (Hc1 : config t1 = config t) by apply Hsame1.
  destruct bs as [|b' bs'].
  - cbn [length] in *.
    replace (steps t + Z.of_nat 1) with (steps t + 1) in * by lia.
    apply Z.eqb_eq in Hlast. rewrite Hlast in Hlog. destruct Hlog as [Hts _].
    assert (Hrest : train_scalars
                      (fst (fst ((if finish_train t1 then mret true else train_loop [] ) t1)))
                    = []) by (destruct (finish_train t1); reflexivity).
    destruct ((if finish_train t1 then mret true else train_loop []) t1)
      as [[ev2 t2] r2]. cbn [fst snd] in *.
    unfold train_scalars in *. rewrite !flat_map_app, Hts, Hrest. reflexivity.
  - assert (H1 : (steps t + 1) mod log_interval_steps (config t) <> 0)
      by (apply Hno; cbn [length]; lia).
    apply Z.eqb_neq in H1. rewrite H1 in Hlog. destruct Hlog as [Hts Hacc].
    assert (Hfin : finish_train t1 = false).
    { rewrite Hf1, Hf. simpl. apply Z.leb_gt. cbn [length] in Hmax. lia. }
    rewrite Hfin.
    specialize (IH t1 HInv1). rewrite Hc1, Hs1, Hacc in IH.
    specialize (IH Hnz (wired_same _ _ Hsame1 Hwd) Hfin ltac:(discriminate)).
    assert (Hlen : steps t + 1 + Z.of_nat (length (b' :: bs'))
                   = steps t + Z.of_nat (length (b :: b' :: bs')))
      by (cbn [length]; lia).
    rewrite Hlen in IH.
    specialize (IH Hmax).
    assert (Hno' : forall i, 0 < i < Z.of_nat (length (b' :: bs')) ->
                     (steps t + 1 + i) mod log_interval_steps (config t) <> 0).
    { intros i Hi. replace (steps t + 1 + i) with (steps t + (1 + i)) by lia.
      apply Hno. cbn [length] in *. lia. }
    specialize (IH Hno' Hlast).
    destruct (train_loop (b' :: bs') t1) as [[ev2 t2] r2]. cbn [fst snd acc_value] in *.
    unfold train_scalars in *. rewrite !flat_map_app, Hts, IH. reflexivity.
Qed.

(** The number that the log action writes.  Over a stretch of the training
    loop that starts on an empty accumulator and has its only log step at
    its end, the scalar written is the sum of the losses of the stretch
    divided by [log_interval_steps], whatever the length of the stretch:
    when fewer steps than the interval were accumulated (a start that is not
    a multiple of the interval, as after a resume) the divisor is still the
    interval. *)
Theorem logged_training_loss (bs : list batch) (t : Trainer) :
  fresh_accumulators t -> intervals_nonzero (config t) -> wired t ->
  finish_train t = false -> bs <> [] ->
  steps t + Z.of_nat (length bs) <= train_max_steps (config t) ->
  (forall i, 0 < i < Z.of_nat (length bs) ->
             (steps t + i) mod log_interval_steps (config t) <> 0) ->
  (steps t + Z.of_nat (length bs)) mod log_interval_steps (config t) = 0 ->
  train_scalars (fst (fst (train_loop bs t)))
  = [(fdiv (fsum (train_losses bs t)) (log_interval_steps (config t)),
      steps t + Z.of_nat (length bs))].
Proof.
  intros Hfr Hnz Hwd Hf Hne Hmax Hno Hlast.
  rewrite (train_loop_window bs t (fresh_Inv t Hfr) Hnz Hwd Hf Hne Hmax Hno Hlast).
  destruct Hfr as (-> & _). reflexivity.
Qed.

(** *** The first evaluation of a trainer whose criterion cannot be called *)

Lemma iteration_first_eval (b : batch) (t : Trainer) :
  Inv t -> intervals_nonzero (config t) -> wrapped_ok t ->
  crit_call (criterion t) = None -> dl_eval (data_loader t) <> [] ->
  exists ev t' r,
    train_iteration b t = (ev, t', r)
    /\ steps t' = steps t + 1 /\ same_setup t t'
    /\ finish_train t'
       = (finish_train t || (train_max_steps (config t) <=? steps t + 1))
    /\ (if (steps t + 1) mod eval_interval_steps (config t) =? 0
        then r = Raise TypeError
        else r = Ok tt /\ Inv t').
Proof.
  intros HInv Hnz Hw Hcr Hev.
  pose proof (train_iteration_bookkeeping b t) as Hbk.
  destruct (iteration_spec b t HInv Hnz Hw)
    as (ev & t' & r & E & _ & _ & Hsame & HInv' & _).
  rewrite E in Hbk. destruct Hbk as (Hs & _ & Hf).
  exists ev, t', r. splits; auto.
  destruct (iteration_decompose b t HInv Hnz Hw)
    as (t1 & t2 & ev2 & Hs2 & Hsame2 & _ & Hel2 & Hes2 & _ & _ & _ & E').
  rewrite E in E'.
  assert (Hc2 : config t2 = config t) by apply Hsame2.
  assert (Hd2 : data_loader t2 = data_loader t) by apply Hsame2.
  assert (Hcr2 : criterion t2 = criterion t) by apply Hsame2.
  assert (Heval : eval_interval_steps (config t2) <> 0) by (rewrite Hc2; apply Hnz).
  rewrite (check_eval_unfold t2 Heval), Hs2, Hc2 in E'.
  destruct ((steps t + 1) mod eval_interval_steps (config t) =? 0).
  - destruct (dl_eval (data_loader t2)) as [|b' bs'] eqn:Hbs;
      [exfalso; apply Hev; rewrite <- Hd2; exact Hbs|].
    destruct (eval_epoch_not_callable b' bs' t2) as (t3 & E3 & _);
      [rewrite Hcr2; exact Hcr | exact Hbs |].
    rewrite E3 in E'. cbn [fst snd] in E'. congruence.
  - cbn [fst snd] in E'. assert (Hr : r = Ok tt) by congruence. auto.
Qed.

Lemma train_loop_first_eval (m : Z) (bs : list batch) (t : Trainer) :
  Inv t -> intervals_nonzero (config t) -> wrapped_ok t ->
  crit_call (criterion t) = None -> dl_eval (data_loader t) <> [] ->
  finish_train t = false ->
  steps t < m <= train_max_steps (config t) ->
  m mod eval_interval_steps (config t) = 0 ->
  (forall s, steps t < s < m -> s mod eval_interval_steps (config t) <> 0) ->
  exists ev t' r,
    train_loop bs t = (ev, t', r)
    /\ same_setup t t'
    /\ (r = Raise TypeError /\ steps t' = m
        \/ r = Ok false /\ steps t' = steps t + Z.of_nat (length bs) /\ steps t' < m
           /\ finish_train t' = false /\ Inv t').
Proof.
  revert t. induction bs as [|b bs IH];
    intros t HInv Hnz Hw Hcr Hev Hf Hm Hmod Hfirst.
  - exists [], t, (Ok false). cbn [train_loop length].
    splits; auto using same_setup_refl. right. splits; auto; lia.
  - cbn [train_loop]. rewrite bind_run.
    destruct (iteration_first_eval b t HInv Hnz Hw Hcr Hev)
      as (ev1 & t1 & r1 & E1 & Hs1 & Hsame1 & Hf1 & Hr1).
    rewrite E1.
    assert (Hc1 : config t1 = config t) by apply Hsame1.
    assert (Hd1 : data_loader t1 = data_loader t) by apply Hsame1.
    assert (Hcr1 : criterion t1 = criterion t) by apply Hsame1.
    destruct (Z.eq_dec (steps t + 1) m) as [Heq | Hneq].
    + rewrite Heq in Hr1. apply Z.eqb_eq in Hmod. rewrite Hmod in Hr1. subst r1.
      exists ev1, t1, (Raise TypeError). splits; auto. left. split; [reflexivity|lia].
    + assert (H1 : (steps t + 1) mod eval_interval_steps (config t) <> 0)
        by (apply Hfirst; lia).
      apply Z.eqb_neq in H1. rewrite H1 in Hr1. destruct Hr1 as (-> & HInv1).
      rewrite bind_run. unfold get.
      assert (Hfin : finish_train t1 = false).
      { rewrite Hf1, Hf. simpl. apply Z.leb_gt. lia. }
      rewrite Hfin.
      destruct (IH t1) as (ev2 & t2 & r2 & E2 & Hsame2 & Hcase);
        [ exact HInv1 | rewrite Hc1; exact Hnz | exact (wrapped_ok_same _ _ Hsame1 Hw)
        | rewrite Hcr1; exact Hcr | rewrite Hd1; exact Hev | exact Hfin
        | rewrite Hc1; lia | rewrite Hc1; exact Hmod
        | rewrite Hc1; intros s Hs; apply Hfirst; lia | ].
      rewrite E2. exists (ev1 ++ [] ++ ev2), t2, r2.
      split; [reflexivity|]. split; [eapply same_setup_trans; eassumption|].
      destruct Hcase as [(-> & Hs) | (-> & Hs & Hlt & Hf2 & HInv2)]; [left | right];
        splits; auto. cbn [length]. lia.
Qed.

Lemma run_loop_first_eval (m : Z) (fuel : nat) (t : Trainer) :
  Inv t -> intervals_nonzero (config t) -> wrapped_ok t -> sampler_ok t ->
  crit_call (criterion t) = None -> dl_eval (data_loader t) <> [] ->
  dl_train (data_loader t) <> [] ->
  finish_train t = false ->
  steps t < m <= train_max_steps (config t) ->
  m mod eval_interval_steps (config t) = 0 ->
  (forall s, steps t < s < m -> s mod eval_interval_steps (config t) <> 0) ->
  (Z.to_nat (m - steps t) <= fuel)%nat ->
  exists ev t', run_loop fuel t = (ev, t', Some (Raise TypeError)) /\ steps t' = m.
Proof.
  revert t. induction fuel as [|fuel IH];
    intros t HInv Hnz Hw Hsm Hcr Hev Htr Hf Hm Hmod Hfirst Hfuel; [lia|].
  cbn [run_loop]. unfold _train_epoch. rewrite bind_run. unfold get. rewrite bind_run.
  destruct (train_loop_first_eval m (dl_train (data_loader t)) t
              HInv Hnz Hw Hcr Hev Hf Hm Hmod Hfirst)
    as (ev1 & t1 & r1 & E1 & Hsame1 & Hcase).
  rewrite E1.
  destruct Hcase as [(-> & Hs) | (-> & Hs & Hlt & Hf1 & HInv1)]; [eauto|].
  destruct (epoch_boundary_ok t1 (sampler_ok_same _ _ Hsame1 Hsm))
    as (ev2 & t2 & E2 & _ & Hs2 & Hf2 & Hsame2 & _).
  rewrite E2, Hf2, Hf1.
  assert (Hsame : same_setup t t2) by (eapply same_setup_trans; eassumption).
  assert (Hc2 : config t2 = config t) by apply Hsame.
  assert (Hd2 : data_loader t2 = data_loader t) by apply Hsame.
  assert (Hcr2 : criterion t2 = criterion t) by apply Hsame.
  assert (HL : 0 < Z.of_nat (length (dl_train (data_loader t)))).
  { destruct (dl_train (data_loader t)); [congruence | cbn [length]; lia]. }
  assert (HInv2 : Inv t2).
  { destruct (epoch_boundary_spec t1)
      as (ev2' & t2' & r2' & E2' & _ & _ & _ & Ha & Hb & Hc & _).
    rewrite E2 in E2'. inversion E2'; subst ev2' t2' r2'.
    unfold Inv in *. rewrite Ha, Hb, Hc. exact HInv1. }
  destruct (IH t2) as (ev3 & t3 & E3 & Hs3);
    [ exact HInv2 | rewrite Hc2; exact Hnz | exact (wrapped_ok_same _ _ Hsame Hw)
    | exact (sampler_ok_same _ _ Hsame Hsm) | rewrite Hcr2; exact Hcr
    | rewrite Hd2; exact Hev | rewrite Hd2; exact Htr | congruence
    | rewrite Hc2; lia | rewrite Hc2; exact Hmod
    | rewrite Hc2; intros s Hs'; apply Hfirst; lia | lia | ].
  rewrite E3. eauto.
Qed.

(** A trainer wired as [main] does never gets past its first evaluation.
    When [criterion] cannot be called and the evaluation loader yields a
    batch, a run that is otherwise well configured raises [TypeError] at the
    first step count [m] above its start that is a multiple of
    [eval_interval_steps] and not beyond [train_max_steps]: it has processed
    the batches of the steps up to [m] and no other, and leaves the model in
    inference mode. *)
Theorem uncallable_criterion_stops_at_first_evaluation (m : Z) (fuel : nat)
    (t : Trainer) :
  fresh_accumulators t -> intervals_nonzero (config t) ->
  wrapped_ok t -> sampler_ok t ->
  crit_call (criterion t) = None -> dl_eval (data_loader t) <> [] ->
  dl_train (data_loader t) <> [] ->
  finish_train t = false ->
  steps t < m <= train_max_steps (config t) ->
  m mod eval_interval_steps (config t) = 0 ->
  (forall s, steps t < s < m -> s mod eval_interval_steps (config t) <> 0) ->
  (Z.to_nat (m - steps t) <= fuel)%nat ->
  exists ev t',
    run fuel t = (ev, t', Some (Raise TypeError))
    /\ steps t' = m
    /\ step_counters ev = seqZ (steps t + 1) (m - steps t)
    /\ training (inner (model t')) = false.
Proof.
  intros Hfr Hnz Hw Hsm Hcr Hev Htr Hf Hm Hmod Hfirst Hfuel.
  destruct (run_loop_first_eval m fuel t (fresh_Inv t Hfr) Hnz Hw Hsm Hcr Hev Htr Hf
              Hm Hmod Hfirst Hfuel) as (ev0 & t' & E0 & Hs).
  pose proof (run_loop_raise fuel t TypeError (fresh_Inv t Hfr) Hnz Hw Hsm) as Hfail.
  rewrite E0 in Hfail. specialize (Hfail eq_refl). cbn [fst snd] in Hfail.
  pose proof (run_summary fuel t) as Hsum.
  unfold run in *. rewrite E0 in *.
  destruct Hsum as (Hst & Hsc & _).
  eexists _, t'. split; [reflexivity|]. split; [exact Hs|].
  split; [|apply Hfail].
  rewrite Hsc. f_equal. lia.
Qed.

End Properties.

(** ** The theorems at work on the small instance *)

Example small_run_actions :
  actions (fst (fst (run 5 small_trainer)))
  = [ALog 2; ASave "ckpt/checkpoint-3steps.pkl" 3; ALog 4; AEval 4].
Proof. vm_compute. reflexivity. Qed.

Example small_run_steps :
  step_counters (fst (fst (run 5 small_trainer))) = [1; 2; 3; 4; 5]
  /\ snd (run 5 small_trainer) = Some (Ok tt)
  /\ epochs (snd (fst (run 5 small_trainer))) = 2.
Proof. vm_compute. auto. Qed.

Lemma C1_witness :
  fresh_accumulators small_trainer
  /\ intervals_nonzero (config small_trainer)
  /\ wrapped_ok small_trainer
  /\ match run 5 small_trainer with
     | (ev, _, _) =>
         actions ev
         = flat_map (interval_actions (config small_trainer)) (step_counters ev)
     end.
Proof.
  assert (H1 : fresh_accumulators small_trainer) by (repeat split).
  assert (H2 : intervals_nonzero (config small_trainer))
    by (repeat split; simpl; lia).
  assert (H3 : wrapped_ok small_trainer) by (intros H; simpl in H; discriminate).
  split; [exact H1|]. split; [exact H2|]. split; [exact H3|].
  exact (C1_interval_actions 5 small_trainer H1 H2 H3).
Defined.

Lemma C2_witness :
  finish_train small_trainer = false
  /\ steps small_trainer < train_max_steps (config small_trainer)
  /\ never_beyond_max 5 small_trainer
  /\ exists ev t', run 5 small_trainer = (ev, t', Some (Ok tt)).
Proof.
  assert (H1 : finish_train small_trainer = false) by reflexivity.
  assert (H2 : steps small_trainer < train_max_steps (config small_trainer))
    by (simpl; lia).
  destruct (C2_termination 5 small_trainer H1 H2) as (A & _ & _ & D).
  split; [exact H1|]. split; [exact H2|]. split; [exact A|].
  apply D.
  - repeat split.
  - repeat split; simpl; lia.
  - split; [intros H; simpl in H; discriminate|].
    split; [intros H; simpl in H; discriminate | right; reflexivity].
  - simpl. discriminate.
  - simpl. lia.
Defined.

(** The claim C2 as stated fails on a resumed run: the checkpoint of a
    finished run of 250 steps loads, [train_max_steps] is still 250, and the
    loop processes one more batch, which takes the counter to 251. *)
Lemma C2_counterexample :
  snd (load_checkpoint resume_files resume_path false
         (toy_trainer 0 resume_config [toy_batch 1 2] [])) = Ok tt
  /\ steps resumed_trainer = train_max_steps (config resumed_trainer)
  /\ finish_train resumed_trainer = false
  /\ step_counters (fst (fst (run 1 resumed_trainer))) = [251]
  /\ ~ never_beyond_max 1 resumed_trainer.
Proof.
  split; [vm_compute; reflexivity|]. split; [vm_compute; reflexivity|].
  split; [vm_compute; reflexivity|]. split; [vm_compute; reflexivity|].
  unfold never_beyond_max.
  assert (E : run 1 resumed_trainer
              = (fst (fst (run 1 resumed_trainer)), snd (fst (run 1 resumed_trainer)),
                 snd (run 1 resumed_trainer)))
    by (destruct (run 1 resumed_trainer) as [[? ?] ?]; reflexivity).
  rewrite E.
  assert (Hsc : step_counters (fst (fst (run 1 resumed_trainer))) = [251])
    by (vm_compute; reflexivity).
  rewrite Hsc.
  assert (Hmax : train_max_steps (config resumed_trainer) = 250)
    by (vm_compute; reflexivity).
  rewrite Hmax. intros H. apply Forall_cons in H. lia.
Qed.

Example scenario_saves :
  saves (fst (fst (run 250 scenario_trainer)))
  = [("checkpoints/checkpoint_0_1/checkpoint-100steps.pkl", 100);
     ("checkpoints/checkpoint_0_1/checkpoint-200steps.pkl", 200)]
  /\ snd (run 250 scenario_trainer) = Some (Ok tt)
  /\ steps (snd (fst (run 250 scenario_trainer))) = 250.
Proof. vm_compute. auto. Qed.

Lemma C7_witness :
  save_interval_steps (config scenario_trainer) = 100
  /\ train_max_steps (config scenario_trainer) = 250
  /\ steps scenario_trainer = 0
  /\ finish_train scenario_trainer = false
  /\ fresh_accumulators scenario_trainer
  /\ log_interval_steps (config scenario_trainer) <> 0
  /\ eval_interval_steps (config scenario_trainer) <> 0
  /\ wrapped_ok scenario_trainer
  /\ match run 250 scenario_trainer with
     | (ev, _, r) =>
         (exists rest,
             saves ev ++ rest
             = [(checkpoint_file (config scenario_trainer) 100, 100);
                (checkpoint_file (config scenario_trainer) 200, 200)])
         /\ (r = Some (Ok tt) ->
             saves ev
             = [(checkpoint_file (config scenario_trainer) 100, 100);
                (checkpoint_file (config scenario_trainer) 200, 200)])
     end
     /\ (wired scenario_trainer -> dl_train (data_loader scenario_trainer) <> [] ->
         (250 <= 250)%nat ->
         exists ev t', run 250 scenario_trainer = (ev, t', Some (Ok tt))).
Proof.
  assert (H1 : save_interval_steps (config scenario_trainer) = 100) by reflexivity.
  assert (H2 : train_max_steps (config scenario_trainer) = 250) by reflexivity.
  assert (H3 : steps scenario_trainer = 0) by reflexivity.
  assert (H4 : finish_train scenario_trainer = false) by reflexivity.
  assert (H5 : fresh_accumulators scenario_trainer) by (repeat split).
  assert (H6 : log_interval_steps (config scenario_trainer) <> 0) by (simpl; lia).
  assert (H7 : eval_interval_steps (config scenario_trainer) <> 0) by (simpl; lia).
  assert (H8 : wrapped_ok scenario_trainer) by (intros H; simpl in H; discriminate).
  split; [exact H1|]. split; [exact H2|]. split; [exact H3|]. split; [exact H4|].
  split; [exact H5|]. split; [exact H6|]. split; [exact H7|]. split; [exact H8|].
  exact (C7_save_scenario 250 scenario_trainer H1 H2 H3 H4 H5 H6 H7 H8).
Defined.

Lemma C4_witness :
  wrapper_matches_config eval_trainer
  /\ wrapper_matches_config small_trainer
  /\ compatible (weights (inner (model small_trainer)))
       (weights (inner (model eval_trainer))) = true
  /\ exists ev,
       save_checkpoint "ckpt" "checkpoint-4steps.pkl" eval_trainer
       = (ev, eval_trainer, Ok tt)
       /\ (exists t',
              load_checkpoint (write_files ∅ ev)
                ("ckpt" +:+ "/" +:+ "checkpoint-4steps.pkl") false small_trainer
              = ([], t', Ok tt)
              /\ steps t' = steps eval_trainer /\ epochs t' = epochs eval_trainer
              /\ optimizer t' = optimizer eval_trainer
              /\ scheduler t' = scheduler eval_trainer
              /\ weights (inner (model t')) = weights (inner (model eval_trainer)))
       /\ (exists t',
              load_checkpoint (write_files ∅ ev)
                ("ckpt" +:+ "/" +:+ "checkpoint-4steps.pkl") true small_trainer
              = ([], t', Ok tt)
              /\ weights (inner (model t')) = weights (inner (model eval_trainer))
              /\ steps t' = steps small_trainer /\ epochs t' = epochs small_trainer
              /\ optimizer t' = optimizer small_trainer
              /\ scheduler t' = scheduler small_trainer).
Proof.
  assert (H1 : wrapper_matches_config eval_trainer) by reflexivity.
  assert (H2 : wrapper_matches_config small_trainer) by reflexivity.
  assert (H3 : compatible (weights (inner (model small_trainer)))
                 (weights (inner (model eval_trainer))) = true) by reflexivity.
  split; [exact H1|]. split; [exact H2|]. split; [exact H3|].
  exact (C4_checkpoint_roundtrip eval_trainer small_trainer ∅ "ckpt"
           "checkpoint-4steps.pkl" H1 H2 H3).
Defined.

Example roundtrip_counters :
  steps (snd (fst (load_checkpoint
                     (write_files ∅ (fst (fst (save_checkpoint "ckpt" "c.pkl" eval_trainer))))
                     "ckpt/c.pkl" false small_trainer))) = 4
  /\ steps (snd (fst (load_checkpoint
                     (write_files ∅ (fst (fst (save_checkpoint "ckpt" "c.pkl" eval_trainer))))
                     "ckpt/c.pkl" true small_trainer))) = 0.
Proof. vm_compute. auto. Qed.

Lemma eval_flush_witness :
  crit_call (criterion eval_trainer) = Some BCELoss
  /\ total_eval_loss eval_trainer = []
  /\ total_eval_score eval_trainer = []
  /\ dl_eval (data_loader eval_trainer) = toy_batch 1 1 :: [toy_batch 2 5]
  /\ exists t',
       _eval_epoch eval_trainer
       = ([LoggerInfo (MsgStartEval 4); ModelEval; LoggerInfo (MsgFinishedEval 4);
           LoggerInfo (MsgEvalLoss 4 "eval/onset_loss" 4);
           LoggerInfo (MsgEvalLoss 4 "eval/score" 1);
           AddScalar "eval/onset_loss" 4 4; AddScalar "eval/score" 1 4;
           ModelTrain], t', Ok tt)
       /\ total_eval_loss t' = [] /\ total_eval_score t' = []
       /\ training (inner (model t')) = true.
Proof.
  assert (H1 : crit_call (criterion eval_trainer) = Some BCELoss) by reflexivity.
  assert (H2 : total_eval_loss eval_trainer = []) by reflexivity.
  assert (H3 : total_eval_score eval_trainer = []) by reflexivity.
  assert (H4 : dl_eval (data_loader eval_trainer) = toy_batch 1 1 :: [toy_batch 2 5])
    by reflexivity.
  split; [exact H1|]. split; [exact H2|]. split; [exact H3|]. split; [exact H4|].
  exact (eval_flush_with_callable_criterion BCELoss (toy_batch 1 1) [toy_batch 2 5] eval_trainer H1 H2 H3 H4).
Defined.

(** The same trainer on the registry of [main]: the pass over its two
    batches stops at the first, with nothing sent to the metrics sink and
    the loss accumulator left at the undivided loss 9 and a score of 0. *)
Example eval_pass_on_registry :
  match __init__ 4 2
          {| dl_train := [toy_batch 1 2]; dl_eval := [toy_batch 1 1; toy_batch 2 5] |}
          {| sampler_train := None; sampler_eval := None |}
          (Plain {| weights := [1; 2]; training := true |})
          main_criterion 4 0 small_config with
  | Ok t =>
      fst (fst (_eval_epoch t)) = [LoggerInfo (MsgStartEval 4); ModelEval]
      /\ snd (_eval_epoch t) = Raise TypeError
      /\ scalars (fst (fst (_eval_epoch t))) = []
      /\ total_eval_loss (snd (fst (_eval_epoch t)))
         = [("eval/onset_loss", 9); ("eval/score", 0)]
      /\ training (inner (model (snd (fst (_eval_epoch t))))) = false
  | Raise _ => False
  end.
Proof. vm_compute. auto 10. Qed.

(** A trainer wired as [main] does: the first evaluation step raises. *)
Example main_registry_eval_step :
  snd (_eval_step (toy_batch 1 1) small_trainer) = Raise TypeError
  /\ total_eval_loss (snd (fst (_eval_step (toy_batch 1 1) small_trainer)))
     = [("eval/onset_loss", 9); ("eval/score", 0)].
Proof. vm_compute. auto. Qed.

(** The claim C8 as stated fails on an absent file: the error is
    [FileNotFoundError]. *)
Lemma C8_counterexample :
  (∅ : gmap string bundle) !! resume_path = None
  /\ snd (load_checkpoint ∅ resume_path false small_trainer) = Raise FileNotFoundError
  /\ ~ fails_with_CheckpointError (snd (load_checkpoint ∅ resume_path false small_trainer)).
Proof.
  split; [reflexivity|]. split; [reflexivity|].
  intros (e & He & Hn). change (@Raise unit FileNotFoundError = Raise e) in He.
  inversion He; subst e. discriminate Hn.
Qed.

Lemma C9_witness :
  export_configs !! "config.yaml"
  = Some {| version := "0_1"; trainer_checkpoint_path := "checkpoints";
            yaml_model := 3%nat |}
  /\ resume_files !! resume_path = Some finished_checkpoint
  /\ b_model finished_checkpoint
     = Some {| sd_prefixed := false; sd_tensors := [251; 252] |}
  /\ compatible (MoodRecog 3%nat) [251; 252] = false
  /\ save_model export_configs resume_files "config.yaml" resume_path
     = ([], Raise RuntimeError)
  /\ ~ fails_with_CheckpointError
         (snd (save_model export_configs resume_files "config.yaml" resume_path)).
Proof.
  assert (H1 : export_configs !! "config.yaml"
               = Some {| version := "0_1"; trainer_checkpoint_path := "checkpoints";
                         yaml_model := 3%nat |}) by (vm_compute; reflexivity).
  assert (H2 : resume_files !! resume_path = Some finished_checkpoint)
    by (vm_compute; reflexivity).
  assert (H3 : b_model finished_checkpoint
               = Some {| sd_prefixed := false; sd_tensors := [251; 252] |})
    by reflexivity.
  assert (H4 : compatible (MoodRecog 3%nat) [251; 252] = false) by reflexivity.
  split; [exact H1|]. split; [exact H2|]. split; [exact H3|]. split; [exact H4|].
  exact (C9_export_mismatch export_configs resume_files "config.yaml" resume_path
           _ _ _ H1 H2 H3 H4).
Defined.

(** The claim C9 as stated fails on an export whose configuration asks for
    three parameters while the checkpoint holds two: the error is
    [RuntimeError]. *)
Lemma C9_counterexample :
  compatible (MoodRecog 3%nat) [251; 252] = false
  /\ save_model export_configs resume_files "config.yaml" resume_path
     = ([], Raise RuntimeError)
  /\ ~ fails_with_CheckpointError
         (snd (save_model export_configs resume_files "config.yaml" resume_path)).
Proof.
  split; [reflexivity|].
  assert (E : save_model export_configs resume_files "config.yaml" resume_path
              = ([], Raise RuntimeError)) by (vm_compute; reflexivity).
  split; [exact E|]. rewrite E. intros (e & He & Hn). simpl in He.
  inversion He; subst e. discriminate Hn.
Qed.

(** An export that fits writes one artifact beside the checkpoint. *)
Example export_artifact :
  save_model
    {[ "config.yaml" := {| version := "0_1"; trainer_checkpoint_path := "checkpoints";
                           yaml_model := 2%nat |} ]}
    resume_files "config.yaml" resume_path
  = ([PackageExport "checkpoints/checkpoint_0_1/model-250steps.pt" [251; 252]], Ok tt).
Proof. vm_compute. reflexivity. Qed.

Lemma C10_witness :
  dl_eval (data_loader small_trainer) = []
  /\ (forall x : Z, x / 1 = x)
  /\ exists t',
       _eval_epoch small_trainer
       = (eval_events (steps small_trainer) (total_eval_loss small_trainer)
            (total_eval_score small_trainer), t', Ok tt)
       /\ total_eval_loss t' = [] /\ total_eval_score t' = []
       /\ training (inner (model t')) = true
       /\ (total_eval_loss small_trainer = [] -> total_eval_score small_trainer = [] ->
           _eval_epoch small_trainer
           = ([LoggerInfo (MsgStartEval (steps small_trainer)); ModelEval;
               LoggerInfo (MsgFinishedEval (steps small_trainer)); ModelTrain],
              t', Ok tt)).
Proof.
  assert (H1 : dl_eval (data_loader small_trainer) = []) by reflexivity.
  assert (H2 : forall x : Z, x / 1 = x) by (intros x; apply Z.div_1_r).
  split; [exact H1|]. split; [exact H2|].
  exact (C10_eval_no_batches small_trainer H1 H2).
Defined.

(** A pass over no batch on accumulators that hold something: the entries go
    out divided by 1. *)
Example no_batches_divisor :
  scalars (fst (fst (_eval_epoch
     (set_total_eval_loss [("eval/onset_loss", 7)] small_trainer))))
  = [("eval/onset_loss", 7, 0)]
  /\ snd (_eval_epoch (set_total_eval_loss [("eval/onset_loss", 7)] small_trainer))
     = Ok tt.
Proof. vm_compute. auto. Qed.

(** ** The further properties at work on small instances *)

Lemma zero_log_interval_witness :
  log_interval_steps (config zero_log_trainer) = 0
  /\ dl_train (data_loader zero_log_trainer) = toy_batch 1 2 :: [toy_batch 2 3]
  /\ exists t',
       run 5 zero_log_trainer
       = ([TqdmOpen (steps zero_log_trainer) (train_max_steps (config zero_log_trainer));
           ZeroGrad; OptimizerStep; StepCounter (steps zero_log_trainer + 1);
           TqdmUpdate], t', Some (Raise ZeroDivisionError))
       /\ steps t' = steps zero_log_trainer + 1 /\ epochs t' = epochs zero_log_trainer
       /\ total_train_loss t'
          = dict_iadd (total_train_loss zero_log_trainer) "train/onset_loss"
              (loss_fn zero_log_trainer
                 (model_call (model zero_log_trainer) (mel (toy_batch 1 2)))
                 (label (toy_batch 1 2))).
Proof.
  assert (H1 : log_interval_steps (config zero_log_trainer) = 0) by reflexivity.
  assert (H2 : dl_train (data_loader zero_log_trainer) = toy_batch 1 2 :: [toy_batch 2 3])
    by reflexivity.
  split; [exact H1|]. split; [exact H2|].
  exact (zero_log_interval_raises 4 (toy_batch 1 2) [toy_batch 2 3] zero_log_trainer H1 H2).
Defined.

Lemma empty_train_loader_witness :
  dl_train (data_loader stalled_trainer) = []
  /\ finish_train stalled_trainer = false
  /\ sampler_ok stalled_trainer
  /\ exists ev t',
       run 3 stalled_trainer = (ev, t', None)
       /\ steps t' = steps stalled_trainer
       /\ epochs t' = epochs stalled_trainer + Z.of_nat 3
       /\ processed ev = 0%nat /\ finish_train t' = false.
Proof.
  assert (H1 : dl_train (data_loader stalled_trainer) = []) by reflexivity.
  assert (H2 : finish_train stalled_trainer = false) by reflexivity.
  assert (H3 : sampler_ok stalled_trainer) by (intros H; simpl in H; discriminate).
  split; [exact H1|]. split; [exact H2|]. split; [exact H3|].
  exact (empty_train_loader_never_finishes 3 stalled_trainer H1 H2 H3).
Defined.

Lemma run_at_max_witness :
  finish_train late_trainer = false
  /\ train_max_steps (config late_trainer) <= steps late_trainer
  /\ dl_train (data_loader late_trainer) = toy_batch 1 2 :: [toy_batch 2 3]
  /\ match run 3 late_trainer with
     | (ev, t', r) =>
         steps t' = steps late_trainer + 1 /\ processed ev = 1%nat
         /\ finish_train t' = true /\ epochs t' = epochs late_trainer
         /\ r <> None
         /\ (fresh_accumulators late_trainer -> intervals_nonzero (config late_trainer) ->
             wired late_trainer -> r = Some (Ok tt))
     end.
Proof.
  assert (H1 : finish_train late_trainer = false) by reflexivity.
  assert (H2 : train_max_steps (config late_trainer) <= steps late_trainer)
    by (simpl; lia).
  assert (H3 : dl_train (data_loader late_trainer) = toy_batch 1 2 :: [toy_batch 2 3])
    by reflexivity.
  split; [exact H1|]. split; [exact H2|]. split; [exact H3|].
  exact (run_at_max_processes_one_batch 2 (toy_batch 1 2) [toy_batch 2 3] late_trainer
           H1 H2 H3).
Defined.

Lemma completed_run_epoch_witness :
  fresh_accumulators small_trainer
  /\ intervals_nonzero (config small_trainer)
  /\ wired small_trainer
  /\ finish_train small_trainer = false
  /\ steps small_trainer < train_max_steps (config small_trainer)
  /\ dl_train (data_loader small_trainer) <> []
  /\ (Z.to_nat (train_max_steps (config small_trainer) - steps small_trainer) <= 5)%nat
  /\ exists ev t',
       run 5 small_trainer = (ev, t', Some (Ok tt))
       /\ steps t' = train_max_steps (config small_trainer)
       /\ epochs t'
          = epochs small_trainer
            + (train_max_steps (config small_trainer) - steps small_trainer - 1)
              / Z.of_nat (length (dl_train (data_loader small_trainer))).
Proof.
  assert (H1 : fresh_accumulators small_trainer) by (repeat split).
  assert (H2 : intervals_nonzero (config small_trainer))
    by (repeat split; simpl; lia).
  assert (H3 : wired small_trainer).
  { split; [intros H; simpl in H; discriminate|].
    split; [intros H; simpl in H; discriminate|]. right. reflexivity. }
  assert (H4 : finish_train small_trainer = false) by reflexivity.
  assert (H5 : steps small_trainer < train_max_steps (config small_trainer))
    by (simpl; lia).
  assert (H6 : dl_train (data_loader small_trainer) <> []) by (simpl; discriminate).
  assert (H7 : (Z.to_nat (train_max_steps (config small_trainer) - steps small_trainer)
                <= 5)%nat) by (simpl; lia).
  split; [exact H1|]. split; [exact H2|]. split; [exact H3|]. split; [exact H4|].
  split; [exact H5|]. split; [exact H6|]. split; [exact H7|].
  exact (completed_run_epoch_counter 5 small_trainer H1 H2 H3 H4 H5 H6 H7).
Defined.

(** The pass in which the maximum is reached is not counted: five steps over
    a loader of two batches leave the epoch counter at 2. *)
Example small_run_epochs :
  epochs (snd (fst (run 5 small_trainer))) = 0 + (5 - 0 - 1) / 2.
Proof. vm_compute. reflexivity. Qed.

Lemma resume_continues_witness :
  midway_files !! midway_path
  = Some {| b_optimizer := Some 100; b_scheduler := Some 0; b_steps := Some 100;
            b_epochs := Some 99;
            b_model := Some {| sd_prefixed := false; sd_tensors := [101; 102] |} |}
  /\ wrapper_matches_config fresh_resume_trainer
  /\ compatible (weights (inner (model fresh_resume_trainer))) [101; 102] = true
  /\ fresh_accumulators fresh_resume_trainer
  /\ finish_train fresh_resume_trainer = false
  /\ intervals_nonzero (config fresh_resume_trainer)
  /\ wired fresh_resume_trainer
  /\ dl_train (data_loader fresh_resume_trainer) <> []
  /\ 100 < train_max_steps (config fresh_resume_trainer)
  /\ (Z.to_nat (train_max_steps (config fresh_resume_trainer) - 100) <= 150)%nat
  /\ exists t1 ev t',
       load_checkpoint midway_files midway_path false fresh_resume_trainer
       = ([], t1, Ok tt)
       /\ run 150 t1 = (ev, t', Some (Ok tt))
       /\ step_counters ev
          = seqZ (100 + 1) (train_max_steps (config fresh_resume_trainer) - 100)
       /\ actions ev
          = flat_map (interval_actions (config fresh_resume_trainer))
              (seqZ (100 + 1) (train_max_steps (config fresh_resume_trainer) - 100))
       /\ steps t' = train_max_steps (config fresh_resume_trainer)
       /\ epochs t'
          = 99 + (train_max_steps (config fresh_resume_trainer) - 100 - 1)
                 / Z.of_nat (length (dl_train (data_loader fresh_resume_trainer))).
Proof.
  assert (H1 : midway_files !! midway_path
               = Some {| b_optimizer := Some 100; b_scheduler := Some 0;
                         b_steps := Some 100; b_epochs := Some 99;
                         b_model := Some {| sd_prefixed := false;
                                            sd_tensors := [101; 102] |} |})
    by (vm_compute; reflexivity).
  assert (H2 : wrapper_matches_config fresh_resume_trainer) by reflexivity.
  assert (H3 : compatible (weights (inner (model fresh_resume_trainer))) [101; 102] = true)
    by reflexivity.
  assert (H4 : fresh_accumulators fresh_resume_trainer) by (repeat split).
  assert (H5 : finish_train fresh_resume_trainer = false) by reflexivity.
  assert (H6 : intervals_nonzero (config fresh_resume_trainer))
    by (repeat split; simpl; lia).
  assert (H7 : wired fresh_resume_trainer).
  { split; [intros H; simpl in H; discriminate|].
    split; [intros H; simpl in H; discriminate|]. right. reflexivity. }
  assert (H8 : dl_train (data_loader fresh_resume_trainer) <> [])
    by (simpl; discriminate).
  assert (H9 : 100 < train_max_steps (config fresh_resume_trainer)) by (simpl; lia).
  assert (H10 : (Z.to_nat (train_max_steps (config fresh_resume_trainer) - 100)
                 <= 150)%nat) by (simpl; lia).
  split; [exact H1|]. split; [exact H2|]. split; [exact H3|]. split; [exact H4|].
  split; [exact H5|]. split; [exact H6|]. split; [exact H7|]. split; [exact H8|].
  split; [exact H9|]. split; [exact H10|].
  exact (resume_continues_schedule midway_files midway_path [101; 102] 100 0 100 99
           150 fresh_resume_trainer H1 H2 H3 H4 H5 H6 H7 H8 H9 H10).
Defined.

Lemma load_not_atomic_witness :
  partial_files !! midway_path = Some partial_checkpoint
  /\ b_model partial_checkpoint
     = Some {| sd_prefixed := false; sd_tensors := [101; 102] |}
  /\ b_steps partial_checkpoint = Some 100
  /\ b_epochs partial_checkpoint = Some 99
  /\ b_optimizer partial_checkpoint = None
  /\ wrapper_matches_config fresh_resume_trainer
  /\ compatible (weights (inner (model fresh_resume_trainer))) [101; 102] = true
  /\ exists t',
       load_checkpoint partial_files midway_path false fresh_resume_trainer
       = ([], t', Raise (KeyError "optimizer"))
       /\ weights (inner (model t')) = [101; 102] /\ steps t' = 100 /\ epochs t' = 99
       /\ optimizer t' = optimizer fresh_resume_trainer
       /\ scheduler t' = scheduler fresh_resume_trainer.
Proof.
  assert (H1 : partial_files !! midway_path = Some partial_checkpoint)
    by (vm_compute; reflexivity).
  assert (H2 : b_model partial_checkpoint
               = Some {| sd_prefixed := false; sd_tensors := [101; 102] |})
    by reflexivity.
  assert (H3 : b_steps partial_checkpoint = Some 100) by reflexivity.
  assert (H4 : b_epochs partial_checkpoint = Some 99) by reflexivity.
  assert (H5 : b_optimizer partial_checkpoint = None) by reflexivity.
  assert (H6 : wrapper_matches_config fresh_resume_trainer) by reflexivity.
  assert (H7 : compatible (weights (inner (model fresh_resume_trainer))) [101; 102] = true)
    by reflexivity.
  split; [exact H1|]. split; [exact H2|]. split; [exact H3|]. split; [exact H4|].
  split; [exact H5|]. split; [exact H6|]. split; [exact H7|].
  exact (load_checkpoint_not_atomic partial_files midway_path partial_checkpoint
           [101; 102] 100 99 fresh_resume_trainer H1 H2 H3 H4 H5 H6 H7).
Defined.

Lemma needs_wrapper_witness :
  distributed (config unwrapped_trainer) = true
  /\ is_ddp (model unwrapped_trainer) = false
  /\ (forall path f_name,
         save_checkpoint path f_name unwrapped_trainer
         = ([], unwrapped_trainer, Raise AttributeError))
  /\ (forall (files : gmap string bundle) path flag b,
         files !! path = Some b ->
         load_checkpoint files path flag unwrapped_trainer
         = ([], unwrapped_trainer, Raise AttributeError)).
Proof.
  assert (H1 : distributed (config unwrapped_trainer) = true) by reflexivity.
  assert (H2 : is_ddp (model unwrapped_trainer) = false) by reflexivity.
  split; [exact H1|]. split; [exact H2|].
  exact (distributed_config_needs_wrapper unwrapped_trainer H1 H2).
Defined.

Lemma needs_sampler_witness :
  distributed (config unwrapped_trainer) = true
  /\ sampler_train (sampler unwrapped_trainer) = None
  /\ epoch_boundary unwrapped_trainer
     = ([LoggerInfo (MsgEpoch (epochs unwrapped_trainer + 1) (steps unwrapped_trainer))],
        set_epochs (epochs unwrapped_trainer + 1) unwrapped_trainer,
        Raise AttributeError).
Proof.
  assert (H1 : distributed (config unwrapped_trainer) = true) by reflexivity.
  assert (H2 : sampler_train (sampler unwrapped_trainer) = None) by reflexivity.
  split; [exact H1|]. split; [exact H2|].
  exact (distributed_config_needs_sampler unwrapped_trainer H1 H2).
Defined.

Lemma wrapper_checkpoint_witness :
  distributed (config wrapped_trainer) = false
  /\ is_ddp (model wrapped_trainer) = true
  /\ wrapper_matches_config small_trainer
  /\ exists ev,
       save_checkpoint "ckpt" "checkpoint-3steps.pkl" wrapped_trainer
       = (ev, wrapped_trainer, Ok tt)
       /\ load_checkpoint (write_files ∅ ev)
            ("ckpt" +:+ "/" +:+ "checkpoint-3steps.pkl") false small_trainer
          = ([], small_trainer, Raise RuntimeError)
       /\ (compatible (weights (inner (model wrapped_trainer)))
             (weights (inner (model wrapped_trainer))) = true ->
           snd (load_checkpoint (write_files ∅ ev)
                  ("ckpt" +:+ "/" +:+ "checkpoint-3steps.pkl") false wrapped_trainer)
           = Ok tt).
Proof.
  assert (H1 : distributed (config wrapped_trainer) = false) by reflexivity.
  assert (H2 : is_ddp (model wrapped_trainer) = true) by reflexivity.
  assert (H3 : wrapper_matches_config small_trainer) by reflexivity.
  split; [exact H1|]. split; [exact H2|]. split; [exact H3|].
  exact (wrapper_checkpoint_is_not_portable wrapped_trainer small_trainer ∅ "ckpt"
           "checkpoint-3steps.pkl" false H1 H2 H3).
Defined.

Lemma eval_error_witness :
  crit_call (criterion failing_eval_trainer) = None
  /\ dl_eval (data_loader failing_eval_trainer) = toy_batch 1 1 :: []
  /\ exists t',
       _eval_epoch failing_eval_trainer
       = ([LoggerInfo (MsgStartEval (steps failing_eval_trainer)); ModelEval], t',
          Raise TypeError)
       /\ training (inner (model t')) = false
       /\ total_eval_loss t'
          = dict_missing
              (dict_iadd (total_eval_loss failing_eval_trainer) "eval/onset_loss"
                 (eval_loss failing_eval_trainer (toy_batch 1 1))) "eval/score"
       /\ total_train_loss t' = total_train_loss failing_eval_trainer
       /\ steps t' = steps failing_eval_trainer.
Proof.
  assert (H1 : crit_call (criterion failing_eval_trainer) = None) by reflexivity.
  assert (H2 : dl_eval (data_loader failing_eval_trainer) = toy_batch 1 1 :: [])
    by reflexivity.
  split; [exact H1|]. split; [exact H2|].
  exact (eval_error_leaves_inference_mode (toy_batch 1 1) [] failing_eval_trainer H1 H2).
Defined.

Lemma saves_on_schedule_witness :
  fresh_accumulators small_trainer
  /\ intervals_nonzero (config small_trainer)
  /\ wrapped_ok small_trainer
  /\ match run 5 small_trainer with
     | (ev, _, r) =>
         saves ev
         = map (fun s => (checkpoint_file (config small_trainer) s, s))
             (List.filter (fun s => s mod save_interval_steps (config small_trainer) =? 0)
                (step_counters ev))
         /\ (finish_train small_trainer = false ->
             steps small_trainer < train_max_steps (config small_trainer) ->
             r = Some (Ok tt) ->
             saves ev
             = map (fun s => (checkpoint_file (config small_trainer) s, s))
                 (List.filter
                    (fun s => s mod save_interval_steps (config small_trainer) =? 0)
                    (seqZ (steps small_trainer + 1)
                       (train_max_steps (config small_trainer) - steps small_trainer))))
     end.
Proof.
  assert (H1 : fresh_accumulators small_trainer) by (repeat split).
  assert (H2 : intervals_nonzero (config small_trainer))
    by (repeat split; simpl; lia).
  assert (H3 : wrapped_ok small_trainer) by (intros H; simpl in H; discriminate).
  split; [exact H1|]. split; [exact H2|]. split; [exact H3|].
  exact (save_schedule 5 small_trainer H1 H2 H3).
Defined.

Lemma checkpoint_file_witness :
  100 <> 200
  /\ checkpoint_file toy_config 100 <> checkpoint_file toy_config 200.
Proof.
  assert (H1 : 100 <> 200) by lia.
  split; [exact H1|].
  exact (checkpoint_file_injective toy_config 100 200 H1).
Defined.

Lemma never_overwrites_witness :
  fresh_accumulators scenario_trainer
  /\ intervals_nonzero (config scenario_trainer)
  /\ wrapped_ok scenario_trainer
  /\ NoDup (map fst (saves (fst (fst (run 250 scenario_trainer))))).
Proof.
  assert (H1 : fresh_accumulators scenario_trainer) by (repeat split).
  assert (H2 : intervals_nonzero (config scenario_trainer))
    by (repeat split; simpl; lia).
  assert (H3 : wrapped_ok scenario_trainer) by (intros H; simpl in H; discriminate).
  split; [exact H1|]. split; [exact H2|]. split; [exact H3|].
  exact (run_never_overwrites_checkpoint 250 scenario_trainer H1 H2 H3).
Defined.

Lemma export_of_saved_witness :
  wrapper_matches_config eval_trainer
  /\ no_trailing_slash (checkpoint_path (config eval_trainer))
  /\ fitting_configs !! "config.yaml"
     = Some {| version := "0_1"; trainer_checkpoint_path := "ckpt";
               yaml_model := 2%nat |}
  /\ compatible (MoodRecog 2%nat) (weights (inner (model eval_trainer))) = true
  /\ exists ev,
       save_checkpoint (checkpoint_path (config eval_trainer))
         ("checkpoint-" +:+ py_str (steps eval_trainer) +:+ "steps.pkl") eval_trainer
       = (ev, eval_trainer, Ok tt)
       /\ save_model fitting_configs (write_files ∅ ev) "config.yaml"
            (checkpoint_file (config eval_trainer) (steps eval_trainer))
          = ([PackageExport
                (checkpoint_path (config eval_trainer) +:+ "/model-"
                   +:+ py_str (steps eval_trainer) +:+ "steps.pt")
                (weights (inner (model eval_trainer)))], Ok tt).
Proof.
  assert (H1 : wrapper_matches_config eval_trainer) by reflexivity.
  assert (H2 : no_trailing_slash (checkpoint_path (config eval_trainer))).
  { exists ["c"; "k"; "p"]%char, "t"%char. split; reflexivity. }
  assert (H3 : fitting_configs !! "config.yaml"
               = Some {| version := "0_1"; trainer_checkpoint_path := "ckpt";
                         yaml_model := 2%nat |}) by (vm_compute; reflexivity).
  assert (H4 : compatible (MoodRecog 2%nat) (weights (inner (model eval_trainer))) = true)
    by reflexivity.
  split; [exact H1|]. split; [exact H2|]. split; [exact H3|]. split; [exact H4|].
  exact (export_of_saved_checkpoint eval_trainer fitting_configs ∅ "config.yaml" _
           H1 H2 H3 H4).
Defined.

(** The artifact of the checkpoint of step 4. *)
Example export_of_saved_name :
  checkpoint_path (config eval_trainer) +:+ "/model-"
    +:+ py_str (steps eval_trainer) +:+ "steps.pt"
  = "ckpt/model-4steps.pt".
Proof. vm_compute. reflexivity. Qed.

(** The failing run stops at step 4, the first evaluation step. *)
Example failing_run_steps :
  step_counters (fst (fst (run 5 failing_eval_trainer))) = [1; 2; 3; 4]
  /\ steps (snd (fst (run 5 failing_eval_trainer))) = 4.
Proof. vm_compute. auto. Qed.

Lemma logged_loss_witness :
  fresh_accumulators window_trainer
  /\ intervals_nonzero (config window_trainer)
  /\ wired window_trainer
  /\ finish_train window_trainer = false
  /\ window_batches <> []
  /\ steps window_trainer + Z.of_nat (length window_batches)
     <= train_max_steps (config window_trainer)
  /\ (forall i, 0 < i < Z.of_nat (length window_batches) ->
                (steps window_trainer + i) mod log_interval_steps (config window_trainer)
                <> 0)
  /\ (steps window_trainer + Z.of_nat (length window_batches))
     mod log_interval_steps (config window_trainer) = 0
  /\ train_scalars (fst (fst (train_loop window_batches window_trainer)))
     = [(fdiv (fsum (train_losses window_batches window_trainer))
              (log_interval_steps (config window_trainer)),
         steps window_trainer + Z.of_nat (length window_batches))].
Proof.
  assert (H1 : fresh_accumulators window_trainer) by (repeat split).
  assert (H2 : intervals_nonzero (config window_trainer))
    by (repeat split; simpl; lia).
  assert (H3 : wired window_trainer).
  { split; [intros H; simpl in H; discriminate|].
    split; [intros H; simpl in H; discriminate|]. right. reflexivity. }
  assert (H4 : finish_train window_trainer = false) by reflexivity.
  assert (H5 : window_batches <> []) by discriminate.
  assert (H6 : steps window_trainer + Z.of_nat (length window_batches)
               <= train_max_steps (config window_trainer)) by (simpl; lia).
  assert (H7 : forall i, 0 < i < Z.of_nat (length window_batches) ->
                 (steps window_trainer + i)
                 mod log_interval_steps (config window_trainer) <> 0).
  { intros i Hi. simpl in Hi.
    assert (Hc : i = 1 \/ i = 2) by lia.
    destruct Hc as [-> | ->]; vm_compute; discriminate. }
  assert (H8 : (steps window_trainer + Z.of_nat (length window_batches))
               mod log_interval_steps (config window_trainer) = 0) by reflexivity.
  split; [exact H1|]. split; [exact H2|]. split; [exact H3|]. split; [exact H4|].
  split; [exact H5|]. split; [exact H6|]. split; [exact H7|]. split; [exact H8|].
  exact (logged_training_loss window_batches window_trainer H1 H2 H3 H4 H5 H6 H7 H8).
Defined.

(** Three losses accumulated, divided by the interval of ten. *)
Example window_scalar :
  train_scalars (fst (fst (train_loop window_batches window_trainer)))
  = [((4 + 16 + 81) / 10, 10)].
Proof. vm_compute. reflexivity. Qed.

Lemma first_evaluation_witness :
  fresh_accumulators failing_eval_trainer
  /\ intervals_nonzero (config failing_eval_trainer)
  /\ wrapped_ok failing_eval_trainer
  /\ sampler_ok failing_eval_trainer
  /\ crit_call (criterion failing_eval_trainer) = None
  /\ dl_eval (data_loader failing_eval_trainer) <> []
  /\ dl_train (data_loader failing_eval_trainer) <> []
  /\ finish_train failing_eval_trainer = false
  /\ steps failing_eval_trainer < 4 <= train_max_steps (config failing_eval_trainer)
  /\ 4 mod eval_interval_steps (config failing_eval_trainer) = 0
  /\ (forall s, steps failing_eval_trainer < s < 4 ->
                s mod eval_interval_steps (config failing_eval_trainer) <> 0)
  /\ (Z.to_nat (4 - steps failing_eval_trainer) <= 4)%nat
  /\ exists ev t',
       run 4 failing_eval_trainer = (ev, t', Some (Raise TypeError))
       /\ steps t' = 4
       /\ step_counters ev
          = seqZ (steps failing_eval_trainer + 1) (4 - steps failing_eval_trainer)
       /\ training (inner (model t')) = false.
Proof.
  assert (H1 : fresh_accumulators failing_eval_trainer) by (repeat split).
  assert (H2 : intervals_nonzero (config failing_eval_trainer))
    by (repeat split; simpl; lia).
  assert (H3 : wrapped_ok failing_eval_trainer) by (intros H; simpl in H; discriminate).
  assert (H4 : sampler_ok failing_eval_trainer) by (intros H; simpl in H; discriminate).
  assert (H5 : crit_call (criterion failing_eval_trainer) = None) by reflexivity.
  assert (H6 : dl_eval (data_loader failing_eval_trainer) <> []) by (simpl; discriminate).
  assert (H7 : dl_train (data_loader failing_eval_trainer) <> []) by (simpl; discriminate).
  assert (H8 : finish_train failing_eval_trainer = false) by reflexivity.
  assert (H9 : steps failing_eval_trainer < 4
               <= train_max_steps (config failing_eval_trainer)) by (simpl; lia).
  assert (H10 : 4 mod eval_interval_steps (config failing_eval_trainer) = 0)
    by reflexivity.
  assert (H11 : forall s, steps failing_eval_trainer < s < 4 ->
                  s mod eval_interval_steps (config failing_eval_trainer) <> 0).
  { intros s Hs. simpl in Hs.
    assert (Hc : s = 1 \/ s = 2 \/ s = 3) by lia.
    destruct Hc as [-> | [-> | ->]]; vm_compute; discriminate. }
  assert (H12 : (Z.to_nat (4 - steps failing_eval_trainer) <= 4)%nat) by (simpl; lia).
  split; [exact H1|]. split; [exact H2|]. split; [exact H3|]. split; [exact H4|].
  split; [exact H5|]. split; [exact H6|]. split; [exact H7|]. split; [exact H8|].
  split; [exact H9|]. split; [exact H10|]. split; [exact H11|]. split; [exact H12|].
  exact (uncallable_criterion_stops_at_first_evaluation 4 4 failing_eval_trainer
           H1 H2 H3 H4 H5 H6 H7 H8 H9 H10 H11 H12).
Defined.
